(* ===== verification/_CoqProject ===== *)
-Q . S2P
Prelude.v
JsString.v
Pixels.v
Font.v
Text.v
Shapes.v
Icons.v
Layout.v
Render.v
Bmp.v
Worker.v
Firmware.v
