(* ===== verification/Prelude.v ===== *)
(** * A verification development of the CrossPoint calendar worker

    The program ([src/worker/src/index.ts], one TypeScript file, lines
    1-744) is a Cloudflare worker that paints a 480x800 8-bit grayscale
    status page (current weather and a multi-day agenda) and returns it as
    a BMP file.  The same file carries, after line 744, the design document
    of the e-reader firmware that downloads the picture (lines 745-1150,
    with C++ listings of a [CalendarActivity] state machine and of
    [setup()]) and a short status note (lines 1150-1177).  The parts, leaf
    first, and how they interact:

    - a Uint8Array pixel buffer ([new Uint8Array(width*height)],
      [pixels.fill(PAPER_WHITE)]), written by every drawing routine
      through [pixels[py * width + px] = color];
    - the glyph rasterizer [drawChar] over the constant 8x12 font table
      [FONT_DATA];
    - the text primitives [drawText], [getTextWidth], [drawCenteredText],
      [drawRightAlignedText];
    - the shape primitives [fillRect], [drawHLine], [drawDashedHLine];
    - the weather icons [drawWeatherIcon] and [drawCloudShape];
    - the page composer [renderDisplay]: weather band, date header, the
      agenda loop (day headers, events, title truncation, "+N more"
      overflow marker) and the footer;
    - the encoder [createBMP], the only code that produces file bytes;
    - the data adapters [fetchWeather] (with the table [WMO_CODES]),
      [fetchCalendarEvents] (with [getDayLabel]) and [getMockEvents], and
      the request handler [fetch], which parses the dimensions, runs the
      two adapters, renders and encodes;
    - on the device, [CalendarActivity] (connect, fetch, render, schedule
      the wake-up, sleep; an error state) entered by [setup()] on a timer
      wake.

    The composer calls the primitives, which all write the one shared
    pixel buffer; the handler passes the adapters' results to the composer
    and the finished buffer to the encoder; the device fetches the file.

    ** Files, in dependency order

    - [Prelude] (this file): the JavaScript [for] loop as a combinator
      ([for_lt]), the error monad of thrown exceptions (stdpp's [option]
      monad), the hint database
      [calendar] and the shared Ltac.
    - [JsString]: JavaScript strings as lists of UTF-16 code units, the
      [for (const c of s)] iteration over code points ([code_points]),
      [String.prototype.slice] ([js_slice]), the printing of integral
      numbers in template literals ([z_to_dec]) and [parseInt]
      ([js_parseInt]) with its [|| default] ([js_or_num]).
    - [Pixels]: the Uint8Array model [u8arr] (length, fill value and a
      [gmap] of written cells) with the typed-array semantics of the source:
      an index write outside [0, length) is silently dropped and a stored
      value is converted with ToUint8 ([mod 256]).  It also holds the
      "paints" calculus ([paints f T v]: [f] sets exactly the cells of [T]
      to [v]) and the "touches" calculus ([touches f S]: [f] changes no
      cell outside [S] and keeps the length and the invariant), both
      closed under sequencing, conditionals and [for] loops.
    - [Font]: [FONT_DATA] (a [gmap] from one-character strings to twelve
      rows, transcribed from the table), [drawChar], and the theorem that
      [drawChar] paints exactly the scaled glyph, clipped to the canvas.
    - [Text]: [drawText] and the width and alignment helpers.
    - [Shapes]: [fillRect], [drawHLine], [drawDashedHLine] (a [while] loop,
      modelled with fuel and proved to terminate when its steps are
      positive).
    - [Icons]: [drawWeatherIcon], its seven icons and [drawCloudShape].
      [Math.round] is exact ([js_round], floor of [x + 1/2] on rationals);
      [Math.round(c + r * Math.cos(rad))] is the class [JsTrig] with the
      range laws the icon theorems need, instantiated by [trig_table] (a
      table of cosines at whole degrees).
    - [Layout]: title truncation ([truncateTitle], the source's [while]
      loop) and the page composer written against the [Canvas] class, with
      the display-list instance used to state the layout theorems.
    - [Render]: [renderDisplay] itself (allocation and fill) with the
      buffer instance [pixel_canvas] of [Canvas].
    - [Bmp]: [createBMP] written as the source's sequence of [DataView] and
      index stores, the byte layout it produces, and a decoder with the
      round trip [parse_bmp (createBMP w h px) = (w, h, px)].
    - [Worker]: [WMO_CODES], [fetchWeather], [getDayLabel],
      [fetchCalendarEvents] (grouping [Map] as an association list in
      insertion order, stable sort, [unshift]), [getMockEvents] and the
      handler [worker_fetch].  The network answers and the runtime's [Date]
      functions ([DateOps], [Clock]) are inputs.
    - [Firmware]: [CalendarActivity] and [setup()] as state passing over a
      [Device] (current activity, settings, log of hardware effects), one
      [LoopInput] per call of [loop()], 32-bit [millis()] and 64-bit
      sleep duration; the runs form the inductive [reachable]; the
      default settings and the settings menu's entries as data.

    ** What the theorems show (groups)

    - Buffer safety: every primitive, icon and the whole composer only
      change pixels of their footprint, never an index outside the buffer
      (typed-array writes out of range are no-ops), and preserve the buffer
      invariant (length fixed, bytes in [0, 256)).
    - Functional behaviour: [drawChar] paints exactly the set bits of the
      glyph scaled by [scale]; [drawText] paints exactly the glyphs of its
      code points and changes no pixel outside a box of [8*scale] per code
      point, at most [getTextWidth] and exactly it without surrogate pairs;
      icons are dispatched as the specification's table says and stay in a
      49x49 box; with no calendar day the agenda band stays white.
    - Layout: truncation terminates and agrees with a closed form; the
      agenda's inner loop draws exactly the events that fit and one
      "+N more" marker whose N counts the others, and that marker is the
      last command of the agenda.
    - Encoding: the BMP bytes are exactly header, identity gray palette and
      padded top-down rows; decoding them gives back width, height and
      pixels; the encoder throws exactly when the file is shorter than its
      54 header bytes.
    - Adapters and handler: the calendar starts with [TODAY], groups its
      events like its reference, falls back to the mock agenda on a
      malformed item, and labels every day with the specification's label
      type; on the mock-agenda path the handler's body decodes to exactly
      the rendered buffer (385078 bytes by default); a negative
      [DISPLAY_WIDTH] makes it throw.
    - Firmware: the WiFi timeout fires exactly after 30000 ms, also across
      the [millis()] rollover; the sleep duration does not overflow; the
      reachable states keep the activity's invariant; [setup] dispatches
      on the wake cause; every run stops within 93004 calls of [loop()];
      the success path never arms the wake-up timer; and a run that ends in
      deep sleep has armed it for exactly the configured hours.
    - Findings proved as theorems: the sun icon is one pixel wider than
      the 48-pixel footprint; a negative [DISPLAY_WIDTH] makes the handler
      throw; the success path of the device never arms the wake-up timer.
      The [Example] [fetchCalendarEvents_today_twice] shows an agenda with
      two [TODAY] days.

    ** Bounds and fuel

    Coordinates and sizes are [Z]; the source computes with doubles but
    only on integers well inside 2^53, so no rounding arises except in the
    icons, where [Math.round] is modelled exactly on rationals.  [for]
    loops are run with fuel [Z.to_nat (hi - lo)], which is exactly their
    iteration count.  The dashed-line [while] loop is given the fuel
    [Z.to_nat (x2 - x1) + 1]; [drawDashedHLine_terminates] shows it is
    enough whenever the dash and gap lengths are positive.  The title
    [while] loop runs with the title's length as fuel
    ([truncateTitle_fits]).  The firmware's termination bound 93004 is
    the sum of the calls each phase allows at one call per millisecond
    (30001 + 60001 + 3001 + 1), proved with a decreasing measure.

    ** Not modelled

    The network, JSON parsing, the JavaScript [Date] functions and
    [toLocaleTimeString] are library calls: their results enter the model
    as inputs ([WeatherResponse], [DateOps], [Clock], [GeneratedAt]), so
    the time-zone behaviour of [toDateString] is not derived.  On the
    device, WiFi, HTTP, the SD card and the screen are inputs and logged
    effects; the menu's editing code, [testCalendarMode] and the settings
    serialization are named by the document but not listed, and the prose,
    tables and shell commands of the two documents are not code of the
    program.  [toLocaleTimeString] and [toDateString] are the reason the
    JavaScript strings are only partly modelled.  An Invalid Date (the
    [NaN] time of [new Date('')]) is not represented (see [Worker]); the
    engine's upper limit on a typed array's length is not modelled
    (see [Render]); [z_to_dec] prints integers as [toString] does below
    [10^21]. *)

From stdpp Require Export base list list_numbers gmap strings.
From Stdlib Require Export ZArith Lia.
From Stdlib Require Ascii String.

Declare Scope calendar_scope.
Delimit Scope calendar_scope with cal.

Create HintDb calendar discriminated.
Create Rewrite HintDb calendar_rw.
Create Rewrite HintDb replay_rw.

Local Open Scope Z_scope.

(** ** The JavaScript counting loop

    [for (let i = lo; i < hi; i++) body] over a state [S]: [for_up n i]
    runs [n] iterations from [i]. *)

Fixpoint for_up {S : Type} (n : nat) (i : Z) (body : Z -> S -> S) (s : S) : S :=
  match n with
  | O => s
  | S n' => for_up n' (Z.succ i) body (body i s)
  end.

Definition for_lt {S : Type} (lo hi : Z) (body : Z -> S -> S) (s : S) : S :=
  for_up (Z.to_nat (hi - lo)) lo body s.

Notation "'FOR' i 'IN' [ lo , hi ) 'DO' body 'FROM' s" :=
  (for_lt lo hi (fun i => body) s)
  (at level 10, i binder, body at level 200, format "'FOR'  i  'IN'  [ lo ,  hi )  'DO'  body  'FROM'  s")
  : calendar_scope.

Section ForLoop.
Context {St : Type}.
Implicit Types (body : Z -> St -> St) (s : St).

Lemma for_lt_empty lo hi body s : hi <= lo -> for_lt lo hi body s = s.
Proof. intros H. unfold for_lt. by replace (Z.to_nat (hi - lo)) with O by lia. Qed.

Lemma for_lt_unroll lo hi body s :
  lo < hi -> for_lt lo hi body s = for_lt (Z.succ lo) hi body (body lo s).
Proof.
  intros H. unfold for_lt.
  replace (Z.to_nat (hi - lo)) with (S (Z.to_nat (hi - Z.succ lo))) by lia.
  reflexivity.
Qed.

Lemma for_up_snoc n i body s :
  for_up (S n) i body s = body (i + Z.of_nat n) (for_up n i body s).
Proof.
  revert i s. induction n as [|n IH]; intros i s; simpl.
  - by rewrite Z.add_0_r.
  - change (for_up (S n) (Z.succ i) body (body i s) =
            body (i + Z.of_nat (S n)) (for_up n (Z.succ i) body (body i s))).
    rewrite IH. f_equal. lia.
Qed.

Lemma for_lt_snoc lo hi body s :
  lo <= hi -> for_lt lo (Z.succ hi) body s = body hi (for_lt lo hi body s).
Proof.
  intros H. unfold for_lt.
  replace (Z.to_nat (Z.succ hi - lo)) with (S (Z.to_nat (hi - lo))) by lia.
  rewrite for_up_snoc. f_equal. lia.
Qed.

Lemma for_up_app n m i body s :
  for_up (n + m) i body s = for_up m (i + Z.of_nat n) body (for_up n i body s).
Proof.
  revert i s. induction n as [|n IH]; intros i s; simpl.
  - by rewrite Z.add_0_r.
  - rewrite IH. f_equal. lia.
Qed.

Lemma for_lt_split lo mid hi body s :
  lo <= mid <= hi ->
  for_lt lo hi body s = for_lt mid hi body (for_lt lo mid body s).
Proof.
  intros H. unfold for_lt.
  replace (Z.to_nat (hi - lo)) with (Z.to_nat (mid - lo) + Z.to_nat (hi - mid))%nat by lia.
  rewrite for_up_app. f_equal. lia.
Qed.

(** The loop invariant rule. *)
Lemma for_lt_ind (P : St -> Prop) lo hi body s :
  P s -> (forall i s', lo <= i < hi -> P s' -> P (body i s')) ->
  P (for_lt lo hi body s).
Proof.
  unfold for_lt. intros Hs Hb.
  remember (Z.to_nat (hi - lo)) as n eqn:Hn.
  revert lo s Hn Hs Hb. induction n as [|n IH]; intros lo s Hn Hs Hb; simpl; [done|].
  apply (IH (Z.succ lo)); [lia| apply Hb; [lia|done] |].
  intros i s' Hi. apply Hb. lia.
Qed.

(** Two loops with the same bounds whose bodies agree inside the bounds
    compute the same state. *)
Lemma for_lt_ext lo hi body1 body2 s :
  (forall i s', lo <= i < hi -> body1 i s' = body2 i s') ->
  for_lt lo hi body1 s = for_lt lo hi body2 s.
Proof.
  unfold for_lt. remember (Z.to_nat (hi - lo)) as n eqn:Hn.
  revert lo s Hn. induction n as [|n IH]; intros lo s Hn Hb; simpl; [done|].
  rewrite Hb by lia. apply IH; [lia|]. intros i s' Hi. apply Hb. lia.
Qed.
End ForLoop.

(** ** Integer helpers *)

(** [Math.ceil(a / b)] for integers [a] and a positive [b]. *)
Definition ceil_div (a b : Z) : Z := - ((- a) / b).

Lemma ceil_div_spec a b :
  0 < b -> (ceil_div a b - 1) * b < a <= ceil_div a b * b.
Proof.
  intros Hb. unfold ceil_div.
  pose proof (Z.div_mod (- a) b ltac:(lia)).
  pose proof (Z.mod_pos_bound (- a) b Hb). nia.
Qed.

Lemma ceil_div_nonneg a b : 0 < b -> 0 <= a -> 0 <= ceil_div a b.
Proof. intros Hb Ha. pose proof (ceil_div_spec a b Hb). nia. Qed.

(** Bounded existential quantification over a [for] range, as a boolean. *)
Lemma existsb_seqZ (f : Z -> bool) lo n :
  existsb f (seqZ lo n) = true <-> exists i, lo <= i < lo + n /\ f i = true.
Proof.
  rewrite List.existsb_exists. setoid_rewrite <- list_elem_of_In.
  setoid_rewrite elem_of_seqZ. done.
Qed.

(** Euclidean division by a positive divisor, read backwards. *)
Lemma div_mod_of_decomp (a b q r : Z) :
  0 <= r < b -> a = q * b + r -> a / b = q /\ a mod b = r.
Proof.
  intros Hr ->. split.
  - symmetry. apply (Z.div_unique_pos _ _ _ r); [done|lia].
  - symmetry. apply (Z.mod_unique_pos _ _ q); [done|lia].
Qed.

(** A non-negative offset into rows of [b] cells: its row and column. *)
Lemma Z_row_col (a b : Z) :
  0 < b -> 0 <= a -> exists q r, a = q * b + r /\ 0 <= r < b /\ 0 <= q.
Proof.
  intros Hb Ha. exists (a / b), (a mod b).
  pose proof (Z.div_mod a b ltac:(lia)). pose proof (Z.mod_pos_bound a b Hb).
  pose proof (Z.div_pos a b Ha Hb). lia.
Qed.

(** ** Options *)

Lemma bind_Some {A B} (x : A) (f : A -> option B) : (Some x ≫= f) = f x.
Proof. reflexivity. Qed.

Lemma bind_is_Some {A B} (m : option A) (f : A -> option B) :
  is_Some (m ≫= f) -> exists x, m = Some x /\ is_Some (f x).
Proof. destruct m; cbn; [eauto|by intros []]. Qed.

(** ** Lists of fixed-size blocks *)

(** [l ≫= f] with blocks of a common length [m]: its length, and its
    element [r] of block [i]. *)
Lemma length_bind_blocks {A B} (l : list A) (f : A -> list B) m :
  (forall a, length (f a) = m) -> length (l ≫= f) = (length l * m)%nat.
Proof.
  intros Hf. induction l as [|a l IH]; [done|].
  rewrite bind_cons, length_app, IH, Hf. cbn [length]. lia.
Qed.

Lemma lookup_bind_blocks {A B} (l : list A) (f : A -> list B) m i r a :
  (forall a, length (f a) = m) -> l !! i = Some a -> (r < m)%nat ->
  (l ≫= f) !! (i * m + r)%nat = f a !! r.
Proof.
  intros Hf. revert i. induction l as [|b l IH]; intros i Hi Hr; [done|].
  rewrite bind_cons. destruct i as [|i]; cbn [lookup list_lookup] in Hi.
  - simplify_eq. rewrite lookup_app_l by (rewrite Hf; lia). by rewrite Nat.add_0_l.
  - rewrite lookup_app_r by (rewrite Hf; lia). rewrite Hf.
    replace (S i * m + r - m)%nat with (i * m + r)%nat by lia. by apply IH.
Qed.

(** ** Shared tactics *)

(** Close a goal of linear arithmetic after unfolding boolean tests. *)
Ltac zify_bool :=
  repeat match goal with
  | H : (_ <=? _) = true |- _ => apply Z.leb_le in H
  | H : (_ <=? _) = false |- _ => apply Z.leb_gt in H
  | H : (_ <? _) = true |- _ => apply Z.ltb_lt in H
  | H : (_ <? _) = false |- _ => apply Z.ltb_ge in H
  | H : (_ =? _) = true |- _ => apply Z.eqb_eq in H
  | H : (_ =? _) = false |- _ => apply Z.eqb_neq in H
  end.

Ltac range := zify_bool; lia.

(** Evaluate sums, differences and products of integer literals in the
    goal, so that offsets computed by the code and by a specification
    meet syntactically. *)
Ltac fold_Zcsts :=
  repeat match goal with
  | |- context [?op ?a ?b] =>
      match op with Z.add => idtac | Z.mul => idtac | Z.sub => idtac end;
      match isZcst a with true => idtac end;
      match isZcst b with true => idtac end;
      let c := eval cbv in (op a b) in change (op a b) with c
  end.

#[export] Hint Resolve for_lt_empty for_lt_unroll : calendar.
