(* ===== verification/JsString.v ===== *)
(** * JavaScript strings

    A JavaScript string is a sequence of UTF-16 code units; [s.length]
    counts code units, [s.slice] cuts code units, but [for (const c of s)]
    (used by [drawText], index.ts line 393) walks code points: a high
    surrogate followed by a low surrogate is one step.  [FONT_DATA] is a
    JavaScript object indexed by the one-code-point strings this loop
    yields.  The template literals of the composer print integral numbers
    ([`${weather.temperature}`], [`+${remaining} more...`]).

    [js] turns a Rocq string literal into its code units (every character
    of the program's literals is in Latin-1, where a byte is its own code
    unit, including the degree sign U+00B0). *)

From S2P Require Import Prelude.
From Stdlib Require DecimalPos.
Local Open Scope Z_scope.

(** A string, as its UTF-16 code units. *)
Definition jstr := list Z.

Definition js (s : string) : jstr :=
  (fun c => Z.of_nat (Ascii.nat_of_ascii c)) <$> String.list_ascii_of_string s.

(** [s.length]. *)
Definition js_length (s : jstr) : Z := Z.of_nat (length s).

Definition is_high_surrogate (u : Z) : bool := (0xD800 <=? u) && (u <=? 0xDBFF).
Definition is_low_surrogate (u : Z) : bool := (0xDC00 <=? u) && (u <=? 0xDFFF).

(** The strings [for (const c of s)] yields: surrogate pairs are kept
    together, every other code unit (a lone surrogate included) is a
    string of its own. *)
Fixpoint code_points (s : jstr) : list jstr :=
  match s with
  | [] => []
  | u :: rest =>
      match rest with
      | v :: rest' =>
          if is_high_surrogate u && is_low_surrogate v then [u; v] :: code_points rest'
          else [u] :: code_points rest
      | [] => [[u]]
      end
  end.

(** [String.prototype.slice(start, end)]: negative positions count from
    the end, both are clamped to [0, length]. *)
Definition js_rel_index (len i : Z) : Z :=
  if decide (i < 0) then Z.max (len + i) 0 else Z.min i len.

Definition js_slice (s : jstr) (start end_ : Z) : jstr :=
  let len := js_length s in
  let from := js_rel_index len start in
  let to := js_rel_index len end_ in
  take (Z.to_nat (to - from)) (drop (Z.to_nat from) s).

(** The decimal digits of a number, as [Number.prototype.toString] prints
    an integral value of magnitude below [10^21] (from [10^21] on it
    switches to exponent form, ["1e+21"]; the values the composer prints,
    temperatures and event counts, are far below). *)
Fixpoint uint_chars (d : Decimal.uint) : jstr :=
  match d with
  | Decimal.Nil => []
  | Decimal.D0 d => 48 :: uint_chars d
  | Decimal.D1 d => 49 :: uint_chars d
  | Decimal.D2 d => 50 :: uint_chars d
  | Decimal.D3 d => 51 :: uint_chars d
  | Decimal.D4 d => 52 :: uint_chars d
  | Decimal.D5 d => 53 :: uint_chars d
  | Decimal.D6 d => 54 :: uint_chars d
  | Decimal.D7 d => 55 :: uint_chars d
  | Decimal.D8 d => 56 :: uint_chars d
  | Decimal.D9 d => 57 :: uint_chars d
  end.

Definition z_to_dec (z : Z) : jstr :=
  match z with
  | Z0 => [48]
  | Zpos p => uint_chars (Pos.to_uint p)
  | Zneg p => 45 :: uint_chars (Pos.to_uint p)
  end.

(** ** [parseInt] (ECMAScript 19.2.5), as the handler calls it on the
    environment strings (index.ts lines 719-720)

    [parseInt(s)] converts its argument with [ToString] ([undefined]
    becomes ["undefined"]), skips leading white space and line
    terminators, reads one sign, switches to radix 16 after a [0x] or [0X]
    prefix, and reads the longest prefix of digits of the radix; with no
    digit the result is [NaN], modelled as [None].  (Numbers of more than
    twenty digits, which the engine rounds, are read exactly.) *)

Definition js_is_space (u : Z) : bool :=
  existsb (Z.eqb u) [9; 10; 11; 12; 13; 32; 160; 5760; 8232; 8233; 8239; 8287; 12288; 65279]
  || ((8192 <=? u) && (u <=? 8202)).

Fixpoint trim_start (s : jstr) : jstr :=
  match s with
  | u :: r => if js_is_space u then trim_start r else s
  | [] => []
  end.

(** The value of a code unit as a digit of radix up to 36. *)
Definition digit_value (u : Z) : option Z :=
  if (48 <=? u) && (u <=? 57) then Some (u - 48)
  else if (97 <=? u) && (u <=? 122) then Some (u - 87)
  else if (65 <=? u) && (u <=? 90) then Some (u - 55)
  else None.

(** The values of the longest prefix of digits of radix [R]. *)
Fixpoint take_digits (R : Z) (s : jstr) : list Z :=
  match s with
  | u :: r =>
      match digit_value u with
      | Some d => if d <? R then d :: take_digits R r else []
      | None => []
      end
  | [] => []
  end.

Definition digits_to_Z (R : Z) (ds : list Z) : Z := foldl (fun acc d => acc * R + d) 0 ds.

Definition js_parseInt_str (s : jstr) : option Z :=
  let s := trim_start s in
  let '(sign, s) := match s with
                    | 45 :: r => (-1, r)
                    | 43 :: r => (1, r)
                    | _ => (1, s)
                    end in
  let '(R, s) := match s with
                 | 48 :: 120 :: r | 48 :: 88 :: r => (16, r)
                 | _ => (10, s)
                 end in
  match take_digits R s with
  | [] => None
  | ds => Some (sign * digits_to_Z R ds)
  end.

Definition js_parseInt (v : option jstr) : option Z :=
  js_parseInt_str (default (js "undefined") v).

(** [n || d] on a number: [NaN] and [0] (also [-0]) are falsy. *)
Definition js_or_num (n : option Z) (d : Z) : Z :=
  match n with
  | Some v => if decide (v = 0) then d else v
  | None => d
  end.

(** ** Laws *)

Lemma js_length_app s t : js_length (s ++ t) = js_length s + js_length t.
Proof. unfold js_length. rewrite length_app. lia. Qed.

Lemma js_length_nonneg s : 0 <= js_length s.
Proof. unfold js_length. lia. Qed.

(** Without surrogates, every code unit is one step of [for ... of]. *)
Definition no_surrogates (s : jstr) : bool :=
  forallb (fun u => negb (is_high_surrogate u)) s.

Lemma code_points_plain s :
  no_surrogates s = true -> code_points s = (fun u => [u]) <$> s.
Proof.
  induction s as [|u s IH]; [done|]. simpl.
  intros [Hu Hs]%andb_prop. apply negb_true_iff in Hu.
  destruct s as [|v s']; [done|]. rewrite Hu. simpl. f_equal. by apply IH.
Qed.

(** The steps of [for ... of] put back together are the string. *)
Lemma code_points_concat s : concat (code_points s) = s.
Proof.
  induction s as [s IH] using (induction_ltof1 _ (@length Z)); unfold ltof in IH.
  destruct s as [|u [|v s']]; [done|done|]. simpl.
  destruct (is_high_surrogate u && is_low_surrogate v); simpl.
  - rewrite IH by (simpl; lia). done.
  - f_equal. apply (IH (v :: s')). simpl. lia.
Qed.

Lemma length_code_points_le s : (length (code_points s) <= length s)%nat.
Proof.
  induction s as [s IH] using (induction_ltof1 _ (@length Z)); unfold ltof in IH.
  destruct s as [|u [|v s']]; simpl; [lia|lia|].
  destruct (is_high_surrogate u && is_low_surrogate v); simpl.
  - specialize (IH s' ltac:(simpl; lia)). lia.
  - specialize (IH (v :: s') ltac:(simpl; lia)). simpl in IH. lia.
Qed.

Lemma js_slice_drop_last s (n : Z) :
  0 < n -> js_slice s 0 (- n) = take (length s - Z.to_nat n) s.
Proof.
  intros Hn. unfold js_slice, js_rel_index, js_length.
  rewrite (decide_False (P := 0 < 0)), (decide_True (P := - n < 0)) by lia.
  rewrite (Z.min_l 0) by lia. change (Z.to_nat 0) with 0%nat. rewrite drop_0.
  f_equal. lia.
Qed.

Lemma length_take_sub {A} (s : list A) (k : nat) :
  length (take (length s - k) s) = (length s - k)%nat.
Proof. rewrite length_take. lia. Qed.

#[export] Hint Rewrite js_length_app @length_take_sub : calendar_rw.

(** ** [parseInt] on printed numbers *)

(** The value of a decimal numeral read left to right from [acc], as
    [Pos.of_uint] reads it. *)
Fixpoint uval (d : Decimal.uint) (acc : Z) : Z :=
  match d with
  | Decimal.Nil => acc
  | Decimal.D0 d => uval d (acc * 10 + 0)
  | Decimal.D1 d => uval d (acc * 10 + 1)
  | Decimal.D2 d => uval d (acc * 10 + 2)
  | Decimal.D3 d => uval d (acc * 10 + 3)
  | Decimal.D4 d => uval d (acc * 10 + 4)
  | Decimal.D5 d => uval d (acc * 10 + 5)
  | Decimal.D6 d => uval d (acc * 10 + 6)
  | Decimal.D7 d => uval d (acc * 10 + 7)
  | Decimal.D8 d => uval d (acc * 10 + 8)
  | Decimal.D9 d => uval d (acc * 10 + 9)
  end.

Lemma uval_acc d p : Zpos (Pos.of_uint_acc d p) = uval d (Zpos p).
Proof.
  revert p; induction d; intros p; simpl; rewrite ?IHd; try reflexivity;
  f_equal; lia.
Qed.

Lemma uval_of_uint d : Z.of_N (Pos.of_uint d) = uval d 0.
Proof.
  induction d; simpl; rewrite ?uval_acc; try reflexivity; exact IHd.
Qed.

Lemma take_digits_uint d r :
  take_digits 10 (uint_chars d ++ r) = ((fun c => c - 48) <$> uint_chars d) ++ take_digits 10 r.
Proof. induction d; simpl; rewrite ?IHd; reflexivity. Qed.

Lemma digits_uval d acc :
  foldl (fun acc d => acc * 10 + d) acc ((fun c => c - 48) <$> uint_chars d) = uval d acc.
Proof. revert acc; induction d; intros acc; simpl; rewrite ?IHd; reflexivity. Qed.

Lemma take_digits_uint_nil d :
  take_digits 10 (uint_chars d) = (fun c => c - 48) <$> uint_chars d.
Proof. rewrite <- (app_nil_r (uint_chars d)), take_digits_uint, !app_nil_r. reflexivity. Qed.

Lemma parseInt_uint u :
  u <> Decimal.Nil ->
  js_parseInt_str (uint_chars u) = Some (uval u 0) /\
  js_parseInt_str (45 :: uint_chars u) = Some (- uval u 0).
Proof.
  intros Hu. unfold js_parseInt_str, digits_to_Z.
  destruct u; [done|..]; (destruct u; simpl; [split; reflexivity|..]);
    rewrite take_digits_uint_nil; simpl; rewrite !digits_uval, Z.mul_1_l, (Z.mul_comm (-1)), <- Z.opp_eq_mul_m1;
    split; repeat f_equal; lia.
Qed.

(** [parseInt] reads back the digits [z_to_dec] writes (the handler's
    environment strings written as decimal integers). *)
Lemma parseInt_z_to_dec z : js_parseInt (Some (z_to_dec z)) = Some z.
Proof.
  unfold js_parseInt, z_to_dec. simpl default.
  destruct z as [|p|p]; [reflexivity|..];
  destruct (parseInt_uint (Pos.to_uint p) (DecimalPos.Unsigned.to_uint_nonnil p)) as [H1 H2];
  [rewrite H1|rewrite H2]; rewrite <- uval_of_uint, DecimalPos.Unsigned.of_to; reflexivity.
Qed.

