(* ===== verification/Pixels.v ===== *)
(** * The pixel buffer: a model of [Uint8Array]

    [renderDisplay] allocates [new Uint8Array(width * height)], fills it
    with [PAPER_WHITE] and every primitive then writes
    [pixels[py * width + px] = color] (index.ts lines 382, 419, 436, 460,
    ...).  [createBMP] allocates a second array for the file bytes.  The
    typed-array semantics the source relies on is modelled exactly:
    - allocation with a negative length throws a [RangeError] ([None]);
    - a read outside [0, length) is [undefined] ([None]);
    - a write outside [0, length) is silently ignored;
    - a stored number is converted with ToUint8, i.e. taken [mod 256].

    The array is kept sparse: a length, the value every cell was last
    filled with, and a [gmap] of the cells written since.  Two arrays with
    the same length and the same reads are equivalent ([u8_equiv], written
    [≡]); every operation respects it.

    The second half is the "paints" calculus used by all drawing
    primitives: [paints f T v] says that [f] keeps the length, sets every
    in-range cell of the (boolean) set [T] to [v mod 256], leaves every
    other cell alone and preserves the buffer invariant [u8_wf]. *)

From S2P Require Import Prelude.
Local Open Scope Z_scope.

Record u8arr := U8 {
  u8_len : Z;
  u8_fillv : Z;
  u8_data : gmap Z Z
}.

(** [new Uint8Array(n)]: zero-filled; a negative length throws. *)
Definition u8_new (n : Z) : option u8arr :=
  if decide (0 <= n) then Some (U8 n 0 ∅) else None.

(** [a.fill(v)]. *)
Definition u8_fill (a : u8arr) (v : Z) : u8arr :=
  U8 (u8_len a) (v mod 256) ∅.

(** [a[i]]: [undefined] outside the array. *)
Definition u8_get (a : u8arr) (i : Z) : option Z :=
  if decide (0 <= i < u8_len a) then Some (default (u8_fillv a) (u8_data a !! i))
  else None.

(** [a[i] = v]: ToUint8 conversion, and no effect outside the array. *)
Definition u8_set (a : u8arr) (i v : Z) : u8arr :=
  if decide (0 <= i < u8_len a) then U8 (u8_len a) (u8_fillv a) (<[i := v mod 256]> (u8_data a))
  else a.

(** ToUint8 of a value read from another array: [undefined] becomes 0. *)
Definition js_u8 (o : option Z) : Z :=
  match o with Some v => v mod 256 | None => 0 end.

(** The bytes of an array, in index order. *)
Definition u8_to_list (a : u8arr) : list Z :=
  (fun i => default 0 (u8_get a i)) <$> seqZ 0 (u8_len a).

Notation "a .[ i ]" := (u8_get a i) (format "a .[ i ]") : calendar_scope.
Notation "a .[ i := v ]" := (u8_set a i v)
  (format "a .[ i  :=  v ]") : calendar_scope.
Local Open Scope calendar_scope.

(** The grayscale levels of the drawing code (lines 287-290). *)
Definition INK_BLACK : Z := 0.
Definition DARK_GRAY : Z := 64.
Definition LIGHT_GRAY : Z := 176.
Definition PAPER_WHITE : Z := 255.

(** A [w]x[h] canvas as [renderDisplay] starts it: allocated, then
    filled with white (used by the examples). *)
Definition white_canvas (w h : Z) : u8arr := u8_fill (U8 (w * h) 0 ∅) 255.

(** The buffer invariant: a non-negative length, byte values, and no cell
    stored outside the array. *)
Definition u8_wf (a : u8arr) : Prop :=
  0 <= u8_len a /\ 0 <= u8_fillv a < 256 /\
  map_Forall (fun k v => 0 <= k < u8_len a /\ 0 <= v < 256) (u8_data a).

#[export] Instance u8_equiv : Equiv u8arr :=
  fun a b => u8_len a = u8_len b /\ forall i, a.[i] = b.[i].

(** ** Basic laws *)

Lemma u8_get_set a i v k :
  (a.[i := v]).[k] = if decide (k = i /\ 0 <= i < u8_len a) then Some (v mod 256) else a.[k].
Proof.
  unfold u8_get, u8_set.
  destruct (decide (0 <= i < u8_len a)) as [Hi|Hi]; simpl.
  - destruct (decide (k = i)) as [->|Hk].
    + rewrite lookup_insert_eq. repeat case_decide; naive_solver.
    + rewrite lookup_insert_ne by done. repeat case_decide; naive_solver.
  - repeat case_decide; naive_solver.
Qed.

Lemma u8_len_set a i v : u8_len (a.[i := v]) = u8_len a.
Proof. unfold u8_set. by case_decide. Qed.

Lemma u8_get_in_range a k : is_Some (a.[k]) <-> 0 <= k < u8_len a.
Proof. unfold u8_get. case_decide; split; naive_solver. Qed.

Lemma u8_get_fill a v k :
  (u8_fill a v).[k] = if decide (0 <= k < u8_len a) then Some (v mod 256) else None.
Proof. unfold u8_get, u8_fill. simpl. by rewrite lookup_empty. Qed.

Lemma u8_wf_get a k x : u8_wf a -> a.[k] = Some x -> 0 <= x < 256.
Proof.
  intros (_ & Hf & Hd). unfold u8_get. case_decide; [|done].
  intros [= <-]. destruct (u8_data a !! k) eqn:E; simpl; [|lia].
  by apply (Hd k z).
Qed.

Lemma u8_new_wf n a : u8_new n = Some a -> u8_wf a.
Proof.
  unfold u8_new. case_decide; intros; simplify_eq.
  split_and!; simpl; [lia|lia|lia|apply map_Forall_empty].
Qed.

Lemma u8_fill_wf a v : u8_wf a -> u8_wf (u8_fill a v).
Proof.
  intros (Hl & _ & _). split_and!; simpl; [lia| | |apply map_Forall_empty];
  pose proof (Z.mod_pos_bound v 256); lia.
Qed.

(** A store keeps the invariant: the cell written is inside the array
    and the value stored is a byte. *)
Lemma u8_set_wf a i v : u8_wf a -> u8_wf (a.[i := v]).
Proof.
  intros Hwf. unfold u8_set. case_decide; [|done].
  destruct Hwf as (Hl & Hf & Hd). split_and!; simpl; try lia.
  apply map_Forall_insert_2; [|done].
  pose proof (Z.mod_pos_bound v 256). lia.
Qed.

#[export] Hint Resolve u8_set_wf u8_fill_wf : calendar.
#[export] Hint Rewrite u8_get_set u8_len_set u8_get_fill : calendar_rw.

(** ** Extensional equality of arrays *)

#[export] Instance u8_equiv_equivalence : Equivalence (≡@{u8arr}).
Proof.
  split.
  - intros a. by split.
  - intros a b [H1 H2]. split; [done|]. intros i. by rewrite H2.
  - intros a b c [H1 H2] [H3 H4]. split; [congruence|]. intros i. by rewrite H2, H4.
Qed.

#[export] Instance u8_set_proper : Proper ((≡) ==> (=) ==> (=) ==> (≡)) u8_set.
Proof.
  intros a b [Hl Hg] i ? <- v ? <-. split; [by rewrite !u8_len_set|].
  intros k. rewrite !u8_get_set, Hl, Hg. done.
Qed.

#[export] Instance u8_get_proper : Proper ((≡) ==> (=) ==> (=)) u8_get.
Proof. intros a b [_ Hg] i ? <-. apply Hg. Qed.

#[export] Instance u8_fill_proper : Proper ((≡) ==> (=) ==> (≡)) u8_fill.
Proof.
  intros a b [Hl _] v ? <-. split; [done|]. intros k. by rewrite !u8_get_fill, Hl.
Qed.

#[export] Instance u8_to_list_proper : Proper ((≡) ==> (=)) u8_to_list.
Proof.
  intros a b [Hl Hg]. unfold u8_to_list. rewrite Hl.
  apply list_fmap_ext. intros _ i _. by rewrite Hg.
Qed.

Lemma u8_length_to_list a : length (u8_to_list a) = Z.to_nat (u8_len a).
Proof. unfold u8_to_list. by rewrite length_fmap, length_seqZ. Qed.

Lemma u8_lookup_to_list a (n : nat) :
  u8_to_list a !! n = if decide (Z.of_nat n < u8_len a) then a.[Z.of_nat n] else None.
Proof.
  unfold u8_to_list. rewrite list_lookup_fmap. case_decide.
  - rewrite lookup_seqZ_lt by done. simpl.
    pose proof (proj2 (u8_get_in_range a (Z.of_nat n)) ltac:(lia)) as [x Hx].
    by rewrite Z.add_0_l, Hx.
  - rewrite lookup_seqZ_ge by lia. done.
Qed.

(** Equal byte lists and lengths make equivalent arrays. *)
Lemma u8_equiv_to_list a b :
  u8_len a = u8_len b -> u8_to_list a = u8_to_list b -> a ≡ b.
Proof.
  intros Hl Hlist. split; [done|]. intros i.
  destruct (decide (0 <= i < u8_len a)) as [Hi|Hi].
  - pose proof (u8_lookup_to_list a (Z.to_nat i)) as Ha.
    pose proof (u8_lookup_to_list b (Z.to_nat i)) as Hb.
    rewrite Hlist, Hb in Ha. rewrite Z2Nat.id in Ha by lia.
    rewrite !decide_True in Ha by lia. done.
  - unfold u8_get. rewrite !decide_False by lia. done.
Qed.

(** ** The paints calculus *)

Record paints (f : u8arr -> u8arr) (T : Z -> bool) (v : Z) : Prop := {
  paints_len : forall a, u8_len (f a) = u8_len a;
  paints_in : forall a k, T k = true -> 0 <= k < u8_len a -> (f a).[k] = Some (v mod 256);
  paints_out : forall a k, T k = false -> (f a).[k] = a.[k];
  paints_wf : forall a, u8_wf a -> u8_wf (f a)
}.

Section Paints.
Implicit Types (f g : u8arr -> u8arr) (T : Z -> bool).

(** The footprint of a painter determines it up to [≡]. *)
Lemma paints_unique f g T v a : paints f T v -> paints g T v -> f a ≡ g a.
Proof.
  intros Hf Hg. split; [by rewrite (paints_len _ _ _ Hf), (paints_len _ _ _ Hg)|].
  intros k. destruct (T k) eqn:Ek.
  - destruct (decide (0 <= k < u8_len a)).
    + by rewrite (paints_in _ _ _ Hf), (paints_in _ _ _ Hg).
    + unfold u8_get. rewrite (paints_len _ _ _ Hf), (paints_len _ _ _ Hg).
      by rewrite !decide_False.
  - by rewrite (paints_out _ _ _ Hf), (paints_out _ _ _ Hg).
Qed.

(** Footprints only matter inside the array. *)
Lemma paints_unique_on f g T1 T2 v a :
  paints f T1 v -> paints g T2 v -> (forall k, 0 <= k < u8_len a -> T1 k = T2 k) -> f a ≡ g a.
Proof.
  intros Hf Hg HT. split; [by rewrite (paints_len _ _ _ Hf), (paints_len _ _ _ Hg)|].
  intros k. destruct (decide (0 <= k < u8_len a)) as [Hk|Hk].
  - destruct (T1 k) eqn:E1.
    + rewrite (paints_in _ _ _ Hf), (paints_in _ _ _ Hg); rewrite <- ?HT; done.
    + rewrite (paints_out _ _ _ Hf), (paints_out _ _ _ Hg); rewrite <- ?HT; done.
  - unfold u8_get. rewrite (paints_len _ _ _ Hf), (paints_len _ _ _ Hg).
    by rewrite !decide_False.
Qed.

Lemma paints_ext f T1 T2 v : paints f T1 v -> (forall k, T1 k = T2 k) -> paints f T2 v.
Proof.
  intros [H1 H2 H3 H4] HT. split; [done| | |done].
  - intros a k Hk. apply H2. by rewrite HT.
  - intros a k Hk. apply H3. by rewrite HT.
Qed.

Lemma paints_pointwise f g T v : (forall a, f a = g a) -> paints f T v -> paints g T v.
Proof.
  intros Hfg [H1 H2 H3 H4]. split; intros; rewrite <- ?Hfg; auto.
Qed.

Lemma paints_set i v : paints (fun a => a.[i := v]) (fun k => k =? i) v.
Proof.
  split.
  - intros. apply u8_len_set.
  - intros a k Hk Hr. apply Z.eqb_eq in Hk as ->. rewrite u8_get_set.
    by rewrite decide_True.
  - intros a k Hk. apply Z.eqb_neq in Hk. rewrite u8_get_set.
    rewrite decide_False by naive_solver. done.
  - intros. by apply u8_set_wf.
Qed.

(** A cell already holding the colour keeps it. *)
Lemma paints_keeps f T v a k : paints f T v -> a.[k] = Some (v mod 256) -> (f a).[k] = Some (v mod 256).
Proof.
  intros Hf Hk. destruct (T k) eqn:E; [|by rewrite (paints_out _ _ _ Hf)].
  apply (paints_in _ _ _ Hf); [done|]. apply u8_get_in_range. by eexists.
Qed.

Lemma paints_id v : paints (fun a => a) (fun _ => false) v.
Proof. by split. Qed.

Lemma paints_seq f g T1 T2 v :
  paints f T1 v -> paints g T2 v -> paints (fun a => g (f a)) (fun k => T1 k || T2 k) v.
Proof.
  intros Hf Hg. split.
  - intros a. by rewrite (paints_len _ _ _ Hg), (paints_len _ _ _ Hf).
  - intros a k Hk Hr. destruct (T2 k) eqn:E2.
    + apply (paints_in _ _ _ Hg); [done|]. by rewrite (paints_len _ _ _ Hf).
    + rewrite (paints_out _ _ _ Hg) by done. apply (paints_in _ _ _ Hf); [|done].
      by rewrite orb_false_r in Hk.
  - intros a k Hk. apply orb_false_iff in Hk as [H1 H2].
    by rewrite (paints_out _ _ _ Hg), (paints_out _ _ _ Hf).
  - intros a Ha. by apply (paints_wf _ _ _ Hg), (paints_wf _ _ _ Hf).
Qed.

(** A guard that does not read the buffer. *)
Lemma paints_if (b : bool) f T v :
  paints f T v -> paints (fun a => if b then f a else a) (fun k => b && T k) v.
Proof. intros Hf. destruct b; simpl; [done|apply paints_id]. Qed.

Lemma paints_decide (P : Prop) `{Decision P} f T v :
  paints f T v -> paints (fun a => if decide P then f a else a) (fun k => bool_decide P && T k) v.
Proof.
  intros Hf. eapply paints_pointwise; [|apply (paints_if (bool_decide P)), Hf].
  intros a. by case_bool_decide; case_decide.
Qed.

(** A [for] loop paints the union of the footprints of its iterations. *)
Lemma paints_for lo hi (f : Z -> u8arr -> u8arr) (T : Z -> Z -> bool) v :
  (forall i, lo <= i < hi -> paints (f i) (T i) v) ->
  paints (for_lt lo hi f) (fun k => existsb (fun i => T i k) (seqZ lo (hi - lo))) v.
Proof.
  remember (Z.to_nat (hi - lo)) as n eqn:Hn. revert lo Hn.
  induction n as [|n IH]; intros lo Hn Hf.
  - eapply paints_pointwise; [intros a; symmetry; apply for_lt_empty; lia|].
    eapply paints_ext; [apply paints_id|]. intros k. by rewrite seqZ_nil by lia.
  - eapply paints_pointwise; [intros a; symmetry; apply for_lt_unroll; lia|].
    eapply paints_ext.
    + apply paints_seq; [apply Hf; lia|]. apply IH; [lia|].
      intros i Hi. apply Hf. lia.
    + intros k. rewrite (seqZ_cons lo) by lia. simpl.
      do 3 f_equal. lia.
Qed.
End Paints.

(** ** Stores of computed values

    [writes f W] generalises [paints] to stores whose value depends on the
    cell: [f] sets every in-range cell [k] with [W k = Some v] to
    [v mod 256] and leaves the others alone.  The BMP encoder is built
    from such stores. *)

Record writes (f : u8arr -> u8arr) (W : Z -> option Z) : Prop := {
  writes_len : forall a, u8_len (f a) = u8_len a;
  writes_get : forall a k,
    (f a).[k] = match W k with
                | Some v => if decide (0 <= k < u8_len a) then Some (v mod 256) else None
                | None => a.[k]
                end;
  writes_wf : forall a, u8_wf a -> u8_wf (f a)
}.

(** The later of two stores wins. *)
Definition writes_then (W1 W2 : Z -> option Z) (k : Z) : option Z :=
  match W2 k with Some v => Some v | None => W1 k end.

Section Writes.
Implicit Types (f g : u8arr -> u8arr) (W : Z -> option Z).

Lemma writes_pointwise f g W : (forall a, f a = g a) -> writes f W -> writes g W.
Proof. intros Hfg [H1 H2 H3]. split; intros; rewrite <- ?Hfg; auto. Qed.

Lemma writes_ext f W1 W2 : (forall k, W1 k = W2 k) -> writes f W1 -> writes f W2.
Proof. intros HW [H1 H2 H3]. split; [done| |done]. intros a k. by rewrite H2, HW. Qed.

Lemma writes_id : writes (fun a => a) (fun _ => None).
Proof. by split. Qed.

Lemma writes_set i v : writes (fun a => a.[i := v]) (fun k => if decide (k = i) then Some v else None).
Proof.
  split.
  - intros. apply u8_len_set.
  - intros a k. rewrite u8_get_set. destruct (decide (k = i)) as [->|Hk].
    + destruct (decide (0 <= i < u8_len a)).
      * by rewrite decide_True by tauto.
      * rewrite decide_False by tauto. unfold u8_get. by rewrite decide_False.
    + by rewrite decide_False by tauto.
  - intros. by apply u8_set_wf.
Qed.

Lemma writes_seq f g W1 W2 :
  writes f W1 -> writes g W2 -> writes (fun a => g (f a)) (writes_then W1 W2).
Proof.
  intros [Hf1 Hf2 Hf3] [Hg1 Hg2 Hg3]. split.
  - intros a. by rewrite Hg1, Hf1.
  - intros a k. rewrite Hg2, Hf1. unfold writes_then. destruct (W2 k); [done|].
    by rewrite Hf2.
  - auto.
Qed.

(** A loop whose iterations store to pairwise distinct cells stores the
    union of their cells. *)
Definition writes_union (lo hi : Z) (W : Z -> Z -> option Z) (k : Z) : option Z :=
  foldr (fun i acc => match W i k with Some v => Some v | None => acc end) None
    (seqZ lo (hi - lo)).

Lemma foldr_first_none (l : list Z) (W : Z -> Z -> option Z) k :
  (forall i, i ∈ l -> W i k = None) ->
  foldr (fun i acc => match W i k with Some v => Some v | None => acc end) None l = None.
Proof.
  induction l as [|i l IH]; intros Hl; [done|]. cbn [foldr].
  rewrite Hl by constructor. apply IH. intros j Hj. apply Hl. by constructor.
Qed.

Lemma writes_for lo hi (f : Z -> u8arr -> u8arr) (W : Z -> Z -> option Z) :
  (forall i, lo <= i < hi -> writes (f i) (W i)) ->
  (forall i j k, lo <= i < hi -> lo <= j < hi -> i <> j -> W i k = None \/ W j k = None) ->
  writes (for_lt lo hi f) (writes_union lo hi W).
Proof.
  remember (Z.to_nat (hi - lo)) as n eqn:Hn. revert lo Hn.
  induction n as [|n IH]; intros lo Hn Hf Hd.
  - eapply writes_pointwise; [intros a; symmetry; apply for_lt_empty; lia|].
    eapply writes_ext; [|apply writes_id]. intros k. unfold writes_union.
    by rewrite seqZ_nil by lia.
  - eapply writes_pointwise; [intros a; symmetry; apply for_lt_unroll; lia|].
    eapply writes_ext; [|apply writes_seq; [apply Hf; lia|apply IH; [lia| |]]].
    + intros k. unfold writes_union, writes_then. rewrite (seqZ_cons lo) by lia.
      cbn [foldr]. replace (Z.pred (hi - lo)) with (hi - Z.succ lo) by lia.
      destruct (W lo k) as [v|] eqn:Elo.
      * (* no later iteration writes the cell [k] *)
        rewrite foldr_first_none; [done|]. intros i Hi%elem_of_seqZ.
        destruct (Hd lo i k) as [E|E]; [lia|lia|lia|congruence|done].
      * by destruct (foldr _ _ _).
    + intros i Hi. apply Hf. lia.
    + intros i j k Hi Hj. apply Hd; lia.
Qed.
(** The cell [k] is stored by at most iteration [i]: the union reads it there. *)
Lemma writes_union_unique lo hi (W : Z -> Z -> option Z) i k :
  lo <= i < hi -> (forall j, lo <= j < hi -> j <> i -> W j k = None) ->
  writes_union lo hi W k = W i k.
Proof.
  intros Hi Hj. unfold writes_union.
  assert (Hl : forall j, j ∈ seqZ lo (hi - lo) -> j <> i -> W j k = None).
  { intros j ?%elem_of_seqZ. apply Hj. lia. }
  assert (Hin : i ∈ seqZ lo (hi - lo)) by (apply elem_of_seqZ; lia).
  induction (seqZ lo (hi - lo)) as [|j l IH]; [by apply not_elem_of_nil in Hin|].
  cbn [foldr]. destruct (decide (j = i)) as [->|Hne].
  - destruct (W i k) eqn:E; [done|]. apply foldr_first_none.
    intros j Hjl. destruct (decide (j = i)) as [->|]; [done|]. apply Hl; [apply elem_of_cons; by right|done].
  - rewrite (Hl j) by (done || (apply elem_of_cons; by left)). apply IH.
    + intros j' Hj' ?. apply Hl; [apply elem_of_cons; by right|done].
    + apply elem_of_cons in Hin as [->|]; [done|done].
Qed.

(** No iteration stores the cell. *)
Lemma writes_union_none lo hi (W : Z -> Z -> option Z) k :
  (forall j, lo <= j < hi -> W j k = None) -> writes_union lo hi W k = None.
Proof.
  intros Hj. apply foldr_first_none. intros j ?%elem_of_seqZ. apply Hj. lia.
Qed.
End Writes.

(** ** Frames

    [touches f S]: [f] keeps the length and the invariant and changes no
    cell outside the set [S], whatever it stores inside.  Painters and
    stores with any colours combine into frames. *)

Record touches (f : u8arr -> u8arr) (S : Z -> Prop) : Prop := {
  touches_len : forall a, u8_len (f a) = u8_len a;
  touches_out : forall a k, ~ S k -> (f a).[k] = a.[k];
  touches_wf : forall a, u8_wf a -> u8_wf (f a)
}.

Section Touches.
Implicit Types (f g : u8arr -> u8arr) (S : Z -> Prop).

Lemma touches_mono f S1 S2 : (forall k, S1 k -> S2 k) -> touches f S1 -> touches f S2.
Proof. intros HS [H1 H2 H3]. split; [done| |done]. intros a k Hk. apply H2. naive_solver. Qed.

Lemma touches_pointwise f g S : (forall a, f a = g a) -> touches f S -> touches g S.
Proof. intros Hfg [H1 H2 H3]. split; intros; rewrite <- ?Hfg; auto. Qed.

Lemma paints_touches f T v : paints f T v -> touches f (fun k => T k = true).
Proof.
  intros [H1 H2 H3 H4]. split; [done| |done]. intros a k Hk. apply H3.
  by apply not_true_is_false.
Qed.

Lemma touches_seq f g S1 S2 :
  touches f S1 -> touches g S2 -> touches (fun a => g (f a)) (fun k => S1 k \/ S2 k).
Proof.
  intros [Hf1 Hf2 Hf3] [Hg1 Hg2 Hg3]. split.
  - intros a. by rewrite Hg1, Hf1.
  - intros a k Hk. rewrite Hg2, Hf2 by naive_solver. done.
  - auto.
Qed.

Lemma touches_if (b : bool) f S : touches f S -> touches (fun a => if b then f a else a) S.
Proof. intros Hf. destruct b; [done|]. by split. Qed.

Lemma touches_decide (P : Prop) `{Decision P} f S :
  touches f S -> touches (fun a => if decide P then f a else a) S.
Proof. intros Hf. destruct (decide P); [done|]. by split. Qed.

(** A test that does not read the buffer. *)
Lemma touches_ite (P : Prop) `{Decision P} f g S :
  touches f S -> touches g S -> touches (fun a => if decide P then f a else g a) S.
Proof. intros Hf Hg. by case_decide. Qed.

Lemma touches_set i v : touches (fun a => a.[i := v]) (fun k => k = i).
Proof.
  eapply touches_mono; [|apply (paints_touches _ _ _ (paints_set i v))].
  intros k Hk. by apply Z.eqb_eq.
Qed.

Lemma touches_id S : touches (fun a => a) S.
Proof. by split. Qed.

Lemma touches_set_in i v S : S i -> touches (fun a => a.[i := v]) S.
Proof. intros Hi. eapply touches_mono; [|apply touches_set]. by intros k ->. Qed.

(** A store under a guard that does not read the buffer. *)
Lemma touches_guarded_set (P : Prop) `{Decision P} i v S :
  (P -> S i) -> touches (fun a => if decide P then a.[i := v] else a) S.
Proof. intros Hi. case_decide; [by apply touches_set_in, Hi|apply touches_id]. Qed.

Lemma touches_comp f g S : touches f S -> touches g S -> touches (fun a => g (f a)) S.
Proof. intros Hf Hg. eapply touches_mono; [|apply (touches_seq f g S S Hf Hg)]. naive_solver. Qed.

(** A store after [f], guarded or not (the guard does not read the
    buffer). *)
Lemma touches_then_set f i v S : touches f S -> S i -> touches (fun a => (f a).[i := v]) S.
Proof.
  intros Hf Hi. apply (touches_comp f (fun a => a.[i := v])); [done|by apply touches_set_in].
Qed.

Lemma touches_then_guarded_set (P : Prop) `{Decision P} f i v S :
  touches f S -> (P -> S i) -> touches (fun a => if decide P then (f a).[i := v] else f a) S.
Proof. intros Hf Hi. case_decide; [by apply touches_then_set, Hi|done]. Qed.

(** A loop touches what some iteration touches. *)
Lemma touches_for lo hi (f : Z -> u8arr -> u8arr) (S : Z -> Z -> Prop) :
  (forall i, lo <= i < hi -> touches (f i) (S i)) ->
  touches (for_lt lo hi f) (fun k => exists i, lo <= i < hi /\ S i k).
Proof.
  intros Hf. split.
  - intros a. apply (for_lt_ind (fun b => u8_len b = u8_len a)); [done|].
    intros i b Hi <-. by apply (touches_len _ _ (Hf i Hi)).
  - intros a k Hk. apply (for_lt_ind (fun b => b.[k] = a.[k])); [done|].
    intros i b Hi <-. apply (touches_out _ _ (Hf i Hi)). naive_solver.
  - intros a Ha. apply (for_lt_ind u8_wf); [done|].
    intros i b Hi Hb. by apply (touches_wf _ _ (Hf i Hi)).
Qed.
End Touches.

(** A loop whose iterations all stay in [S]. *)
Lemma touches_for_in lo hi (f : Z -> u8arr -> u8arr) S :
  (forall i, lo <= i < hi -> touches (f i) S) -> touches (for_lt lo hi f) S.
Proof.
  intros Hf. eapply touches_mono; [|apply (touches_for lo hi f (fun _ => S) Hf)].
  naive_solver.
Qed.
