(* ===== verification/Font.v ===== *)
(** * The glyph rasterizer: [FONT_DATA] and [drawChar]

    [FONT_DATA] (index.ts lines 293-367) is a JavaScript object from
    one-character strings to twelve 8-bit rows; it is transcribed entry by
    entry into [FONT_TABLE] and read as a [gmap] keyed by the code units of
    the character.  [drawChar] (lines 369-389) stamps the glyph: for every
    set bit of the first eight rows it paints a [scale]x[scale] block,
    dropping pixels left of, right of or above the canvas.  Pixels below
    the canvas are not tested by the code; they fall outside the
    [Uint8Array] and the store is ignored (see [Pixels]).

    The main theorem, [drawChar_paints], states that [drawChar] paints
    exactly the pixels of the scaled twelve-row glyph that lie on the
    canvas, in the glyph's colour; [font_rows_8_to_11_blank] shows that the
    code's loop over eight rows loses nothing, because the last four rows
    of every glyph are blank. *)

From S2P Require Import Prelude JsString Pixels.
Local Open Scope Z_scope.
Local Open Scope calendar_scope.

(** The entries of the [FONT_DATA] literal, in source order; a key is the
    code unit of its character. *)
Definition FONT_TABLE : list (jstr * list Z) := [
  ([48], [0x3C; 0x66; 0x6E; 0x76; 0x66; 0x66; 0x3C; 0x00; 0x00; 0x00; 0x00; 0x00]);  (* 0 *)
  ([49], [0x18; 0x38; 0x18; 0x18; 0x18; 0x18; 0x7E; 0x00; 0x00; 0x00; 0x00; 0x00]);  (* 1 *)
  ([50], [0x3C; 0x66; 0x06; 0x1C; 0x30; 0x60; 0x7E; 0x00; 0x00; 0x00; 0x00; 0x00]);  (* 2 *)
  ([51], [0x3C; 0x66; 0x06; 0x1C; 0x06; 0x66; 0x3C; 0x00; 0x00; 0x00; 0x00; 0x00]);  (* 3 *)
  ([52], [0x0C; 0x1C; 0x3C; 0x6C; 0x7E; 0x0C; 0x0C; 0x00; 0x00; 0x00; 0x00; 0x00]);  (* 4 *)
  ([53], [0x7E; 0x60; 0x7C; 0x06; 0x06; 0x66; 0x3C; 0x00; 0x00; 0x00; 0x00; 0x00]);  (* 5 *)
  ([54], [0x1C; 0x30; 0x60; 0x7C; 0x66; 0x66; 0x3C; 0x00; 0x00; 0x00; 0x00; 0x00]);  (* 6 *)
  ([55], [0x7E; 0x06; 0x0C; 0x18; 0x30; 0x30; 0x30; 0x00; 0x00; 0x00; 0x00; 0x00]);  (* 7 *)
  ([56], [0x3C; 0x66; 0x66; 0x3C; 0x66; 0x66; 0x3C; 0x00; 0x00; 0x00; 0x00; 0x00]);  (* 8 *)
  ([57], [0x3C; 0x66; 0x66; 0x3E; 0x06; 0x0C; 0x38; 0x00; 0x00; 0x00; 0x00; 0x00]);  (* 9 *)
  ([65], [0x18; 0x3C; 0x66; 0x66; 0x7E; 0x66; 0x66; 0x00; 0x00; 0x00; 0x00; 0x00]);  (* A *)
  ([66], [0x7C; 0x66; 0x66; 0x7C; 0x66; 0x66; 0x7C; 0x00; 0x00; 0x00; 0x00; 0x00]);  (* B *)
  ([67], [0x3C; 0x66; 0x60; 0x60; 0x60; 0x66; 0x3C; 0x00; 0x00; 0x00; 0x00; 0x00]);  (* C *)
  ([68], [0x78; 0x6C; 0x66; 0x66; 0x66; 0x6C; 0x78; 0x00; 0x00; 0x00; 0x00; 0x00]);  (* D *)
  ([69], [0x7E; 0x60; 0x60; 0x7C; 0x60; 0x60; 0x7E; 0x00; 0x00; 0x00; 0x00; 0x00]);  (* E *)
  ([70], [0x7E; 0x60; 0x60; 0x7C; 0x60; 0x60; 0x60; 0x00; 0x00; 0x00; 0x00; 0x00]);  (* F *)
  ([71], [0x3C; 0x66; 0x60; 0x6E; 0x66; 0x66; 0x3C; 0x00; 0x00; 0x00; 0x00; 0x00]);  (* G *)
  ([72], [0x66; 0x66; 0x66; 0x7E; 0x66; 0x66; 0x66; 0x00; 0x00; 0x00; 0x00; 0x00]);  (* H *)
  ([73], [0x3C; 0x18; 0x18; 0x18; 0x18; 0x18; 0x3C; 0x00; 0x00; 0x00; 0x00; 0x00]);  (* I *)
  ([74], [0x06; 0x06; 0x06; 0x06; 0x06; 0x66; 0x3C; 0x00; 0x00; 0x00; 0x00; 0x00]);  (* J *)
  ([75], [0x66; 0x6C; 0x78; 0x70; 0x78; 0x6C; 0x66; 0x00; 0x00; 0x00; 0x00; 0x00]);  (* K *)
  ([76], [0x60; 0x60; 0x60; 0x60; 0x60; 0x60; 0x7E; 0x00; 0x00; 0x00; 0x00; 0x00]);  (* L *)
  ([77], [0x63; 0x77; 0x7F; 0x6B; 0x63; 0x63; 0x63; 0x00; 0x00; 0x00; 0x00; 0x00]);  (* M *)
  ([78], [0x66; 0x76; 0x7E; 0x7E; 0x6E; 0x66; 0x66; 0x00; 0x00; 0x00; 0x00; 0x00]);  (* N *)
  ([79], [0x3C; 0x66; 0x66; 0x66; 0x66; 0x66; 0x3C; 0x00; 0x00; 0x00; 0x00; 0x00]);  (* O *)
  ([80], [0x7C; 0x66; 0x66; 0x7C; 0x60; 0x60; 0x60; 0x00; 0x00; 0x00; 0x00; 0x00]);  (* P *)
  ([81], [0x3C; 0x66; 0x66; 0x66; 0x6A; 0x6C; 0x36; 0x00; 0x00; 0x00; 0x00; 0x00]);  (* Q *)
  ([82], [0x7C; 0x66; 0x66; 0x7C; 0x6C; 0x66; 0x66; 0x00; 0x00; 0x00; 0x00; 0x00]);  (* R *)
  ([83], [0x3C; 0x66; 0x60; 0x3C; 0x06; 0x66; 0x3C; 0x00; 0x00; 0x00; 0x00; 0x00]);  (* S *)
  ([84], [0x7E; 0x18; 0x18; 0x18; 0x18; 0x18; 0x18; 0x00; 0x00; 0x00; 0x00; 0x00]);  (* T *)
  ([85], [0x66; 0x66; 0x66; 0x66; 0x66; 0x66; 0x3C; 0x00; 0x00; 0x00; 0x00; 0x00]);  (* U *)
  ([86], [0x66; 0x66; 0x66; 0x66; 0x66; 0x3C; 0x18; 0x00; 0x00; 0x00; 0x00; 0x00]);  (* V *)
  ([87], [0x63; 0x63; 0x63; 0x6B; 0x7F; 0x77; 0x63; 0x00; 0x00; 0x00; 0x00; 0x00]);  (* W *)
  ([88], [0x66; 0x66; 0x3C; 0x18; 0x3C; 0x66; 0x66; 0x00; 0x00; 0x00; 0x00; 0x00]);  (* X *)
  ([89], [0x66; 0x66; 0x66; 0x3C; 0x18; 0x18; 0x18; 0x00; 0x00; 0x00; 0x00; 0x00]);  (* Y *)
  ([90], [0x7E; 0x06; 0x0C; 0x18; 0x30; 0x60; 0x7E; 0x00; 0x00; 0x00; 0x00; 0x00]);  (* Z *)
  ([97], [0x00; 0x00; 0x3C; 0x06; 0x3E; 0x66; 0x3E; 0x00; 0x00; 0x00; 0x00; 0x00]);  (* a *)
  ([98], [0x60; 0x60; 0x7C; 0x66; 0x66; 0x66; 0x7C; 0x00; 0x00; 0x00; 0x00; 0x00]);  (* b *)
  ([99], [0x00; 0x00; 0x3C; 0x66; 0x60; 0x66; 0x3C; 0x00; 0x00; 0x00; 0x00; 0x00]);  (* c *)
  ([100], [0x06; 0x06; 0x3E; 0x66; 0x66; 0x66; 0x3E; 0x00; 0x00; 0x00; 0x00; 0x00]);  (* d *)
  ([101], [0x00; 0x00; 0x3C; 0x66; 0x7E; 0x60; 0x3C; 0x00; 0x00; 0x00; 0x00; 0x00]);  (* e *)
  ([102], [0x1C; 0x36; 0x30; 0x7C; 0x30; 0x30; 0x30; 0x00; 0x00; 0x00; 0x00; 0x00]);  (* f *)
  ([103], [0x00; 0x00; 0x3E; 0x66; 0x66; 0x3E; 0x06; 0x3C; 0x00; 0x00; 0x00; 0x00]);  (* g *)
  ([104], [0x60; 0x60; 0x7C; 0x66; 0x66; 0x66; 0x66; 0x00; 0x00; 0x00; 0x00; 0x00]);  (* h *)
  ([105], [0x18; 0x00; 0x38; 0x18; 0x18; 0x18; 0x3C; 0x00; 0x00; 0x00; 0x00; 0x00]);  (* i *)
  ([106], [0x0C; 0x00; 0x1C; 0x0C; 0x0C; 0x0C; 0x6C; 0x38; 0x00; 0x00; 0x00; 0x00]);  (* j *)
  ([107], [0x60; 0x60; 0x66; 0x6C; 0x78; 0x6C; 0x66; 0x00; 0x00; 0x00; 0x00; 0x00]);  (* k *)
  ([108], [0x38; 0x18; 0x18; 0x18; 0x18; 0x18; 0x3C; 0x00; 0x00; 0x00; 0x00; 0x00]);  (* l *)
  ([109], [0x00; 0x00; 0x76; 0x7F; 0x6B; 0x6B; 0x63; 0x00; 0x00; 0x00; 0x00; 0x00]);  (* m *)
  ([110], [0x00; 0x00; 0x7C; 0x66; 0x66; 0x66; 0x66; 0x00; 0x00; 0x00; 0x00; 0x00]);  (* n *)
  ([111], [0x00; 0x00; 0x3C; 0x66; 0x66; 0x66; 0x3C; 0x00; 0x00; 0x00; 0x00; 0x00]);  (* o *)
  ([112], [0x00; 0x00; 0x7C; 0x66; 0x66; 0x7C; 0x60; 0x60; 0x00; 0x00; 0x00; 0x00]);  (* p *)
  ([113], [0x00; 0x00; 0x3E; 0x66; 0x66; 0x3E; 0x06; 0x06; 0x00; 0x00; 0x00; 0x00]);  (* q *)
  ([114], [0x00; 0x00; 0x6E; 0x76; 0x60; 0x60; 0x60; 0x00; 0x00; 0x00; 0x00; 0x00]);  (* r *)
  ([115], [0x00; 0x00; 0x3E; 0x60; 0x3C; 0x06; 0x7C; 0x00; 0x00; 0x00; 0x00; 0x00]);  (* s *)
  ([116], [0x30; 0x30; 0x7C; 0x30; 0x30; 0x36; 0x1C; 0x00; 0x00; 0x00; 0x00; 0x00]);  (* t *)
  ([117], [0x00; 0x00; 0x66; 0x66; 0x66; 0x66; 0x3E; 0x00; 0x00; 0x00; 0x00; 0x00]);  (* u *)
  ([118], [0x00; 0x00; 0x66; 0x66; 0x66; 0x3C; 0x18; 0x00; 0x00; 0x00; 0x00; 0x00]);  (* v *)
  ([119], [0x00; 0x00; 0x63; 0x6B; 0x6B; 0x7F; 0x36; 0x00; 0x00; 0x00; 0x00; 0x00]);  (* w *)
  ([120], [0x00; 0x00; 0x66; 0x3C; 0x18; 0x3C; 0x66; 0x00; 0x00; 0x00; 0x00; 0x00]);  (* x *)
  ([121], [0x00; 0x00; 0x66; 0x66; 0x66; 0x3E; 0x06; 0x3C; 0x00; 0x00; 0x00; 0x00]);  (* y *)
  ([122], [0x00; 0x00; 0x7E; 0x0C; 0x18; 0x30; 0x7E; 0x00; 0x00; 0x00; 0x00; 0x00]);  (* z *)
  ([32], [0x00; 0x00; 0x00; 0x00; 0x00; 0x00; 0x00; 0x00; 0x00; 0x00; 0x00; 0x00]);  (*   *)
  ([58], [0x00; 0x18; 0x18; 0x00; 0x18; 0x18; 0x00; 0x00; 0x00; 0x00; 0x00; 0x00]);  (* : *)
  ([46], [0x00; 0x00; 0x00; 0x00; 0x00; 0x18; 0x18; 0x00; 0x00; 0x00; 0x00; 0x00]);  (* . *)
  ([44], [0x00; 0x00; 0x00; 0x00; 0x00; 0x18; 0x18; 0x30; 0x00; 0x00; 0x00; 0x00]);  (* , *)
  ([45], [0x00; 0x00; 0x00; 0x7E; 0x00; 0x00; 0x00; 0x00; 0x00; 0x00; 0x00; 0x00]);  (* - *)
  ([47], [0x06; 0x0C; 0x18; 0x30; 0x60; 0x40; 0x00; 0x00; 0x00; 0x00; 0x00; 0x00]);  (* / *)
  ([176], [0x1C; 0x36; 0x36; 0x1C; 0x00; 0x00; 0x00; 0x00; 0x00; 0x00; 0x00; 0x00]);  (* ° *)
  ([39], [0x18; 0x18; 0x30; 0x00; 0x00; 0x00; 0x00; 0x00; 0x00; 0x00; 0x00; 0x00]);  (* ' *)
  ([40], [0x0C; 0x18; 0x30; 0x30; 0x30; 0x18; 0x0C; 0x00; 0x00; 0x00; 0x00; 0x00]);
  ([41], [0x30; 0x18; 0x0C; 0x0C; 0x0C; 0x18; 0x30; 0x00; 0x00; 0x00; 0x00; 0x00]);
  ([43], [0x00; 0x18; 0x18; 0x7E; 0x18; 0x18; 0x00; 0x00; 0x00; 0x00; 0x00; 0x00])   (* + *)
].

Definition FONT_DATA : gmap jstr (list Z) := list_to_map FONT_TABLE.

(** [drawChar(pixels, width, x, y, char, color, scale)]. *)
Definition drawChar (pixels : u8arr) (width x y : Z) (char : jstr) (color scale : Z) : u8arr :=
  match FONT_DATA !! char with
  | None => pixels
  | Some data =>
      FOR row IN [0, 8) DO (fun p1 =>
        let rowData := default 0 (data !! Z.to_nat row) in
        FOR col IN [0, 8) DO (fun p2 =>
          if decide (Z.land rowData (Z.shiftr 0x80 col) <> 0) then
            FOR sy IN [0, scale) DO (fun p3 =>
              FOR sx IN [0, scale) DO (fun p4 =>
                let px := x + col * scale + sx in
                let py := y + row * scale + sy in
                if decide (px >= 0 /\ px < width /\ py >= 0) then p4.[py * width + px := color]
                else p4)
              FROM p3)
            FROM p2
          else p2)
        FROM p1)
      FROM pixels
  end.

(** ** The glyph as a mask *)

(** Row [r] of a glyph, [undefined] (read as 0 by [&]) past its end. *)
Definition glyph_row (data : list Z) (r : Z) : Z := default 0 (data !! Z.to_nat r).

(** The specification's reading of a glyph: a 12-row, 8-column mask, the
    most significant bit leftmost, each bit blown up to a [scale]x[scale]
    block.  [glyph_covers data scale dx dy] tells whether the pixel at
    offset [(dx, dy)] from the glyph's origin is ink. *)
Definition glyph_covers (data : list Z) (scale dx dy : Z) : bool :=
  (0 <=? dx) && (dx <? 8 * scale) && (0 <=? dy) && (dy <? 12 * scale) &&
  Z.testbit (glyph_row data (dy / scale)) (7 - dx / scale).

(** The pixels [drawChar] paints, as buffer indices. *)
Definition char_footprint (width x y : Z) (char : jstr) (scale : Z) (k : Z) : bool :=
  match FONT_DATA !! char with
  | None => false
  | Some data => (0 <=? k) && glyph_covers data scale (k mod width - x) (k / width - y)
  end.

(** ** Facts about the table *)

Definition glyph_ok (data : list Z) : bool :=
  (length data =? 12)%nat && forallb (fun r => (0 <=? r) && (r <? 256)) data &&
  forallb (fun r => r =? 0) (drop 8 data).

Lemma font_table_ok : Forall (fun e => glyph_ok e.2 = true) FONT_TABLE.
Proof. vm_compute. repeat constructor. Qed.

Lemma font_data_ok c data : FONT_DATA !! c = Some data -> glyph_ok data = true.
Proof.
  intros Hc. unfold FONT_DATA in Hc. apply elem_of_list_to_map_2 in Hc.
  pose proof font_table_ok as H. rewrite Forall_forall in H.
  by apply (H (c, data)).
Qed.

(** The mask test of the code, [rowData & (0x80 >> col)], reads bit
    [7 - col] of the row. *)
Lemma land_mask_bit (r col : Z) :
  0 <= col < 8 -> Z.land r (Z.shiftr 0x80 col) <> 0 <-> Z.testbit r (7 - col) = true.
Proof.
  intros Hc. rewrite Z.shiftr_div_pow2 by lia.
  assert (E : 0x80 = 2 ^ (7 - col) * 2 ^ col).
  { rewrite <- Z.pow_add_r by lia. by replace (7 - col + col) with 7 by lia. }
  rewrite E, Z.div_mul by (apply Z.pow_nonzero; lia).
  split.
  - intros Hne. destruct (Z.testbit r (7 - col)) eqn:Eb; [done|].
    exfalso. apply Hne, Z.bits_inj_iff. intros j.
    rewrite Z.land_spec, Z.testbit_0_l, Z.pow2_bits_eqb by lia.
    destruct (7 - col =? j) eqn:Ej; [|apply andb_false_r].
    apply Z.eqb_eq in Ej as <-. by rewrite Eb.
  - intros Hb Heq.
    assert (Ht : Z.testbit (Z.land r (2 ^ (7 - col))) (7 - col) = true)
      by (rewrite Z.land_spec, Hb, Z.pow2_bits_eqb, Z.eqb_refl by lia; done).
    by rewrite Heq, Z.testbit_0_l in Ht.
Qed.

(** Rows 8 to 11 of every glyph, and anything past the table, are blank. *)
Lemma glyph_row_high data r : glyph_ok data = true -> 8 <= r -> glyph_row data r = 0.
Proof.
  intros Hok Hr. unfold glyph_row.
  destruct (data !! Z.to_nat r) as [z|] eqn:E; [simpl|done].
  apply andb_prop in Hok as [_ Hz]. apply forallb_forall with (x := z) in Hz.
  - by apply Z.eqb_eq in Hz.
  - apply list_elem_of_In, list_elem_of_lookup. exists (Z.to_nat r - 8)%nat.
    rewrite lookup_drop. by replace (8 + (Z.to_nat r - 8))%nat with (Z.to_nat r) by lia.
Qed.

(** The pixels the four nested loops visit and keep, in closed form. *)
Lemma drawChar_footprint_iff width x y scale data k :
  0 < width -> 0 < scale -> glyph_ok data = true ->
  (exists row, 0 <= row < 0 + (8 - 0) /\
   exists col, 0 <= col < 0 + (8 - 0) /\
     Z.land (default 0 (data !! Z.to_nat row)) (Z.shiftr 128 col) <> 0 /\
   exists sy, 0 <= sy < 0 + (scale - 0) /\
   exists sx, 0 <= sx < 0 + (scale - 0) /\
     (x + col * scale + sx >= 0 /\ x + col * scale + sx < width /\ y + row * scale + sy >= 0) /\
     k = (y + row * scale + sy) * width + (x + col * scale + sx))
  <-> 0 <= k /\ glyph_covers data scale (k mod width - x) (k / width - y) = true.
Proof.
  intros Hw Hs Hok. unfold glyph_covers.
  rewrite !andb_true_iff, Z.leb_le, !Z.ltb_lt, Z.leb_le. split.
  - intros (row & Hrow & col & Hcol & Hbit & sy & Hsy & sx & Hsx & (Hpx1 & Hpx2 & Hpy) & ->).
    destruct (div_mod_of_decomp ((y + row * scale + sy) * width + (x + col * scale + sx)) width
               (y + row * scale + sy) (x + col * scale + sx)) as [-> ->]; [lia|lia|].
    replace (x + col * scale + sx - x) with (col * scale + sx) by lia.
    replace (y + row * scale + sy - y) with (row * scale + sy) by lia.
    destruct (div_mod_of_decomp (col * scale + sx) scale col sx) as [-> _]; [lia|lia|].
    destruct (div_mod_of_decomp (row * scale + sy) scale row sy) as [-> _]; [lia|lia|].
    apply land_mask_bit in Hbit; [|lia]. unfold glyph_row. split_and!; [nia..|done].
  - intros (Hk & (((Hdx & Hdx') & Hdy) & Hdy') & Hbit).
    set (dx := k mod width - x) in *. set (dy := k / width - y) in *.
    assert (Hrow : dy / scale < 8).
    { destruct (Z_lt_ge_dec (dy / scale) 8) as [|Hge]; [done|].
      rewrite glyph_row_high, Z.testbit_0_l in Hbit by (done || lia). done. }
    pose proof (Z.div_mod dx scale ltac:(lia)). pose proof (Z.mod_pos_bound dx scale Hs).
    pose proof (Z.div_mod dy scale ltac:(lia)). pose proof (Z.mod_pos_bound dy scale Hs).
    pose proof (Z.div_mod k width ltac:(lia)). pose proof (Z.mod_pos_bound k width Hw).
    assert (0 <= dy / scale) by (apply Z.div_pos; lia).
    assert (0 <= dx / scale < 8) by (split; [apply Z.div_pos|apply Z.div_lt_upper_bound]; lia).
    assert (0 <= k / width) by (apply Z.div_pos; lia).
    exists (dy / scale). split; [lia|].
    exists (dx / scale). split; [lia|]. split; [apply land_mask_bit; [lia|exact Hbit]|].
    exists (dy mod scale). split; [lia|]. exists (dx mod scale). split; [lia|].
    subst dx dy. split_and!; lia.
Qed.

(** Turn a footprint built by the paints calculus from nested loops into
    propositions. *)
Ltac footprint_to_prop :=
  repeat first [ setoid_rewrite existsb_seqZ | setoid_rewrite andb_true_iff
               | setoid_rewrite bool_decide_eq_true | setoid_rewrite Z.eqb_eq
               | setoid_rewrite Z.leb_le ].

(** ** Behaviour of [drawChar] *)

(** The nested loops of [drawChar] as one store of its footprint. *)
Lemma drawChar_spec width x y char color scale :
  0 < width -> 0 < scale ->
  paints (fun p => drawChar p width x y char color scale) (char_footprint width x y char scale) color.
Proof.
  intros Hw Hs. unfold drawChar, char_footprint.
  destruct (FONT_DATA !! char) as [data|] eqn:Hd; [|apply paints_id].
  eapply paints_ext.
  - apply paints_for; intros row Hrow; apply paints_for; intros col Hcol; apply paints_decide.
    apply paints_for; intros sy Hsy; apply paints_for; intros sx Hsx; apply paints_decide.
    apply paints_set.
  - intros k. apply eq_iff_eq_true.
    rewrite andb_true_iff, Z.leb_le, <- drawChar_footprint_iff by (done || by eapply font_data_ok).
    footprint_to_prop. done.
Qed.

(** C4: Stamping a glyph.  On a canvas of positive width and at a
    positive scale, [drawChar] sets to [color] exactly the in-buffer pixels
    [(px, py)] with [px] in [0, width) and [py >= 0] whose offset from the
    origin [(x, y)] falls on a set bit of the 8x12 glyph scaled by [scale]
    (bit [7 - dx/scale] of row [dy/scale]); every other pixel, the
    length and the buffer invariant are unchanged.  A character without a
    glyph paints nothing. *)
Theorem drawChar_paints width x y char color scale :
  0 < width -> 0 < scale ->
  paints (fun p => drawChar p width x y char color scale) (char_footprint width x y char scale) color.
Proof. apply drawChar_spec. Qed.

Lemma drawChar_paints_witness :
  (0 < 480 /\ 0 < 2) /\
  paints (fun p => drawChar p 480 24 30 (js "A") 0 2) (char_footprint 480 24 30 (js "A") 2) 0.
Proof. split; [lia|]. apply drawChar_paints; lia. Defined.

(** ** A rendered glyph

    The letter [A] drawn at scale 1 on an 8x12 white canvas: each canvas
    row is the glyph row read from its most significant bit. *)
Definition glyph_pixels (data : list Z) : list Z :=
  data ≫= fun r => (fun c => if Z.testbit r (7 - c) then 0 else 255) <$> seqZ 0 8.

Example drawChar_A :
  u8_to_list (drawChar (white_canvas 8 12) 8 0 0 (js "A") 0 1)
  = glyph_pixels [0x18; 0x3C; 0x66; 0x66; 0x7E; 0x66; 0x66; 0; 0; 0; 0; 0].
Proof. vm_compute. reflexivity. Qed.

(** Only the first eight rows of a glyph carry ink: a covered pixel lies in
    the [8*scale] x [8*scale] cell of the glyph. *)
Lemma glyph_covers_cell data scale dx dy :
  0 < scale -> glyph_ok data = true -> glyph_covers data scale dx dy = true ->
  0 <= dx < 8 * scale /\ 0 <= dy < 8 * scale.
Proof.
  intros Hs Hok. unfold glyph_covers.
  rewrite !andb_true_iff, !Z.leb_le, !Z.ltb_lt. intros ((((Hx1 & Hx2) & Hy1) & Hy2) & Hbit).
  split; [lia|]. split; [lia|].
  destruct (Z_lt_ge_dec dy (8 * scale)) as [|Hge]; [done|].
  assert (8 <= dy / scale) by (apply Z.div_le_lower_bound; lia).
  by rewrite glyph_row_high, Z.testbit_0_l in Hbit by (done || lia).
Qed.

Lemma char_footprint_cell width x y c scale k :
  0 < width -> 0 < scale -> char_footprint width x y c scale k = true ->
  0 <= k /\ x <= k mod width < x + 8 * scale /\ y <= k / width < y + 8 * scale.
Proof.
  intros Hw Hs. unfold char_footprint.
  destruct (FONT_DATA !! c) as [data|] eqn:Hd; [|done].
  rewrite andb_true_iff, Z.leb_le. intros [Hk Hc].
  apply glyph_covers_cell in Hc; [lia|done|]. by eapply font_data_ok.
Qed.
