(* ===== verification/Text.v ===== *)
(** * Text primitives: [drawText], [getTextWidth] and the aligned variants

    index.ts lines 391-413.  [drawText] walks the string with
    [for (const char of text)] (code points, see [JsString]) and advances
    the cursor by [8 * scale] after every step; [getTextWidth] measures
    [text.length] (code units).  [drawCenteredText] and
    [drawRightAlignedText] derive their origin from [getTextWidth].

    The theorems: [drawText] paints exactly the union of the glyph
    footprints at the successive cursor positions ([drawText_paints]);
    every pixel it changes lies in the box of [8 * scale] columns per code
    point and [8 * scale] rows at its origin, a width at most
    [getTextWidth text scale] and equal to it when the text has no
    surrogate pair ([drawText_box]); the example
    [surrogate_text_narrower] shows a text with a surrogate pair drawn
    narrower than its measured width. *)

From S2P Require Import Prelude JsString Pixels Font.
Local Open Scope Z_scope.
Local Open Scope calendar_scope.

(** The body of [drawText]'s loop, from cursor [cx]. *)
Fixpoint drawText_from (pixels : u8arr) (width cx y : Z) (chars : list jstr) (color scale : Z)
    : u8arr :=
  match chars with
  | [] => pixels
  | char :: rest =>
      drawText_from (drawChar pixels width cx y char color scale) width (cx + 8 * scale) y rest
        color scale
  end.

Definition drawText (pixels : u8arr) (width x y : Z) (text : jstr) (color scale : Z) : u8arr :=
  drawText_from pixels width x y (code_points text) color scale.

Definition getTextWidth (text : jstr) (scale : Z) : Z := js_length text * 8 * scale.

Definition drawCenteredText (pixels : u8arr) (width y : Z) (text : jstr) (color scale : Z)
    : u8arr :=
  let textWidth := getTextWidth text scale in
  let x := (width - textWidth) / 2 in
  drawText pixels width x y text color scale.

Definition drawRightAlignedText (pixels : u8arr) (width y : Z) (text : jstr) (color scale margin : Z)
    : u8arr :=
  let textWidth := getTextWidth text scale in
  let x := width - margin - textWidth in
  drawText pixels width x y text color scale.

(** The pixels painted from cursor [cx] on. *)
Fixpoint chars_footprint (width cx y : Z) (chars : list jstr) (scale k : Z) : bool :=
  match chars with
  | [] => false
  | char :: rest =>
      char_footprint width cx y char scale k || chars_footprint width (cx + 8 * scale) y rest scale k
  end.

Definition text_footprint (width x y : Z) (text : jstr) (scale : Z) : Z -> bool :=
  chars_footprint width x y (code_points text) scale.

Lemma drawText_from_paints width cx y chars color scale :
  0 < width -> 0 < scale ->
  paints (fun p => drawText_from p width cx y chars color scale)
    (chars_footprint width cx y chars scale) color.
Proof.
  intros Hw Hs. revert cx. induction chars as [|c chars IH]; intros cx; cbn [drawText_from chars_footprint].
  - apply paints_id.
  - apply (paints_seq (fun p => drawChar p width cx y c color scale)
             (fun p => drawText_from p width (cx + 8 * scale) y chars color scale)).
    + by apply drawChar_spec.
    + apply IH.
Qed.

Lemma chars_footprint_box width cx y chars scale k :
  0 < width -> 0 < scale -> chars_footprint width cx y chars scale k = true ->
  0 <= k /\ cx <= k mod width < cx + 8 * scale * Z.of_nat (length chars) /\
  y <= k / width < y + 8 * scale.
Proof.
  intros Hw Hs. revert cx. induction chars as [|c chars IH]; intros cx.
  { done. }
  cbn [chars_footprint length].
  intros [Hc|Hr]%orb_true_iff.
  - apply char_footprint_cell in Hc; [lia|done|done].
  - apply IH in Hr. lia.
Qed.

(** The cursor's travel is bounded by the measured width. *)
Lemma code_points_advance_le text scale :
  0 < scale -> 8 * scale * Z.of_nat (length (code_points text)) <= getTextWidth text scale.
Proof.
  intros Hs. unfold getTextWidth, js_length. pose proof (length_code_points_le text) as Hl.
  apply Nat2Z.inj_le in Hl. nia.
Qed.

(** A calendar emoji (one surrogate pair) and a letter: the cursor moves
    32 pixels at scale 2, the measured width is 48. *)
Example surrogate_text_narrower :
  8 * 2 * Z.of_nat (length (code_points [0xD83D; 0xDCC5; 65])) = 32 /\
  getTextWidth [0xD83D; 0xDCC5; 65] 2 = 48.
Proof. split; reflexivity. Qed.

(** ** Behaviour of [drawText] *)

(** C5: [drawText] paints, in the text colour, exactly the glyphs of the
    successive code points of the text, the [i]-th one with its origin at
    [x + 8*scale*i]; nothing else in the buffer changes. *)
Theorem drawText_paints width x y text color scale :
  0 < width -> 0 < scale ->
  paints (fun p => drawText p width x y text color scale) (text_footprint width x y text scale) color.
Proof. intros Hw Hs. by apply drawText_from_paints. Qed.

Lemma drawText_paints_witness :
  (0 < 480 /\ 0 < 2) /\
  paints (fun p => drawText p 480 24 275 (js "TODAY") 0 2)
    (text_footprint 480 24 275 (js "TODAY") 2) 0.
Proof. split; [lia|]. apply drawText_paints; lia. Defined.

(** C6: Text stays in its box: every pixel that [drawText] changes has
    its row in [[y, y + 8*scale)] and its column in
    [[x, x + 8*scale*n)], [n] the number of code points the [for ... of]
    loop visits; that width is at most [getTextWidth text scale], and
    equal to it when the text has no surrogate pair. *)
Theorem drawText_box width x y text color scale p k :
  0 < width -> 0 < scale -> (drawText p width x y text color scale).[k] <> p.[k] ->
  x <= k mod width < x + 8 * scale * Z.of_nat (length (code_points text)) /\
  y <= k / width < y + 8 * scale /\
  8 * scale * Z.of_nat (length (code_points text)) <= getTextWidth text scale /\
  (no_surrogates text = true -> 8 * scale * Z.of_nat (length (code_points text)) = getTextWidth text scale).
Proof.
  intros Hw Hs Hk. unfold drawText in Hk.
  destruct (text_footprint width x y text scale k) eqn:Hf;
    [|by rewrite (paints_out _ _ _ (drawText_from_paints width x y (code_points text) color scale Hw Hs)) in Hk].
  apply chars_footprint_box in Hf; [|done|done].
  split_and!; [lia|lia|lia|lia|by apply code_points_advance_le|].
  intros Hn. unfold getTextWidth, js_length. rewrite code_points_plain, length_fmap by done. ring.
Qed.

Lemma drawText_box_witness :
  (0 < 480 /\ 0 < 2 /\
   (drawText (white_canvas 480 800) 480 24 275 (js "TODAY") 0 2).[280 * 480 + 30] <>
     (white_canvas 480 800).[280 * 480 + 30]) /\
  (24 <= (280 * 480 + 30) mod 480 < 24 + 8 * 2 * Z.of_nat (length (code_points (js "TODAY"))) /\
   275 <= (280 * 480 + 30) / 480 < 275 + 8 * 2 /\
   8 * 2 * Z.of_nat (length (code_points (js "TODAY"))) <= getTextWidth (js "TODAY") 2 /\
   (no_surrogates (js "TODAY") = true ->
    8 * 2 * Z.of_nat (length (code_points (js "TODAY"))) = getTextWidth (js "TODAY") 2)).
Proof.
  assert (Hk : (drawText (white_canvas 480 800) 480 24 275 (js "TODAY") 0 2).[280 * 480 + 30] <>
               (white_canvas 480 800).[280 * 480 + 30]) by (vm_compute; congruence).
  split; [split; [lia|split; [lia|exact Hk]]|].
  apply (drawText_box 480 24 275 (js "TODAY") 0 2 (white_canvas 480 800)); [lia|lia|exact Hk].
Defined.
