(* ===== verification/Shapes.v ===== *)
(** * Shape primitives: [fillRect], [drawHLine], [drawDashedHLine]

    index.ts lines 415-444.  [fillRect] clips its rectangle on all four
    sides; [drawHLine] is [fillRect] with the sentinel height 9999;
    [drawDashedHLine] is a [while] loop that alternates [dashLen] painted
    and [gapLen] skipped columns and does no clipping at all.

    The [for] condition [py < y + h && py < height] of [fillRect] is
    monotone in [py], so the loop runs over [[y, min (y + h) height)]; the
    same holds for the columns.  The [while] loop is run with fuel
    [Z.to_nat (x2 - x1) + 1] ([None] when the fuel runs out):
    [drawDashedHLine_terminates] shows this fuel is enough whenever the
    dash and gap lengths are at least 1, and [drawDashedHLine_paints]
    gives the pattern it draws. *)

From S2P Require Import Prelude JsString Pixels.
Local Open Scope Z_scope.
Local Open Scope calendar_scope.

Definition fillRect (pixels : u8arr) (width height x y w h color : Z) : u8arr :=
  FOR py IN [y, Z.min (y + h) height) DO (fun p1 =>
    FOR px IN [x, Z.min (x + w) width) DO (fun p2 =>
      if decide (px >= 0 /\ py >= 0) then p2.[py * width + px := color] else p2)
    FROM p1)
  FROM pixels.

Definition drawHLine (pixels : u8arr) (width y x1 x2 color thickness : Z) : u8arr :=
  fillRect pixels width 9999 x1 y (x2 - x1) thickness color.

(** One iteration of the [while (x < x2)] loop per unit of fuel; the
    state is the pixels, the cursor [x] and the flag [drawing]. *)
Fixpoint dashed_loop (fuel : nat) (pixels : u8arr) (width y x x2 color dashLen gapLen : Z)
    (drawing : bool) : option u8arr :=
  match fuel with
  | O => None
  | S fuel' =>
      if decide (x < x2) then
        if drawing then
          let end_ := Z.min (x + dashLen) x2 in
          let pixels' := FOR px IN [x, end_) DO (fun p => p.[y * width + px := color]) FROM pixels in
          dashed_loop fuel' pixels' width y (x + dashLen) x2 color dashLen gapLen false
        else dashed_loop fuel' pixels width y (x + gapLen) x2 color dashLen gapLen true
      else Some pixels
  end.

Definition drawDashedHLine (pixels : u8arr) (width y x1 x2 color dashLen gapLen : Z)
    : option u8arr :=
  dashed_loop (S (Z.to_nat (x2 - x1))) pixels width y x1 x2 color dashLen gapLen true.

(** ** Footprints *)

Definition rect_footprint (width height x y w h k : Z) : bool :=
  (0 <=? k) && (x <=? k mod width) && (k mod width <? x + w) &&
  (y <=? k / width) && (k / width <? Z.min (y + h) height).

(** The columns a dashed line starting at [x1] paints: the first [dashLen]
    of every period of [dashLen + gapLen], up to [x2]. *)
Definition dash_columns (x1 x2 dashLen gapLen px : Z) : bool :=
  (x1 <=? px) && (px <? x2) && ((px - x1) mod (dashLen + gapLen) <? dashLen).

(** The loop state [(x, drawing)] paints the pattern that starts at [x]
    when drawing, and after the current gap otherwise. *)
Definition dash_state_start (x gapLen : Z) (drawing : bool) : Z :=
  if drawing then x else x + gapLen.

Lemma fillRect_footprint_iff width height x y w h k :
  0 < width ->
  (exists py, y <= py < y + (Z.min (y + h) height - y) /\
   exists px, x <= px < x + (Z.min (x + w) width - x) /\
     (px >= 0 /\ py >= 0) /\ k = py * width + px)
  <-> rect_footprint width height x y w h k = true.
Proof.
  intros Hw. unfold rect_footprint. rewrite !andb_true_iff, !Z.leb_le, !Z.ltb_lt.
  pose proof (Z.div_mod k width ltac:(lia)). pose proof (Z.mod_pos_bound k width Hw).
  split.
  - intros (py & Hpy & px & Hpx & [Hx Hy] & ->).
    destruct (div_mod_of_decomp (py * width + px) width py px) as [-> ->]; [lia|lia|]. nia.
  - intros ((((Hk & Hx1) & Hx2) & Hy1) & Hy2).
    assert (0 <= k / width) by (apply Z.div_pos; lia).
    exists (k / width). split; [lia|]. exists (k mod width). split; [lia|]. split; lia.
Qed.

(** The two loops of [fillRect] as one store of the clipped rectangle. *)
Lemma fillRect_spec width height x y w h color :
  0 < width ->
  paints (fun p => fillRect p width height x y w h color) (rect_footprint width height x y w h) color.
Proof.
  intros Hw. unfold fillRect. eapply paints_ext.
  - apply paints_for; intros py Hpy; apply paints_for; intros px Hpx.
    apply paints_decide, paints_set.
  - intros k. apply eq_iff_eq_true. rewrite <- fillRect_footprint_iff by done.
    repeat first [ setoid_rewrite existsb_seqZ | setoid_rewrite andb_true_iff
                 | setoid_rewrite bool_decide_eq_true | setoid_rewrite Z.eqb_eq ].
    done.
Qed.

(** C7: [fillRect] paints exactly the pixels of the rectangle
    [[x, x+w) x [y, y+h)] that lie on the canvas ([0 <= px < width],
    [0 <= py < height]); negative rows and columns are skipped, not
    wrapped. *)
Theorem fillRect_paints width height x y w h color :
  0 < width ->
  paints (fun p => fillRect p width height x y w h color) (rect_footprint width height x y w h) color.
Proof. apply fillRect_spec. Qed.

Lemma fillRect_paints_witness :
  0 < 480 /\
  paints (fun p => fillRect p 480 800 24 180 432 3 0) (rect_footprint 480 800 24 180 432 3) 0.
Proof. split; [lia|]. apply fillRect_paints; lia. Defined.

(** ** [drawHLine] and its sentinel height *)

(** C8: On a canvas of at most 9999 rows, [drawHLine]'s sentinel height
    is harmless: rows past the real bottom lie outside the buffer, so the
    line equals (up to [≡]) the rectangle clipped to the real height. *)
Theorem drawHLine_clips_like_fillRect p width height y x1 x2 color thickness :
  0 < width -> u8_len p = width * height -> height <= 9999 ->
  drawHLine p width y x1 x2 color thickness ≡ fillRect p width height x1 y (x2 - x1) thickness color.
Proof.
  intros Hw Hl Hh. unfold drawHLine.
  apply (paints_unique_on _ _ _ _ color p (fillRect_spec width 9999 x1 y (x2 - x1) thickness color Hw)
           (fillRect_spec width height x1 y (x2 - x1) thickness color Hw)).
  intros k Hk. rewrite Hl in Hk. unfold rect_footprint.
  assert (k / width < height) by (apply Z.div_lt_upper_bound; lia).
  destruct (Z.ltb_spec (k / width) (Z.min (y + thickness) 9999));
    destruct (Z.ltb_spec (k / width) (Z.min (y + thickness) height));
    rewrite ?andb_true_r, ?andb_false_r; [done|lia|lia|done].
Qed.

Lemma drawHLine_clips_like_fillRect_witness :
  (0 < 480 /\ u8_len (u8_fill (U8 (480 * 800) 0 ∅) 255) = 480 * 800 /\ 800 <= 9999) /\
  drawHLine (u8_fill (U8 (480 * 800) 0 ∅) 255) 480 180 24 456 0 3
  ≡ fillRect (u8_fill (U8 (480 * 800) 0 ∅) 255) 480 800 24 180 (456 - 24) 3 0.
Proof. split; [split_and!; reflexivity || lia|]. apply drawHLine_clips_like_fillRect; reflexivity || lia. Defined.

(** ** The dashed line *)

Lemma dash_columns_unfold x x2 d g px :
  1 <= d -> 1 <= g ->
  dash_columns x x2 d g px =
  ((x <=? px) && (px <? Z.min (x + d) x2)) || dash_columns (x + d + g) x2 d g px.
Proof.
  intros Hd Hg. unfold dash_columns. apply eq_iff_eq_true.
  rewrite orb_true_iff, !andb_true_iff, !Z.leb_le, !Z.ltb_lt.
  destruct (Z_lt_ge_dec px (x + d)) as [H1|H1].
  - destruct (Z_lt_ge_dec px x); [lia|].
    rewrite (Z.mod_small (px - x)) by lia.
    assert (px - (x + d + g) < 0) by lia. lia.
  - destruct (Z_lt_ge_dec px (x + d + g)) as [H2|H2].
    + (* [px] is in the first gap *)
      rewrite (Z.mod_small (px - x)) by lia. lia.
    + replace (px - x) with (px - (x + d + g) + 1 * (d + g)) by lia.
      rewrite Z.mod_add by lia. lia.
Qed.

Lemma dashed_loop_spec fuel width y x x2 color d g drawing :
  1 <= d -> 1 <= g -> (Z.to_nat (x2 - x) < fuel)%nat ->
  (forall p, is_Some (dashed_loop fuel p width y x x2 color d g drawing)) /\
  paints (fun p => default p (dashed_loop fuel p width y x x2 color d g drawing))
    (fun k => dash_columns (dash_state_start x g drawing) x2 d g (k - y * width)) color.
Proof.
  intros Hd Hg. revert x drawing.
  induction fuel as [|fuel IH]; intros x drawing Hf; [lia|]. cbn [dashed_loop].
  destruct (decide (x < x2)) as [Hx|Hx].
  - destruct drawing.
    + destruct (IH (x + d) false ltac:(lia)) as [Hs Hp]. split; [intros; apply Hs|].
      set (body := fun q => for_lt x (Z.min (x + d) x2) (fun px q' => q'.[y * width + px := color]) q).
      eapply paints_ext.
      * eapply paints_pointwise;
          [|apply (paints_seq body (fun q => default q (dashed_loop fuel q width y (x + d) x2 color d g false)));
            [apply paints_for; intros px Hpx; apply paints_set|exact Hp]].
        intros p. subst body. cbv beta. by destruct (Hs (for_lt x (Z.min (x + d) x2)
                                         (fun px q => q.[y * width + px := color]) p)) as [? ->].
      * intros k. cbn [dash_state_start]. rewrite (dash_columns_unfold x) by done.
        f_equal. apply eq_iff_eq_true. rewrite existsb_seqZ, andb_true_iff, Z.leb_le, Z.ltb_lt.
        setoid_rewrite Z.eqb_eq. split; [intros (i & ? & ->); lia|].
        intros ?. exists (k - y * width). lia.
    + destruct (IH (x + g) true ltac:(lia)) as [Hs Hp]. split; [intros; apply Hs|].
      exact Hp.
  - split; [intros; by eexists|].
    eapply paints_ext; [apply paints_id|]. intros k. unfold dash_columns, dash_state_start.
    destruct (Z.leb_spec (if drawing then x else x + g) (k - y * width));
      destruct (Z.ltb_spec (k - y * width) x2); simpl; try done.
    destruct drawing; lia.
Qed.

(** C9: Termination of the dashed-line [while] loop: when the dash and
    gap lengths are at least 1, [drawDashedHLine] finishes within its fuel
    [x2 - x1 + 1] from every buffer. *)
Theorem drawDashedHLine_terminates p width y x1 x2 color dashLen gapLen :
  1 <= dashLen -> 1 <= gapLen ->
  is_Some (drawDashedHLine p width y x1 x2 color dashLen gapLen).
Proof.
  intros Hd Hg. apply (dashed_loop_spec _ width y x1 x2 color dashLen gapLen true Hd Hg).
  lia.
Qed.

Lemma drawDashedHLine_terminates_witness :
  (1 <= 6 /\ 1 <= 4) /\
  is_Some (drawDashedHLine (white_canvas 480 800) 480 330 24 456 64 6 4).
Proof. split; [lia|]. apply drawDashedHLine_terminates; lia. Defined.

(** C10: The dashed pattern: on row [y], [drawDashedHLine] paints exactly
    the columns [px] in [[x1, x2)] whose offset from [x1] lies in the first
    [dashLen] of its period of [dashLen + gapLen]; drawing starts with a
    dash and never passes [x2].  The line is not clipped: the pixel index
    is [y * width + px] for every such [px]. *)
Theorem drawDashedHLine_paints width y x1 x2 color dashLen gapLen :
  1 <= dashLen -> 1 <= gapLen ->
  paints (fun p => default p (drawDashedHLine p width y x1 x2 color dashLen gapLen))
    (fun k => dash_columns x1 x2 dashLen gapLen (k - y * width)) color.
Proof.
  intros Hd Hg. apply (dashed_loop_spec _ width y x1 x2 color dashLen gapLen true Hd Hg). lia.
Qed.

Lemma drawDashedHLine_paints_witness :
  (1 <= 6 /\ 1 <= 4) /\
  paints (fun p => default p (drawDashedHLine p 480 330 24 456 64 6 4))
    (fun k => dash_columns 24 456 6 4 (k - 330 * 480)) 64.
Proof. split; [lia|]. apply drawDashedHLine_paints; lia. Defined.

(** With no progress the loop never ends: the model runs out of every
    fuel. *)
Lemma dashed_loop_stuck fuel p width y x x2 color drawing :
  x < x2 -> dashed_loop fuel p width y x x2 color 0 0 drawing = None.
Proof.
  intros Hx. revert p drawing. induction fuel as [|fuel IH]; intros p drawing; [done|].
  cbn [dashed_loop]. rewrite decide_True by done. rewrite !Z.add_0_r.
  destruct drawing; apply IH.
Qed.
