(* ===== verification/Icons.v ===== *)
(** * The icon library: [drawWeatherIcon] and [drawCloudShape]

    index.ts lines 446-561.  [drawWeatherIcon] dispatches on the weather
    code through a chain of range tests to seven drawings: a sun (a circle
    of 72 points and 8 rays), a cloud, fog (four thick rules), rain and
    snow (a cloud with drops or flakes), a thunderstorm (a cloud and a
    bolt), and a ["?"] for every other code.

    Numbers.  The sun and the cloud place points with
    [Math.round(c + r * Math.cos(angle * Math.PI / 180))] (and [sin]).
    The centres and radii are exact rationals ([Q]); the trigonometric
    point is left abstract behind the class [JsTrig], whose laws are what
    IEEE doubles guarantee: [Math.cos(0)] is [1], [Math.sin(0)] is [0],
    and the rounded point lies between the rounded ends of the diameter
    ([|cos| <= 1], and multiplication, addition and [Math.round] are
    monotone).  The other roundings, [Math.round(x1 + (x2 - x1) * t / 10)]
    on integers and the cloud's base line, are computed exactly in [Q]: no
    exact value there lies within a double's error of a half, so the
    double computation rounds the same way.  [Math.round] is
    [floor (v + 1/2)] ([js_round]).  The instance [trig_table] gives the
    class a model: cosines at whole degrees from a table of 360
    rationals, checked against the bounds [-1 <= cos <= 1].

    The theorems: the chain of tests is the dispatch of the specification's
    table ([drawWeatherIcon_dispatch]); every icon touches only the pixels
    [py * width + px] with [px] in [[x, x + 48]] and [py] in [[y, y + 48]]
    ([drawWeatherIcon_box]), a box of 49x49 pixels, and the sun reaches its
    last column and row ([sun_reaches_edge]), one more than the 48x48
    footprint of the specification. *)

From S2P Require Import Prelude JsString Pixels Font Text Shapes.
From Stdlib Require Import QArith Qround.
Local Open Scope Z_scope.
Local Open Scope calendar_scope.

(** [Math.round]: the nearest integer, halves rounded up. *)
Definition js_round (q : Q) : Z := Qfloor (q + (1 # 2))%Q.

(** The rounded coordinates of the point at [deg] degrees on the circle of
    centre [c] and radius [r], as the double computation gives them. *)
Class JsTrig := {
  round_cos : Q -> Q -> Z -> Z;
  round_sin : Q -> Q -> Z -> Z;
  round_cos_0 c r : round_cos c r 0 = js_round (c + r)%Q;
  round_sin_0 c r : round_sin c r 0 = js_round c;
  round_cos_range c r deg : (0 <= r)%Q -> js_round (c - r)%Q <= round_cos c r deg <= js_round (c + r)%Q;
  round_sin_range c r deg : (0 <= r)%Q -> js_round (c - r)%Q <= round_sin c r deg <= js_round (c + r)%Q
}.

(** The codes of the specification's table, as an enumeration. *)
Inductive IconKind := Sun | Cloud | Fog | Rain | Snow | Thunder | Unknown.

#[export] Instance IconKind_eq_dec : EqDecision IconKind.
Proof. solve_decision. Defined.

(** The table of the specification (section 4.4): codes 0-1 sun, 2-3
    cloud, 45-48 fog, 51-67 and 80-82 rain, 71-77 and 85-86 snow, 95 and
    above thunderstorm, anything else unknown. *)
Definition icon_of_code (code : Z) : IconKind :=
  if decide (0 <= code <= 1) then Sun
  else if decide (2 <= code <= 3) then Cloud
  else if decide (45 <= code <= 48) then Fog
  else if decide (51 <= code <= 67 \/ 80 <= code <= 82) then Rain
  else if decide (71 <= code <= 77 \/ 85 <= code <= 86) then Snow
  else if decide (95 <= code) then Thunder
  else Unknown.

Section Icons.
Context `{JsTrig}.

(** [drawCloudShape] (lines 529-561): three arcs from 180 to 360 degrees
    in steps of 3 ([angle = 180 + 3 k] for [k] in [[0, 61)]), then the base
    line. *)
Definition drawCloudShape (pixels : u8arr) (width x y w h : Z) : u8arr :=
  let cx1 := (inject_Z x + inject_Z w * (3 # 10))%Q in
  let cy1 := (inject_Z y + inject_Z h * (4 # 10))%Q in
  let r1 := (inject_Z h * (4 # 10))%Q in
  let cx2 := (inject_Z x + inject_Z w * (6 # 10))%Q in
  let cy2 := (inject_Z y + inject_Z h * (3 # 10))%Q in
  let r2 := (inject_Z h * (5 # 10))%Q in
  let cx3 := (inject_Z x + inject_Z w * (8 # 10))%Q in
  let cy3 := (inject_Z y + inject_Z h * (5 # 10))%Q in
  let r3 := (inject_Z h * (35 # 100))%Q in
  let pixels :=
    FOR k IN [0, 61) DO (fun p =>
      let angle := 180 + 3 * k in
      let px := round_cos cx1 r1 angle in
      let py := round_sin cy1 r1 angle in
      let p := if decide (px >= 0 /\ px < width /\ py >= 0) then p.[py * width + px := INK_BLACK] else p in
      let px := round_cos cx2 r2 angle in
      let py := round_sin cy2 r2 angle in
      let p := if decide (px >= 0 /\ px < width /\ py >= 0) then p.[py * width + px := INK_BLACK] else p in
      let px := round_cos cx3 r3 angle in
      let py := round_sin cy3 r3 angle in
      if decide (px >= 0 /\ px < width /\ py >= 0) then p.[py * width + px := INK_BLACK] else p)
    FROM pixels in
  drawHLine pixels width (js_round (inject_Z y + inject_Z h * (75 # 100))%Q)
    (js_round (inject_Z x + inject_Z w * (1 # 10))%Q) (js_round (inject_Z x + inject_Z w * (95 # 100))%Q)
    INK_BLACK 1.

(** The sun's circle: [angle = 5 k] for [k] in [[0, 72)]; only the column
    is checked. *)
Definition sun_circle (pixels : u8arr) (width cx cy r : Z) : u8arr :=
  FOR k IN [0, 72) DO (fun p =>
    let angle := 5 * k in
    let px := round_cos (inject_Z cx) (inject_Z r) angle in
    let py := round_sin (inject_Z cy) (inject_Z r) angle in
    if decide (px >= 0 /\ px < width) then p.[py * width + px := INK_BLACK] else p)
  FROM pixels.

(** The sun's rays: 8 segments of 11 points each. *)
Definition sun_rays (pixels : u8arr) (width cx cy r : Z) : u8arr :=
  FOR i IN [0, 8) DO (fun p =>
    let angle := i * 45 in
    let r1 := r + 4 in
    let r2 := r + 10 in
    let x1 := round_cos (inject_Z cx) (inject_Z r1) angle in
    let y1 := round_sin (inject_Z cy) (inject_Z r1) angle in
    let x2 := round_cos (inject_Z cx) (inject_Z r2) angle in
    let y2 := round_sin (inject_Z cy) (inject_Z r2) angle in
    FOR t IN [0, 11) DO (fun p =>
      let px := js_round (inject_Z x1 + inject_Z ((x2 - x1) * t) / inject_Z 10)%Q in
      let py := js_round (inject_Z y1 + inject_Z ((y2 - y1) * t) / inject_Z 10)%Q in
      if decide (px >= 0 /\ px < width /\ py >= 0) then p.[py * width + px := INK_BLACK] else p)
    FROM p)
  FROM pixels.

Definition draw_sun (pixels : u8arr) (width x y : Z) : u8arr :=
  let size := 48 in
  let cx := x + size / 2 in
  let cy := y + size / 2 in
  let r := 14 in
  sun_rays (sun_circle pixels width cx cy r) width cx cy r.

Definition draw_fog (pixels : u8arr) (width x y : Z) : u8arr :=
  let size := 48 in
  FOR i IN [0, 4) DO (fun p =>
    let ly := y + 12 + i * 10 in
    drawHLine p width ly (x + 4) (x + size - 4) DARK_GRAY 2)
  FROM pixels.

Definition draw_rain (pixels : u8arr) (width x y : Z) : u8arr :=
  let pixels := drawCloudShape pixels width (x + 8) (y + 8) 32 16 in
  FOR i IN [0, 3) DO (fun p =>
    let dx := x + 14 + i * 10 in
    let dy := y + 32 in
    FOR j IN [0, 8) DO (fun p => p.[(dy + j) * width + dx := INK_BLACK]) FROM p)
  FROM pixels.

Definition draw_snow (pixels : u8arr) (width x y : Z) : u8arr :=
  let pixels := drawCloudShape pixels width (x + 8) (y + 8) 32 16 in
  FOR i IN [0, 3) DO (fun p =>
    let sx := x + 14 + i * 10 in
    let sy := y + 36 in
    let p := p.[sy * width + sx := INK_BLACK] in
    let p := p.[(sy - 2) * width + sx := INK_BLACK] in
    let p := p.[(sy + 2) * width + sx := INK_BLACK] in
    let p := p.[sy * width + sx - 2 := INK_BLACK] in
    p.[sy * width + sx + 2 := INK_BLACK])
  FROM pixels.

Definition draw_thunder (pixels : u8arr) (width x y : Z) : u8arr :=
  let pixels := drawCloudShape pixels width (x + 8) (y + 4) 32 16 in
  let lx := x + 24 in
  let ly := y + 24 in
  FOR i IN [0, 12) DO (fun p =>
    let px := lx + (if decide (i < 6) then - i else i - 12) in
    let py := ly + i * 2 in
    let p := p.[py * width + px := INK_BLACK] in
    p.[py * width + px + 1 := INK_BLACK])
  FROM pixels.

Definition draw_unknown (pixels : u8arr) (width x y : Z) : u8arr :=
  drawText pixels width (x + 16) (y + 16) (js "?") INK_BLACK 3.

(** [drawWeatherIcon] (lines 447-527), its tests in the source's order. *)
Definition drawWeatherIcon (pixels : u8arr) (width x y code : Z) : u8arr :=
  if decide (code = 0 \/ code = 1) then draw_sun pixels width x y
  else if decide (code >= 2 /\ code <= 3) then drawCloudShape pixels width (x + 8) (y + 16) 32 20
  else if decide (code >= 45 /\ code <= 48) then draw_fog pixels width x y
  else if decide ((code >= 51 /\ code <= 67) \/ (code >= 80 /\ code <= 82)) then draw_rain pixels width x y
  else if decide ((code >= 71 /\ code <= 77) \/ (code >= 85 /\ code <= 86)) then draw_snow pixels width x y
  else if decide (code >= 95) then draw_thunder pixels width x y
  else draw_unknown pixels width x y.

(** The drawing of each kind, as the specification's dispatch calls it. *)
Definition draw_icon (kind : IconKind) (pixels : u8arr) (width x y : Z) : u8arr :=
  match kind with
  | Sun => draw_sun pixels width x y
  | Cloud => drawCloudShape pixels width (x + 8) (y + 16) 32 20
  | Fog => draw_fog pixels width x y
  | Rain => draw_rain pixels width x y
  | Snow => draw_snow pixels width x y
  | Thunder => draw_thunder pixels width x y
  | Unknown => draw_unknown pixels width x y
  end.

End Icons.

(** ** Rounding *)

Lemma js_round_mono q1 q2 : (q1 <= q2)%Q -> js_round q1 <= js_round q2.
Proof. intros Hq. unfold js_round. apply Qfloor_resp_le. apply Qplus_le_l. done. Qed.

Lemma js_round_proper q1 q2 : (q1 == q2)%Q -> js_round q1 = js_round q2.
Proof. intros Hq. apply Z.le_antisymm; apply js_round_mono; rewrite Hq; apply Qle_refl. Qed.

Lemma js_round_frac (a m : Z) (d : positive) :
  js_round (inject_Z a + inject_Z m / inject_Z (Zpos d))%Q = a + (2 * m + Zpos d) / (2 * Zpos d).
Proof.
  unfold js_round, Qfloor, inject_Z, Qdiv, Qinv, Qplus, Qmult. cbn.
  rewrite <- Z.div_add_l by lia. f_equal; lia.
Qed.

Lemma js_round_shift (z : Z) (q e : Q) : (e == inject_Z z + q)%Q -> js_round e = z + js_round q.
Proof.
  intros He. rewrite (js_round_proper _ _ He). destruct q as [n d].
  unfold js_round, Qfloor, inject_Z, Qplus. cbn.
  rewrite <- Z.div_add_l by lia. f_equal; lia.
Qed.

Lemma js_round_Z (z : Z) : js_round (inject_Z z) = z.
Proof. rewrite (js_round_shift z 0) by ring. change (js_round 0) with 0. lia. Qed.

Lemma js_round_sub (a b : Z) : js_round (inject_Z a - inject_Z b)%Q = a - b.
Proof.
  rewrite <- (js_round_Z (a - b)). apply js_round_proper.
  unfold Qminus. rewrite <- inject_Z_opp, <- inject_Z_plus. reflexivity.
Qed.

Lemma js_round_add (a b : Z) : js_round (inject_Z a + inject_Z b)%Q = a + b.
Proof. rewrite <- (js_round_Z (a + b)). apply js_round_proper. by rewrite inject_Z_plus. Qed.

Section Bounds.
Context `{JsTrig}.

Lemma round_cos_Z c r deg :
  0 <= r -> c - r <= round_cos (inject_Z c) (inject_Z r) deg <= c + r.
Proof.
  intros Hr. rewrite <- js_round_sub, <- js_round_add. apply round_cos_range.
  change 0%Q with (inject_Z 0). by rewrite <- Zle_Qle.
Qed.

Lemma round_sin_Z c r deg :
  0 <= r -> c - r <= round_sin (inject_Z c) (inject_Z r) deg <= c + r.
Proof.
  intros Hr. rewrite <- js_round_sub, <- js_round_add. apply round_sin_range.
  change 0%Q with (inject_Z 0). by rewrite <- Zle_Qle.
Qed.

(** A point of the segment from [a] to [b] at [t] tenths, rounded, lies
    between its ends. *)
Lemma js_round_lerp (a b t : Z) :
  0 <= t <= 10 ->
  Z.min a b <= js_round (inject_Z a + inject_Z ((b - a) * t) / inject_Z 10)%Q <= Z.max a b.
Proof.
  intros Ht. change 10 with (Zpos 10). rewrite js_round_frac.
  pose proof (Z.div_mod (2 * ((b - a) * t) + 10) (2 * 10) ltac:(lia)).
  pose proof (Z.mod_pos_bound (2 * ((b - a) * t) + 10) (2 * 10) ltac:(lia)).
  destruct (Z.le_ge_cases a b); nia.
Qed.
End Bounds.

Local Open Scope calendar_scope.

(** The pixels [py * width + px] of a rectangle of columns [[x0, x1]] and
    rows [[y0, y1]], as buffer indices (no clipping). *)
Definition in_box (width x0 x1 y0 y1 k : Z) : Prop :=
  exists px py, x0 <= px <= x1 /\ y0 <= py <= y1 /\ k = py * width + px.

Lemma in_box_intro width x0 x1 y0 y1 px py :
  x0 <= px <= x1 -> y0 <= py <= y1 -> in_box width x0 x1 y0 y1 (py * width + px).
Proof. intros. by exists px, py. Qed.

Lemma in_box_mono width x0 x1 y0 y1 x0' x1' y0' y1' k :
  x0' <= x0 -> x1 <= x1' -> y0' <= y0 -> y1 <= y1' ->
  in_box width x0 x1 y0 y1 k -> in_box width x0' x1' y0' y1' k.
Proof. intros ? ? ? ? (px & py & ? & ? & ->). apply in_box_intro; lia. Qed.

(** An index whose row and column lie in the box. *)
Lemma in_box_divmod width x0 x1 y0 y1 k :
  0 < width -> x0 <= k mod width <= x1 -> y0 <= k / width <= y1 -> in_box width x0 x1 y0 y1 k.
Proof.
  intros Hw Hx Hy. exists (k mod width), (k / width). split_and!; [lia..|].
  pose proof (Z.div_mod k width ltac:(lia)). lia.
Qed.

Lemma drawHLine_box width y x1 x2 color t :
  0 < width ->
  touches (fun p => drawHLine p width y x1 x2 color t) (in_box width x1 (x2 - 1) y (y + t - 1)).
Proof.
  intros Hw. eapply touches_mono; [|apply (paints_touches _ _ _ (fillRect_spec width 9999 x1 y (x2 - x1) t color Hw))].
  intros k Hk. unfold rect_footprint in Hk. rewrite !andb_true_iff, Z.leb_le, !Z.ltb_lt, !Z.leb_le in Hk.
  apply in_box_divmod; lia.
Qed.

(** Rewrite the rounding of a shifted rational and evaluate closed
    roundings. *)
Ltac js_round_simpl :=
  repeat match goal with
  | H : context [js_round (inject_Z ?z + ?q1 - ?q2)%Q] |- _ =>
      rewrite (js_round_shift z (q1 - q2) (inject_Z z + q1 - q2)%Q) in H by ring
  | H : context [js_round (inject_Z ?z + ?q1 + ?q2)%Q] |- _ =>
      rewrite (js_round_shift z (q1 + q2) (inject_Z z + q1 + q2)%Q) in H by ring
  | |- context [js_round (inject_Z ?z + ?q)%Q] =>
      lazymatch q with inject_Z _ => fail | _ => rewrite (js_round_shift z q (inject_Z z + q)%Q) by ring end
  end;
  repeat match goal with
  | H : context [js_round ?q] |- _ =>
      let c := eval vm_compute in (js_round q) in
      match isZcst c with true => change (js_round q) with c in H end
  | |- context [js_round ?q] =>
      let c := eval vm_compute in (js_round q) in
      match isZcst c with true => change (js_round q) with c end
  end.

(** The range laws of [JsTrig] for every trigonometric point of the goal. *)
Ltac round_bounds :=
  repeat match goal with
  | |- context [round_cos ?c ?r ?d] =>
      lazymatch goal with
      | _ : js_round (c - r)%Q <= round_cos c r d <= _ |- _ => fail
      | _ => pose proof (round_cos_range c r d ltac:(vm_compute; discriminate))
      end
  | |- context [round_sin ?c ?r ?d] =>
      lazymatch goal with
      | _ : js_round (c - r)%Q <= round_sin c r d <= _ |- _ => fail
      | _ => pose proof (round_sin_range c r d ltac:(vm_compute; discriminate))
      end
  end.

Section IconBox.
Context `{JsTrig}.

Lemma round_range_Q c r deg :
  (0 <= r)%Q ->
  js_round (c - r)%Q <= round_cos c r deg <= js_round (c + r)%Q /\
  js_round (c - r)%Q <= round_sin c r deg <= js_round (c + r)%Q.
Proof. intros Hr. split; [apply round_cos_range|apply round_sin_range]; done. Qed.

Lemma cloud_box width x y h :
  0 < width -> h = 16 \/ h = 20 ->
  touches (fun p => drawCloudShape p width x y 32 h) (in_box width (x + 2) (x + 33) (y - 4) (y + 17)).
Proof.
  intros Hw Hh. unfold drawCloudShape. cbv zeta.
  apply (touches_comp (for_lt 0 61 _) (fun q => drawHLine q _ _ _ _ _ _)).
  - apply touches_for_in. intros i Hi.
    destruct Hh as [->| ->];
      (repeat apply touches_then_guarded_set; [apply touches_id|..]);
      intros Hc; apply in_box_intro; round_bounds; js_round_simpl; lia.
  - eapply touches_mono; [|apply drawHLine_box; done].
    intros k. apply in_box_mono; destruct Hh as [->| ->]; js_round_simpl; lia.
Qed.

Lemma sun_circle_box width cx cy :
  touches (fun p => sun_circle p width cx cy 14) (in_box width (cx - 14) (cx + 14) (cy - 14) (cy + 14)).
Proof.
  apply touches_for_in. intros k Hk. apply touches_guarded_set. intros _.
  pose proof (round_cos_Z cx 14 (5 * k)). pose proof (round_sin_Z cy 14 (5 * k)).
  apply in_box_intro; lia.
Qed.

Lemma sun_rays_box width cx cy :
  touches (fun p => sun_rays p width cx cy 14) (in_box width (cx - 24) (cx + 24) (cy - 24) (cy + 24)).
Proof.
  apply touches_for_in. intros i Hi. cbv zeta. apply touches_for_in. intros t Ht.
  apply touches_guarded_set. intros _.
  pose proof (round_cos_Z cx (14 + 4) (i * 45)). pose proof (round_sin_Z cy (14 + 4) (i * 45)).
  pose proof (round_cos_Z cx (14 + 10) (i * 45)). pose proof (round_sin_Z cy (14 + 10) (i * 45)).
  apply in_box_intro; match goal with
  | |- context [js_round (inject_Z ?a + inject_Z ((?b - _) * t) / _)%Q] =>
      pose proof (js_round_lerp a b t ltac:(lia))
  end; lia.
Qed.

(** The last point of the first ray, at angle 0, is [(cx + 24, cy)]. *)
Lemma sun_rays_edge p width cx cy :
  0 <= cy -> 0 <= cx + 24 < width -> cy * width + (cx + 24) < u8_len p ->
  (sun_rays p width cx cy 14).[cy * width + (cx + 24)] = Some INK_BLACK.
Proof.
  intros Hy Hx Hk. unfold sun_rays. cbv zeta.
  rewrite for_lt_unroll by lia.
  change INK_BLACK with (INK_BLACK mod 256).
  eapply paints_keeps;
    [eapply paints_for; intros; eapply paints_for; intros; apply paints_decide, paints_set|].
  rewrite (for_lt_snoc 0 10) by lia. change (Z.succ 10) with 11.
  rewrite Z.mul_0_l, !round_cos_0, !round_sin_0, !js_round_add, js_round_Z.
  change 10%Z with (Zpos 10). rewrite !js_round_frac. change (Zpos 10) with 10%Z.
  change (2 * 10) with 20.
  replace (cx + (14 + 4) + (2 * ((cx + (14 + 10) - (cx + (14 + 4))) * 10) + 10) / 20)
    with (cx + 24) by (rewrite <- (Z.div_add_l (cx + 18) 20) by lia; apply Z.div_unique_pos with 10; lia).
  replace (cy + (2 * ((cy - cy) * 10) + 10) / 20) with cy
    by (rewrite <- (Z.div_add_l cy 20) by lia; apply Z.div_unique_pos with 10; lia).
  rewrite decide_True by lia. rewrite u8_get_set, decide_True; [done|].
  split; [done|]. rewrite (for_lt_ind (fun b => u8_len b = u8_len p)); [nia|done|].
  intros t b _ <-. case_decide; [apply u8_len_set|done].
Qed.

Lemma fog_box width x y :
  0 < width -> touches (fun p => draw_fog p width x y) (in_box width x (x + 48) y (y + 48)).
Proof.
  intros Hw. apply touches_for_in. intros i Hi.
  eapply touches_mono; [|apply drawHLine_box; done]. intros k. apply in_box_mono; lia.
Qed.

Lemma rain_box width x y :
  0 < width -> touches (fun p => draw_rain p width x y) (in_box width x (x + 48) y (y + 48)).
Proof.
  intros Hw. apply (touches_comp (fun p => drawCloudShape p width (x + 8) (y + 8) 32 16)
                                 (for_lt 0 3 _)).
  - eapply touches_mono; [|apply cloud_box; [done|by left]]. intros k. apply in_box_mono; lia.
  - apply touches_for_in. intros i Hi. cbv zeta. apply touches_for_in. intros j Hj.
    apply touches_set_in, in_box_intro; lia.
Qed.

Lemma snow_box width x y :
  0 < width -> touches (fun p => draw_snow p width x y) (in_box width x (x + 48) y (y + 48)).
Proof.
  intros Hw. apply (touches_comp (fun p => drawCloudShape p width (x + 8) (y + 8) 32 16)
                                 (for_lt 0 3 _)).
  - eapply touches_mono; [|apply cloud_box; [done|by left]]. intros k. apply in_box_mono; lia.
  - apply touches_for_in. intros i Hi. cbv zeta.
    repeat apply touches_then_set; [apply touches_id|..].
    all: rewrite <- ?Z.add_assoc, <- ?Z.add_sub_assoc; apply in_box_intro; lia.
Qed.

Lemma thunder_box width x y :
  0 < width -> touches (fun p => draw_thunder p width x y) (in_box width x (x + 48) y (y + 48)).
Proof.
  intros Hw. apply (touches_comp (fun p => drawCloudShape p width (x + 8) (y + 4) 32 16)
                                 (for_lt 0 12 _)).
  - eapply touches_mono; [|apply cloud_box; [done|by left]]. intros k. apply in_box_mono; lia.
  - apply touches_for_in. intros i Hi. cbv zeta.
    repeat apply touches_then_set; [apply touches_id|..].
    all: rewrite <- ?Z.add_assoc; apply in_box_intro; try case_decide; lia.
Qed.

Lemma unknown_box width x y :
  0 < width -> touches (fun p => draw_unknown p width x y) (in_box width x (x + 48) y (y + 48)).
Proof.
  intros Hw. eapply touches_mono;
    [|apply (paints_touches _ _ _ (drawText_from_paints width (x + 16) (y + 16) [[63]] INK_BLACK 3 Hw ltac:(lia)))].
  intros k Hk. apply chars_footprint_box in Hk; [|done|lia]. cbn [length] in Hk.
  apply in_box_divmod; lia.
Qed.
End IconBox.

(** ** A table of cosines

    An instance of [JsTrig] from the cosines of whole degrees to six
    decimals ([sin d = cos (d - 90)]), close to what [Math.cos] gives; it
    makes the examples computable.  The theorems hold for every instance. *)

Definition COS_TABLE : list Z := [1000000; 999848; 999391; 998630; 997564; 996195; 994522; 992546; 990268; 987688; 984808; 981627; 978148; 974370; 970296; 965926; 961262; 956305; 951057; 945519; 939693; 933580; 927184; 920505; 913545; 906308; 898794; 891007; 882948; 874620; 866025; 857167; 848048; 838671; 829038; 819152; 809017; 798636; 788011; 777146; 766044; 754710; 743145; 731354; 719340; 707107; 694658; 681998; 669131; 656059; 642788; 629320; 615661; 601815; 587785; 573576; 559193; 544639; 529919; 515038; 500000; 484810; 469472; 453990; 438371; 422618; 406737; 390731; 374607; 358368; 342020; 325568; 309017; 292372; 275637; 258819; 241922; 224951; 207912; 190809; 173648; 156434; 139173; 121869; 104528; 87156; 69756; 52336; 34899; 17452; 0; -17452; -34899; -52336; -69756; -87156; -104528; -121869; -139173; -156434; -173648; -190809; -207912; -224951; -241922; -258819; -275637; -292372; -309017; -325568; -342020; -358368; -374607; -390731; -406737; -422618; -438371; -453990; -469472; -484810; -500000; -515038; -529919; -544639; -559193; -573576; -587785; -601815; -615661; -629320; -642788; -656059; -669131; -681998; -694658; -707107; -719340; -731354; -743145; -754710; -766044; -777146; -788011; -798636; -809017; -819152; -829038; -838671; -848048; -857167; -866025; -874620; -882948; -891007; -898794; -906308; -913545; -920505; -927184; -933580; -939693; -945519; -951057; -956305; -961262; -965926; -970296; -974370; -978148; -981627; -984808; -987688; -990268; -992546; -994522; -996195; -997564; -998630; -999391; -999848; -1000000; -999848; -999391; -998630; -997564; -996195; -994522; -992546; -990268; -987688; -984808; -981627; -978148; -974370; -970296; -965926; -961262; -956305; -951057; -945519; -939693; -933580; -927184; -920505; -913545; -906308; -898794; -891007; -882948; -874620; -866025; -857167; -848048; -838671; -829038; -819152; -809017; -798636; -788011; -777146; -766044; -754710; -743145; -731354; -719340; -707107; -694658; -681998; -669131; -656059; -642788; -629320; -615661; -601815; -587785; -573576; -559193; -544639; -529919; -515038; -500000; -484810; -469472; -453990; -438371; -422618; -406737; -390731; -374607; -358368; -342020; -325568; -309017; -292372; -275637; -258819; -241922; -224951; -207912; -190809; -173648; -156434; -139173; -121869; -104528; -87156; -69756; -52336; -34899; -17452; 0; 17452; 34899; 52336; 69756; 87156; 104528; 121869; 139173; 156434; 173648; 190809; 207912; 224951; 241922; 258819; 275637; 292372; 309017; 325568; 342020; 358368; 374607; 390731; 406737; 422618; 438371; 453990; 469472; 484810; 500000; 515038; 529919; 544639; 559193; 573576; 587785; 601815; 615661; 629320; 642788; 656059; 669131; 681998; 694658; 707107; 719340; 731354; 743145; 754710; 766044; 777146; 788011; 798636; 809017; 819152; 829038; 838671; 848048; 857167; 866025; 874620; 882948; 891007; 898794; 906308; 913545; 920505; 927184; 933580; 939693; 945519; 951057; 956305; 961262; 965926; 970296; 974370; 978148; 981627; 984808; 987688; 990268; 992546; 994522; 996195; 997564; 998630; 999391; 999848].

Definition cos_num (deg : Z) : Z := default 0 (COS_TABLE !! Z.to_nat (deg mod 360)).

Definition table_cos (deg : Z) : Q := cos_num deg # 1000000.

Lemma cos_num_bound deg : -1000000 <= cos_num deg <= 1000000.
Proof.
  unfold cos_num. destruct (COS_TABLE !! _) as [n|] eqn:E; cbn; [|lia].
  assert (Hall : Forall (fun n => -1000000 <= n <= 1000000) COS_TABLE)
    by (apply (bool_decide_unpack _); vm_compute; reflexivity).
  exact (Forall_lookup_1 _ _ _ _ Hall E).
Qed.

Lemma q_between (c r t : Q) : (0 <= r)%Q -> (-1 <= t <= 1)%Q -> (c - r <= c + r * t <= c + r)%Q.
Proof.
  intros Hr [Ht1 Ht2]. split.
  - apply Qle_trans with (c + -1 * r)%Q; [rewrite Qle_lteq; right; ring|].
    apply Qle_trans with (c + t * r)%Q; [|rewrite Qle_lteq; right; ring].
    apply Qplus_le_r, Qmult_le_compat_r; done.
  - apply Qle_trans with (c + t * r)%Q; [rewrite Qle_lteq; right; ring|].
    apply Qle_trans with (c + 1 * r)%Q; [|rewrite Qle_lteq; right; ring].
    apply Qplus_le_r, Qmult_le_compat_r; done.
Qed.

Lemma table_cos_range deg : (-1 <= table_cos deg <= 1)%Q.
Proof.
  pose proof (cos_num_bound deg). unfold table_cos, Qle. cbn. lia.
Qed.

Definition table_round_cos (c r : Q) (deg : Z) : Z := js_round (c + r * table_cos deg)%Q.
Definition table_round_sin (c r : Q) (deg : Z) : Z := js_round (c + r * table_cos (deg - 90))%Q.

Lemma table_round_cos_0 c r : table_round_cos c r 0 = js_round (c + r)%Q.
Proof. apply js_round_proper. unfold table_cos. vm_compute (cos_num 0). ring. Qed.

Lemma table_round_sin_0 c r : table_round_sin c r 0 = js_round c.
Proof. apply js_round_proper. unfold table_cos. vm_compute (cos_num (0 - 90)). ring. Qed.

Lemma table_round_cos_range c r deg :
  (0 <= r)%Q -> js_round (c - r)%Q <= table_round_cos c r deg <= js_round (c + r)%Q.
Proof. intros Hr. destruct (q_between c r _ Hr (table_cos_range deg)). split; by apply js_round_mono. Qed.

Lemma table_round_sin_range c r deg :
  (0 <= r)%Q -> js_round (c - r)%Q <= table_round_sin c r deg <= js_round (c + r)%Q.
Proof.
  intros Hr. destruct (q_between c r _ Hr (table_cos_range (deg - 90))). split; by apply js_round_mono.
Qed.

#[export] Instance trig_table : JsTrig := {|
  round_cos := table_round_cos;
  round_sin := table_round_sin;
  round_cos_0 := table_round_cos_0;
  round_sin_0 := table_round_sin_0;
  round_cos_range := table_round_cos_range;
  round_sin_range := table_round_sin_range
|}.

(** ** Behaviour of [drawWeatherIcon] *)

Section IconTheorems.
Context `{JsTrig}.

(** C15: The chain of range tests of [drawWeatherIcon] is the dispatch of
    the specification's table: every code draws the icon of its kind
    [icon_of_code code]; in particular the sentinel [-1] of the weather
    fallback, like every code outside the table, draws the ["?"]. *)
Theorem drawWeatherIcon_dispatch p width x y code :
  drawWeatherIcon p width x y code = draw_icon (icon_of_code code) p width x y.
Proof.
  unfold drawWeatherIcon, icon_of_code.
  destruct (decide (code = 0 \/ code = 1)) as [?|?];
    [rewrite (decide_True (P := 0 <= code <= 1)) by lia; reflexivity|rewrite (decide_False (P := 0 <= code <= 1)) by lia].
  destruct (decide (code >= 2 /\ code <= 3)) as [?|?];
    [rewrite (decide_True (P := 2 <= code <= 3)) by lia; reflexivity|rewrite (decide_False (P := 2 <= code <= 3)) by lia].
  destruct (decide (code >= 45 /\ code <= 48)) as [?|?];
    [rewrite (decide_True (P := 45 <= code <= 48)) by lia; reflexivity|rewrite (decide_False (P := 45 <= code <= 48)) by lia].
  destruct (decide ((code >= 51 /\ code <= 67) \/ (code >= 80 /\ code <= 82))) as [?|?];
    [rewrite (decide_True (P := 51 <= code <= 67 \/ 80 <= code <= 82)) by lia; reflexivity|rewrite (decide_False (P := 51 <= code <= 67 \/ 80 <= code <= 82)) by lia].
  destruct (decide ((code >= 71 /\ code <= 77) \/ (code >= 85 /\ code <= 86))) as [?|?];
    [rewrite (decide_True (P := 71 <= code <= 77 \/ 85 <= code <= 86)) by lia; reflexivity|rewrite (decide_False (P := 71 <= code <= 77 \/ 85 <= code <= 86)) by lia].
  destruct (decide (code >= 95)) as [?|?];
    [rewrite (decide_True (P := 95 <= code)) by lia; reflexivity|rewrite (decide_False (P := 95 <= code)) by lia].
  done.
Qed.

(** The icon's cells, kind by kind. *)
Lemma drawWeatherIcon_touches width x y code :
  0 < width -> touches (fun p => drawWeatherIcon p width x y code) (in_box width x (x + 48) y (y + 48)).
Proof.
  intros Hw. unfold drawWeatherIcon. apply touches_ite.
  { unfold draw_sun. cbv zeta. change (48 / 2) with 24.
    apply (touches_comp (fun p => sun_circle p width (x + 24) (y + 24) 14)
                        (fun p => sun_rays p width (x + 24) (y + 24) 14)).
    + eapply touches_mono; [|exact (sun_circle_box width (x + 24) (y + 24))].
      intros k. apply in_box_mono; lia.
    + eapply touches_mono; [|exact (sun_rays_box width (x + 24) (y + 24))].
      intros k. apply in_box_mono; lia. }
  apply touches_ite.
  { eapply touches_mono; [|apply cloud_box; [done|by right]]. intros k. apply in_box_mono; lia. }
  apply touches_ite; [by apply fog_box|].
  apply touches_ite; [by apply rain_box|].
  apply touches_ite; [by apply snow_box|].
  apply touches_ite; [by apply thunder_box|].
  by apply unknown_box.
Qed.

(** C16: Every icon stays in its box: on a canvas of positive width,
    [drawWeatherIcon] changes only the cells [py * width + px] with [px] in
    [[x, x + 48]] and [py] in [[y, y + 48]], keeps the length and the byte
    invariant, whatever the code and the trigonometry. *)
Theorem drawWeatherIcon_box width x y code :
  0 < width -> touches (fun p => drawWeatherIcon p width x y code) (in_box width x (x + 48) y (y + 48)).
Proof. apply drawWeatherIcon_touches. Qed.

(** C17: The sun is one pixel wider and taller than the specification's
    48x48 footprint: its first ray ends at [(x + 48, y + 24)], which is
    black after the icon is drawn whenever it lies on the canvas. *)
Theorem sun_reaches_edge p width x y code :
  (code = 0 \/ code = 1) -> 0 <= y -> 0 <= x + 48 < width -> (y + 24) * width + (x + 48) < u8_len p ->
  (drawWeatherIcon p width x y code).[(y + 24) * width + (x + 48)] = Some INK_BLACK.
Proof.
  intros Hc Hy Hx Hk. unfold drawWeatherIcon. rewrite decide_True by done.
  unfold draw_sun. cbv zeta. change (48 / 2) with 24.
  replace (x + 48) with (x + 24 + 24) by lia.
  apply sun_rays_edge; [lia|lia|].
  rewrite (touches_len _ _ (sun_circle_box width (x + 24) (y + 24))). lia.
Qed.

End IconTheorems.

Lemma sun_reaches_edge_witness :
  ((0 = 0 \/ 0 = 1) /\ 0 <= 20 /\ 0 <= 240 + 48 < 480 /\ (20 + 24) * 480 + (240 + 48) < u8_len (white_canvas 480 800)) /\
  (drawWeatherIcon (white_canvas 480 800) 480 240 20 0).[(20 + 24) * 480 + (240 + 48)] = Some INK_BLACK.
Proof.
  split; [split; [by left|split; [lia|split; [lia|vm_compute; reflexivity]]]|].
  apply sun_reaches_edge; [by left|lia|lia|vm_compute; reflexivity].
Defined.

Lemma drawWeatherIcon_box_witness :
  0 < 480 /\ touches (fun p => drawWeatherIcon p 480 240 20 61) (in_box 480 240 (240 + 48) 20 (20 + 48)).
Proof. split; [lia|]. apply drawWeatherIcon_box. lia. Defined.
