(* ===== verification/Layout.v ===== *)
(** * The page composer: [renderDisplay]

    index.ts lines 17-38 (data types), 286-290 (colours), 567-712
    ([renderDisplay]).  The composer threads two pieces of state: the
    pixel buffer, written only through the drawing primitives, and the
    vertical cursor [eventY] of the agenda.  It is written here once,
    against the class [Canvas] of the primitives it calls, so that
    - the [u8arr] instance (file [Render]) is the source function, and
    - the display-list instance [list DrawCmd] records the calls, in
      order, which is what the layout theorems below talk about.
    [render_page_replay] shows that any instance computes what replaying
    the display list computes (the class has no read operation), which is
    how the layout theorems carry over to the pixel buffer.

    The agenda loop is split as the source nests it: [events_loop] is the
    inner [for] over one day's events (its [break] returns), [days_loop]
    the outer [for] over the days (its [break] returns, its [continue]
    recurses).  [truncateTitle] is the title [while] loop, run with the
    title's length as fuel; [truncateTitle_fits] shows the fuel always
    suffices. *)

From S2P Require Import Prelude JsString Pixels Text.
Local Open Scope Z_scope.

(** ** Data (index.ts lines 17-38) *)

Record WeatherData := {
  temperature : Z;
  temperatureHigh : Z;
  temperatureLow : Z;
  condition : jstr;
  conditionCode : Z
}.

Record CalendarEvent := {
  time : jstr;
  title : jstr;
  isAllDay : bool
}.

(** [date] is kept as its time value in milliseconds. *)
Record DayEvents := {
  label : jstr;
  date : Z;
  events : list CalendarEvent
}.

(** What [renderDisplay] reads of its [generatedAt] date: [getDay()],
    [getMonth()], [getDate()] (in the worker's own time zone) and the
    [toLocaleTimeString] rendering in [America/New_York]. *)
Record GeneratedAt := {
  gen_day : Z;
  gen_month : Z;
  gen_date : Z;
  gen_time_ny : jstr
}.

(** ** Constants (lines 108, 577-626); the colours are in [Pixels] *)

Definition DAY_NAMES : list jstr :=
  js <$> ["SUNDAY"; "MONDAY"; "TUESDAY"; "WEDNESDAY"; "THURSDAY"; "FRIDAY"; "SATURDAY"]%string.

Definition monthNames : list jstr :=
  js <$> ["JAN"; "FEB"; "MAR"; "APR"; "MAY"; "JUN"; "JUL"; "AUG"; "SEP"; "OCT"; "NOV"; "DEC"]%string.

(** [arr[i]] inside a template literal: [undefined] prints as
    ["undefined"]. *)
Definition js_index_str (arr : list jstr) (i : Z) : jstr :=
  if decide (0 <= i) then default (js "undefined") (arr !! Z.to_nat i) else js "undefined".

Definition MARGIN : Z := 24.
Definition FOOTER_HEIGHT : Z := 50.
Definition weatherSectionHeight : Z := 180.
Definition eventRowHeight : Z := 45.
Definition dayHeaderHeight : Z := 40.
Definition timeColumnWidth : Z := 100.

(** ** Title truncation (lines 679-683)

    [while (getTextWidth(title, 2) > maxTitleWidth && title.length > 3)
       title = title.slice(0, -4) + '...';] *)

Definition truncate_cond (title : jstr) (maxTitleWidth : Z) : bool :=
  bool_decide (getTextWidth title 2 > maxTitleWidth /\ js_length title > 3).

Fixpoint truncate_loop (fuel : nat) (title : jstr) (maxTitleWidth : Z) : jstr :=
  match fuel with
  | O => title
  | S fuel' =>
      if truncate_cond title maxTitleWidth
      then truncate_loop fuel' (js_slice title 0 (-4) ++ js "...") maxTitleWidth
      else title
  end.

(** Every iteration shortens the title by one code unit, so its length is
    enough fuel. *)
Definition truncateTitle (title : jstr) (maxTitleWidth : Z) : jstr :=
  truncate_loop (length title) title maxTitleWidth.

(** The closed form: the first [k - 3] code units and an ellipsis, where
    [k = max 3 (maxTitleWidth / 16)] is the longest length that fits. *)
Definition truncate_spec (title : jstr) (maxTitleWidth : Z) : jstr :=
  if truncate_cond title maxTitleWidth
  then take (Z.to_nat (Z.max 3 (maxTitleWidth / 16)) - 3) title ++ js "..."
  else title.

Lemma truncate_cond_iff title M :
  truncate_cond title M = true <->
  16 * Z.of_nat (length title) > M /\ (length title > 3)%nat.
Proof.
  unfold truncate_cond, getTextWidth, js_length. rewrite bool_decide_eq_true. lia.
Qed.

Lemma length_ellipsis : length (js "...") = 3%nat.
Proof. reflexivity. Qed.

(** One iteration of the loop body. *)
Lemma truncate_step title :
  (length title > 3)%nat ->
  js_slice title 0 (-4) ++ js "..." = take (length title - 4) title ++ js "...".
Proof.
  intros H. assert (E : js_slice title 0 (-4) = take (length title - 4) title)
    by (apply (js_slice_drop_last title 4); lia).
  by rewrite E.
Qed.

(** The closed form does not change along the loop. *)
Lemma truncate_spec_step title M :
  truncate_cond title M = true ->
  truncate_spec (js_slice title 0 (-4) ++ js "...") M = truncate_spec title M.
Proof.
  intros Hc. pose proof Hc as [H16 H3]%truncate_cond_iff.
  rewrite truncate_step by done. unfold truncate_spec at 2. rewrite Hc. clear Hc.
  unfold truncate_spec.
  destruct (truncate_cond (take (length title - 4) title ++ js "...") M) eqn:Hc'.
  - apply truncate_cond_iff in Hc' as [H16' _].
    rewrite length_app, length_take, length_ellipsis in H16'.
    assert (M / 16 <= Z.of_nat (length title) - 2)
      by (apply Z.lt_succ_r, Z.div_lt_upper_bound; lia).
    rewrite take_app_le by (rewrite length_take; lia).
    rewrite take_take. f_equal. f_equal. lia.
  - apply not_true_iff_false in Hc'. rewrite truncate_cond_iff in Hc'.
    rewrite length_app, length_take, length_ellipsis in Hc'.
    f_equal. f_equal.
    destruct (decide (length title = 4%nat)) as [Hl|Hl].
    + assert (M / 16 <= 3) by (apply Z.lt_succ_r, Z.div_lt_upper_bound; lia). lia.
    + assert (M / 16 = Z.of_nat (length title) - 1) as ->.
      { symmetry. apply Z.div_unique with (r := M - 16 * (Z.of_nat (length title) - 1)); lia. }
      lia.
Qed.

Lemma truncate_loop_spec fuel title M :
  (length title <= fuel + 3)%nat -> truncate_loop fuel title M = truncate_spec title M.
Proof.
  revert title. induction fuel as [|fuel IH]; intros title Hf; simpl.
  - unfold truncate_spec. destruct (truncate_cond title M) eqn:Hc; [|done].
    apply truncate_cond_iff in Hc. lia.
  - destruct (truncate_cond title M) eqn:Hc.
    + rewrite IH.
      * by apply truncate_spec_step.
      * apply truncate_cond_iff in Hc.
        rewrite truncate_step, length_app, length_take, length_ellipsis; lia.
    + unfold truncate_spec. by rewrite Hc.
Qed.

(** ** Behaviour of the title truncation *)

(** C11: The truncation loop agrees with its closed form: a title that
    does not fit (at scale 2, [16] pixels per code unit) and is longer than
    3 becomes its first [max 3 (maxTitleWidth / 16) - 3] code units followed
    by ["..."]; any other title is kept. *)
Theorem truncateTitle_closed_form title maxTitleWidth :
  truncateTitle title maxTitleWidth = truncate_spec title maxTitleWidth.
Proof. apply truncate_loop_spec. lia. Qed.

(** The closed form fits the column or is at most 3 code units long. *)
Lemma truncate_spec_fits title maxTitleWidth :
  let t := truncate_spec title maxTitleWidth in
  getTextWidth t 2 <= maxTitleWidth \/ js_length t <= 3.
Proof.
  cbn zeta. unfold truncate_spec.
  destruct (truncate_cond title maxTitleWidth) eqn:Hc.
  - apply truncate_cond_iff in Hc as [H16 H3].
    unfold getTextWidth, js_length. rewrite length_app, length_take, length_ellipsis.
    assert (maxTitleWidth / 16 <= Z.of_nat (length title) - 1)
      by (apply Z.lt_succ_r, Z.div_lt_upper_bound; lia).
    pose proof (Z.mul_div_le maxTitleWidth 16 ltac:(lia)). lia.
  - apply not_true_iff_false in Hc. rewrite truncate_cond_iff in Hc.
    unfold getTextWidth, js_length. lia.
Qed.

Lemma truncateTitle_spec title maxTitleWidth :
  truncateTitle title maxTitleWidth = truncate_spec title maxTitleWidth.
Proof. apply truncate_loop_spec. lia. Qed.

(** C12: The loop always reaches its exit condition within its fuel (so
    the model computes the source's result): the truncated title fits the
    column ([getTextWidth t 2 <= maxTitleWidth]) or has at most 3 code
    units, even for a negative column width. *)
Theorem truncateTitle_fits title maxTitleWidth :
  let t := truncateTitle title maxTitleWidth in
  getTextWidth t 2 <= maxTitleWidth \/ js_length t <= 3.
Proof. cbn zeta. rewrite truncateTitle_spec. apply truncate_spec_fits. Qed.

Example truncateTitle_long :
  truncateTitle (js "Quarterly planning with the whole design team") 322
  = js "Quarterly plannin...".  (* 20 units of 16 pixels fill the 322-pixel column *)
Proof. vm_compute. reflexivity. Qed.

(** ** The primitives the composer calls *)

(** The drawing calls of [renderDisplay], with the source's argument
    order; [width] is passed on every call as in the source. *)
Class Canvas (C : Type) := {
  cv_drawText : C -> Z -> Z -> Z -> jstr -> Z -> Z -> C;
  cv_drawCenteredText : C -> Z -> Z -> jstr -> Z -> Z -> C;
  cv_drawRightAlignedText : C -> Z -> Z -> jstr -> Z -> Z -> Z -> C;
  cv_drawHLine : C -> Z -> Z -> Z -> Z -> Z -> Z -> C;
  cv_drawDashedHLine : C -> Z -> Z -> Z -> Z -> Z -> Z -> Z -> C;
  cv_drawWeatherIcon : C -> Z -> Z -> Z -> Z -> C
}.

(** One recorded call. *)
Inductive DrawCmd :=
| DText (width x y : Z) (text : jstr) (color scale : Z)
| DCentered (width y : Z) (text : jstr) (color scale : Z)
| DRight (width y : Z) (text : jstr) (color scale margin : Z)
| DHLine (width y x1 x2 color thickness : Z)
| DDashed (width y x1 x2 color dashLen gapLen : Z)
| DIcon (width x y code : Z).

(** The display-list canvas: the calls made so far, oldest first. *)
#[export] Instance trace_canvas : Canvas (list DrawCmd) := {
  cv_drawText c w x y t col s := c ++ [DText w x y t col s];
  cv_drawCenteredText c w y t col s := c ++ [DCentered w y t col s];
  cv_drawRightAlignedText c w y t col s m := c ++ [DRight w y t col s m];
  cv_drawHLine c w y x1 x2 col th := c ++ [DHLine w y x1 x2 col th];
  cv_drawDashedHLine c w y x1 x2 col d g := c ++ [DDashed w y x1 x2 col d g];
  cv_drawWeatherIcon c w x y code := c ++ [DIcon w x y code]
}.

(** Perform one recorded call on any canvas. *)
Definition run_cmd `{Canvas C} (c : C) (cmd : DrawCmd) : C :=
  match cmd with
  | DText w x y t col s => cv_drawText c w x y t col s
  | DCentered w y t col s => cv_drawCenteredText c w y t col s
  | DRight w y t col s m => cv_drawRightAlignedText c w y t col s m
  | DHLine w y x1 x2 col th => cv_drawHLine c w y x1 x2 col th
  | DDashed w y x1 x2 col d g => cv_drawDashedHLine c w y x1 x2 col d g
  | DIcon w x y code => cv_drawWeatherIcon c w x y code
  end.

Definition replay `{Canvas C} (cmds : list DrawCmd) (c : C) : C := foldl run_cmd c cmds.

(** ** The composer *)

Section Composer.
Context `{Canvas C}.

(** The inner loop over one day's events (lines 660-692), from index
    [eventIndex] of a day of [n] events; a [break] returns. *)
Fixpoint events_loop (c : C) (width maxContentY contentWidth : Z) (isToday : bool) (n : Z)
    (eventIndex : Z) (evs : list CalendarEvent) (eventY : Z) : Z * C :=
  match evs with
  | [] => (eventY, c)
  | event :: rest =>
      if decide (eventY + 30 > maxContentY) then
        let remaining := n - eventIndex in
        if decide (remaining > 0) then
          (eventY + 30,
           cv_drawText c width MARGIN eventY (js "+" ++ z_to_dec remaining ++ js " more...")
             LIGHT_GRAY 2)
        else (eventY, c)
      else
        let eventColor := if isToday then INK_BLACK else DARK_GRAY in
        let c := cv_drawText c width MARGIN eventY (time event) eventColor 2 in
        let maxTitleWidth := contentWidth - timeColumnWidth - 10 in
        let t := truncateTitle (title event) maxTitleWidth in
        let c := cv_drawText c width (MARGIN + timeColumnWidth) eventY t eventColor 2 in
        let eventY := eventY + 26 in
        let c := if decide (eventIndex < n - 1 /\ eventY + eventRowHeight <= maxContentY)
                 then cv_drawHLine c width eventY MARGIN (width - MARGIN) LIGHT_GRAY 1 else c in
        let eventY := eventY + (eventRowHeight - 26) in
        events_loop c width maxContentY contentWidth isToday n (eventIndex + 1) rest eventY
  end.

(** The outer loop over the days (lines 629-693); a [break] returns, a
    [continue] goes on with the next day. *)
Fixpoint days_loop (c : C) (width maxContentY contentWidth : Z) (dayIndex : Z)
    (days : list DayEvents) (eventY : Z) : Z * C :=
  match days with
  | [] => (eventY, c)
  | day :: rest =>
      let isFirstDay := bool_decide (dayIndex = 0) in
      let isToday := bool_decide (label day = js "TODAY") in
      let minSpaceNeeded := dayHeaderHeight + eventRowHeight in
      if decide (eventY + minSpaceNeeded > maxContentY) then (eventY, c)
      else
        let '(c, eventY) :=
          if isFirstDay then (c, eventY)
          else (cv_drawDashedHLine c width eventY MARGIN (width - MARGIN) DARK_GRAY 6 4,
                eventY + 15) in
        let labelColor := if isToday then INK_BLACK else DARK_GRAY in
        let c := cv_drawText c width MARGIN eventY (label day) labelColor 2 in
        let eventY := eventY + (dayHeaderHeight - 5) in
        match events day with
        | [] =>
            let c := cv_drawText c width (MARGIN + timeColumnWidth) eventY (js "No events")
                       LIGHT_GRAY 2 in
            days_loop c width maxContentY contentWidth (dayIndex + 1) rest (eventY + eventRowHeight)
        | evs =>
            let '(eventY, c) :=
              events_loop c width maxContentY contentWidth isToday (Z.of_nat (length evs)) 0 evs
                eventY in
            days_loop c width maxContentY contentWidth (dayIndex + 1) rest eventY
        end
  end.

(** [renderDisplay] after the allocation of the buffer (lines 577-711),
    starting from the white canvas [c]. *)
Definition render_page (c : C) (width height : Z) (weather : WeatherData) (days : list DayEvents)
    (generatedAt : GeneratedAt) : C :=
  let contentWidth := width - MARGIN * 2 in
  let maxContentY := height - FOOTER_HEIGHT in
  (* weather section *)
  let tempStr := z_to_dec (temperature weather) in
  let c := cv_drawText c width MARGIN 30 tempStr INK_BLACK 10 in
  let tempWidth := getTextWidth tempStr 10 in
  let c := cv_drawText c width (MARGIN + tempWidth) 30 [176] INK_BLACK 4 in
  let rightX := 240 in
  let c := cv_drawWeatherIcon c width rightX 20 (conditionCode weather) in
  let c := cv_drawText c width (rightX + 56) 28 (js "BROOKLYN NY") INK_BLACK 2 in
  let c := cv_drawText c width (rightX + 56) 60 (condition weather) DARK_GRAY 2 in
  let hiLoStr := js "H:" ++ z_to_dec (temperatureHigh weather) ++ js " L:"
                 ++ z_to_dec (temperatureLow weather) in
  let c := cv_drawText c width (rightX + 56) 92 hiLoStr DARK_GRAY 2 in
  let c := cv_drawHLine c width weatherSectionHeight MARGIN (width - MARGIN) INK_BLACK 3 in
  (* date header *)
  let dateStr := js_index_str DAY_NAMES (gen_day generatedAt) ++ js ", "
                 ++ js_index_str monthNames (gen_month generatedAt) ++ js " "
                 ++ z_to_dec (gen_date generatedAt) in
  let c := cv_drawCenteredText c width (weatherSectionHeight + 20) dateStr INK_BLACK 3 in
  let dateSectionEnd := weatherSectionHeight + 70 in
  let c := cv_drawHLine c width dateSectionEnd MARGIN (width - MARGIN) INK_BLACK 2 in
  (* agenda *)
  let eventY := dateSectionEnd + 20 in
  let '(_, c) := days_loop c width maxContentY contentWidth 0 days eventY in
  (* footer *)
  let footerY := height - 30 in
  let c := cv_drawHLine c width (footerY - 10) MARGIN (width - MARGIN) LIGHT_GRAY 1 in
  let genStr := js "Generated " ++ gen_time_ny generatedAt in
  cv_drawRightAlignedText c width footerY genStr DARK_GRAY 1 MARGIN.
End Composer.

(** ** Any canvas computes the replay of the display list *)

Section Replay.
Context `{Canvas C}.

Lemma replay_snoc (tr : list DrawCmd) cmd (c : C) :
  replay (tr ++ [cmd]) c = run_cmd (replay tr c) cmd.
Proof. unfold replay. by rewrite foldl_app. Qed.

(** Each call on a replayed canvas is the replay of the longer list. *)
Lemma replay_text tr (c : C) w x y t col sc :
  cv_drawText (replay tr c) w x y t col sc = replay (tr ++ [DText w x y t col sc]) c.
Proof. by rewrite replay_snoc. Qed.
Lemma replay_centered tr (c : C) w y t col sc :
  cv_drawCenteredText (replay tr c) w y t col sc = replay (tr ++ [DCentered w y t col sc]) c.
Proof. by rewrite replay_snoc. Qed.
Lemma replay_right tr (c : C) w y t col sc m :
  cv_drawRightAlignedText (replay tr c) w y t col sc m = replay (tr ++ [DRight w y t col sc m]) c.
Proof. by rewrite replay_snoc. Qed.
Lemma replay_hline tr (c : C) w y x1 x2 col th :
  cv_drawHLine (replay tr c) w y x1 x2 col th = replay (tr ++ [DHLine w y x1 x2 col th]) c.
Proof. by rewrite replay_snoc. Qed.
Lemma replay_dashed tr (c : C) w y x1 x2 col d g :
  cv_drawDashedHLine (replay tr c) w y x1 x2 col d g = replay (tr ++ [DDashed w y x1 x2 col d g]) c.
Proof. by rewrite replay_snoc. Qed.
Lemma replay_icon tr (c : C) w x y code :
  cv_drawWeatherIcon (replay tr c) w x y code = replay (tr ++ [DIcon w x y code]) c.
Proof. by rewrite replay_snoc. Qed.

#[local] Hint Rewrite replay_text replay_centered replay_right replay_hline
  replay_dashed replay_icon : replay_rw.

Lemma events_loop_replay (tr : list DrawCmd) (c : C) width maxY cw isToday n i evs y :
  events_loop (replay tr c) width maxY cw isToday n i evs y =
  let '(y', tr') := events_loop tr width maxY cw isToday n i evs y in (y', replay tr' c).
Proof.
  revert tr i y. induction evs as [|ev evs IH]; intros tr i y; cbn [events_loop]; [done|].
  case_decide; [case_decide; [by autorewrite with replay_rw|done]|].
  autorewrite with replay_rw. case_decide; autorewrite with replay_rw; apply IH.
Qed.

Lemma days_loop_replay (tr : list DrawCmd) (c : C) width maxY cw d days y :
  days_loop (replay tr c) width maxY cw d days y =
  let '(y', tr') := days_loop tr width maxY cw d days y in (y', replay tr' c).
Proof.
  revert tr d y. induction days as [|day days IH]; intros tr d y; cbn [days_loop]; [done|].
  case_decide; [done|].
  destruct (bool_decide (d = 0)); cbn [fst snd]; autorewrite with replay_rw;
    (destruct (events day) as [|ev evs]; [autorewrite with replay_rw; apply IH|]);
    rewrite events_loop_replay;
    destruct (events_loop _ _ _ _ _ _ _ _ _); apply IH.
Qed.
End Replay.

#[export] Hint Rewrite @replay_text @replay_centered @replay_right @replay_hline
  @replay_dashed @replay_icon : replay_rw.

(** [render_page] as the replay of its display list. *)
Lemma render_page_replay `{Canvas C} (c : C) width height weather days generatedAt :
  render_page c width height weather days generatedAt =
  replay (render_page [] width height weather days generatedAt) c.
Proof.
  unfold render_page. change c with (replay [] c) at 1.
  autorewrite with replay_rw. rewrite days_loop_replay.
  destruct (days_loop _ _ _ _ _ _ _). by autorewrite with replay_rw.
Qed.

(** ** The agenda on the display list *)

(** What the inner loop records for one event that fits: its time, its
    truncated title and, between events, a divider. *)
Definition event_cmds (width maxContentY contentWidth : Z) (isToday : bool) (n eventIndex eventY : Z)
    (event : CalendarEvent) : list DrawCmd :=
  let eventColor := if isToday then INK_BLACK else DARK_GRAY in
  let y1 := eventY + 26 in
  [DText width MARGIN eventY (time event) eventColor 2;
   DText width (MARGIN + timeColumnWidth) eventY
     (truncateTitle (title event) (contentWidth - timeColumnWidth - 10)) eventColor 2] ++
  (if decide (eventIndex < n - 1 /\ y1 + eventRowHeight <= maxContentY)
   then [DHLine width y1 MARGIN (width - MARGIN) LIGHT_GRAY 1] else []).

Fixpoint events_cmds (width maxContentY contentWidth : Z) (isToday : bool) (n eventIndex eventY : Z)
    (evs : list CalendarEvent) : list DrawCmd :=
  match evs with
  | [] => []
  | ev :: rest =>
      event_cmds width maxContentY contentWidth isToday n eventIndex eventY ev ++
      events_cmds width maxContentY contentWidth isToday n (eventIndex + 1) (eventY + eventRowHeight) rest
  end.

(** The overflow marker. *)
Definition more_cmd (width eventY remaining : Z) : DrawCmd :=
  DText width MARGIN eventY (js "+" ++ z_to_dec remaining ++ js " more...") LIGHT_GRAY 2.

(** How many of [k] events, the first at [eventY], pass the space check
    [eventY + 30 <= maxContentY]; rows are [eventRowHeight] apart. *)
Definition fit_count (maxContentY eventY : Z) (k : nat) : nat :=
  if decide (eventY + 30 > maxContentY) then O
  else Nat.min k (Z.to_nat ((maxContentY - 30 - eventY) / eventRowHeight + 1)).

Lemma fit_count_cons maxY y k :
  y + 30 <= maxY -> fit_count maxY y (S k) = S (fit_count maxY (y + eventRowHeight) k).
Proof.
  intros Hy. unfold fit_count, eventRowHeight. rewrite decide_False by lia.
  case_decide.
  - assert ((maxY - 30 - y) / 45 = 0) as -> by (apply Z.div_small; lia). lia.
  - replace (maxY - 30 - y) with ((maxY - 30 - (y + 45)) + 1 * 45) by lia.
    rewrite Z.div_add by lia.
    assert (0 <= (maxY - 30 - (y + 45)) / 45) by (apply Z.div_pos; lia). lia.
Qed.


Lemma fit_count_stop maxY y k : y + 30 > maxY -> fit_count maxY y k = O.
Proof. intros Hy. unfold fit_count. by rewrite decide_True. Qed.

Lemma events_loop_trace tr width maxY cw isToday n i evs y :
  let m := fit_count maxY y (length evs) in
  let painted := events_cmds width maxY cw isToday n i y (take m evs) in
  let yEnd := y + eventRowHeight * Z.of_nat m in
  events_loop tr width maxY cw isToday n i evs y =
  if decide (m < length evs)%nat then
    if decide (n - (i + Z.of_nat m) > 0)
    then (yEnd + 30, tr ++ painted ++ [more_cmd width yEnd (n - (i + Z.of_nat m))])
    else (yEnd, tr ++ painted)
  else (yEnd, tr ++ painted).
Proof.
  revert tr i y. induction evs as [|ev evs IH]; intros tr i y; cbn zeta.
  - cbn [length]. assert (fit_count maxY y 0 = 0%nat) as -> by (unfold fit_count; case_decide; lia).
    cbn. rewrite decide_False by lia. f_equal; [lia|by rewrite app_nil_r].
  - cbn [events_loop length]. case_decide as Hy.
    + rewrite fit_count_stop by done. cbn [take events_cmds].
      rewrite (decide_True (P := (0 < S (length evs))%nat)) by lia.
      change (Z.of_nat 0) with 0. rewrite ?Z.add_0_r, ?Z.mul_0_r, ?Z.add_0_r, ?app_nil_r.
      by destruct (decide (n - i > 0)).
    + rewrite fit_count_cons by lia. cbn [take events_cmds].
      rewrite IH. cbn zeta.
      replace (y + 26 + (eventRowHeight - 26)) with (y + eventRowHeight) by lia.
      set (m' := fit_count maxY (y + eventRowHeight) (length evs)).
      replace (i + 1 + Z.of_nat m') with (i + Z.of_nat (S m')) by lia.
      replace (y + eventRowHeight + eventRowHeight * Z.of_nat m')
        with (y + eventRowHeight * Z.of_nat (S m')) by lia.
      unfold event_cmds. cbn [cv_drawText cv_drawHLine trace_canvas].
      destruct (decide (m' < length evs)%nat); destruct (decide (S m' < S (length evs))%nat);
        try lia; [destruct (decide (n - (i + Z.of_nat (S m')) > 0))|];
        case_decide; rewrite <- ?app_assoc; reflexivity.
Qed.

(** An event that does not pass the check leaves the cursor past the
    content limit. *)
Lemma fit_count_cut maxY y k :
  (fit_count maxY y k < k)%nat -> y + eventRowHeight * Z.of_nat (fit_count maxY y k) + 30 > maxY.
Proof.
  unfold fit_count, eventRowHeight. case_decide; [lia|]. intros Hlt.
  rewrite Nat.min_r in * by lia.
  pose proof (Z.mul_div_le (maxY - 30 - y) 45 ltac:(lia)).
  pose proof (Z.mod_pos_bound (maxY - 30 - y) 45 ltac:(lia)).
  pose proof (Z.div_mod (maxY - 30 - y) 45 ltac:(lia)).
  assert (0 <= (maxY - 30 - y) / 45) by (apply Z.div_pos; lia). lia.
Qed.

(** The inner loop in closed form, from index 0. *)
Lemma events_loop_cut tr width maxY cw isToday evs y :
  let n := length evs in
  let m := fit_count maxY y n in
  events_loop tr width maxY cw isToday (Z.of_nat n) 0 evs y =
  if decide (m < n)%nat
  then (y + eventRowHeight * Z.of_nat m + 30,
        tr ++ events_cmds width maxY cw isToday (Z.of_nat n) 0 y (take m evs)
           ++ [more_cmd width (y + eventRowHeight * Z.of_nat m) (Z.of_nat (n - m))])
  else (y + eventRowHeight * Z.of_nat m, tr ++ events_cmds width maxY cw isToday (Z.of_nat n) 0 y evs).
Proof.
  cbn zeta. rewrite events_loop_trace. cbn zeta.
  destruct (decide (fit_count maxY y (length evs) < length evs)%nat) as [Hm|Hm].
  - rewrite (decide_True (P := Z.of_nat (length evs) - (0 + Z.of_nat (fit_count maxY y (length evs))) > 0))
      by lia.
    do 4 f_equal. f_equal. lia.
  - assert (fit_count maxY y (length evs) = length evs) as ->.
    { unfold fit_count in *. case_decide; lia. }
    by rewrite take_ge by lia.
Qed.

(** C13: One day's events (the inner loop, lines 660-692): the events
    that pass the space check [eventY + 30 <= maxContentY] are exactly the
    first [m = fit_count maxContentY eventY n] ones, rows [eventRowHeight]
    apart, each drawn as its time, truncated title and (between events)
    a divider; if some are left out, a single ["+N more..."] marker
    follows, with [N = n - m] the number of events not painted, and the
    cursor ends 30 pixels below it. *)
Theorem events_loop_overflow tr width maxY cw isToday evs y :
  let n := length evs in
  let m := fit_count maxY y n in
  events_loop tr width maxY cw isToday (Z.of_nat n) 0 evs y =
  if decide (m < n)%nat
  then (y + eventRowHeight * Z.of_nat m + 30,
        tr ++ events_cmds width maxY cw isToday (Z.of_nat n) 0 y (take m evs)
           ++ [more_cmd width (y + eventRowHeight * Z.of_nat m) (Z.of_nat (n - m))])
  else (y + eventRowHeight * Z.of_nat m, tr ++ events_cmds width maxY cw isToday (Z.of_nat n) 0 y evs).
Proof. apply events_loop_cut. Qed.

(** A day of fifty events under the date header of a 480x800 page: ten
    events fit, then ["+40 more..."]. *)
Example events_loop_fifty :
  let evs := repeat {| time := js "09:00"; title := js "Standup"; isAllDay := false |} 50 in
  fit_count 750 305 (length evs) = 10%nat.
Proof. reflexivity. Qed.

(** ** The overflow marker ends the agenda *)

(** The marker is the only text the agenda draws at the left margin in
    light gray (day labels and times are black or dark gray, "No events"
    is indented). *)
Definition is_more_cmd (cmd : DrawCmd) : bool :=
  match cmd with
  | DText _ x _ _ col _ => bool_decide (x = MARGIN /\ col = LIGHT_GRAY)
  | _ => false
  end.

(** Only the last command of [out] may be an overflow marker. *)
Definition marker_last (out : list DrawCmd) : Prop :=
  forall j cmd, out !! j = Some cmd -> is_more_cmd cmd = true -> S j = length out.

Definition no_marker (out : list DrawCmd) : Prop := Forall (fun c => is_more_cmd c = false) out.

Lemma no_marker_app l1 l2 : no_marker l1 -> no_marker l2 -> no_marker (l1 ++ l2).
Proof. apply Forall_app_2. Qed.

Lemma marker_last_no_marker l : no_marker l -> marker_last l.
Proof.
  intros Hl j cmd Hj Hm. eapply Forall_lookup_1 in Hl; [|done]. congruence.
Qed.

Lemma marker_last_app l r : no_marker l -> marker_last r -> marker_last (l ++ r).
Proof.
  intros Hl Hr j cmd Hj Hm. rewrite length_app.
  apply lookup_app_Some in Hj as [Hj|[Hlen Hj]].
  - eapply Forall_lookup_1 in Hl; [|done]. congruence.
  - specialize (Hr _ _ Hj Hm). lia.
Qed.

Lemma marker_last_snoc l m : no_marker l -> marker_last (l ++ [m]).
Proof.
  intros Hl. apply marker_last_app; [done|]. intros [|j] cmd Hj _; [done|]. by destruct j.
Qed.

#[local] Hint Resolve no_marker_app marker_last_no_marker marker_last_app marker_last_snoc : calendar.

Lemma no_marker_text width x y t col s :
  col <> LIGHT_GRAY \/ x <> MARGIN -> no_marker [DText width x y t col s].
Proof. intros H. repeat constructor. cbn. apply bool_decide_eq_false. lia. Qed.

Lemma no_marker_events_cmds width maxY cw isToday n i y evs :
  no_marker (events_cmds width maxY cw isToday n i y evs).
Proof.
  revert i y. induction evs as [|ev evs IH]; intros i y; cbn [events_cmds]; [constructor|].
  apply no_marker_app; [|apply IH]. unfold event_cmds. cbn zeta.
  apply no_marker_app; [apply (no_marker_app [_] [_])|].
  - apply no_marker_text. unfold LIGHT_GRAY. destruct isToday; left; discriminate.
  - apply no_marker_text. unfold MARGIN. right. discriminate.
  - case_decide; repeat constructor.
Qed.

(** Once the cursor is past the content limit, no further day is drawn. *)
Lemma days_loop_full tr width maxY cw d days y :
  y + dayHeaderHeight + eventRowHeight > maxY -> days_loop tr width maxY cw d days y = (y, tr).
Proof.
  destruct days as [|day days]; intros Hy; [done|]. cbn [days_loop].
  by rewrite decide_True by lia.
Qed.

Ltac no_marker_solve :=
  first [ apply no_marker_events_cmds | apply no_marker_text; right; discriminate
        | match goal with H : forall _ _, no_marker _ |- _ => apply H end
        | repeat constructor ].

(** C14: The overflow marker is terminal: the commands the agenda loop
    adds to the display list contain at most one ["+N more..."] marker,
    and a marker is always the last of them; after a day is cut short no
    later day, label or separator is drawn, although the source only
    leaves the inner loop with [break]. *)
Theorem agenda_marker_last tr width maxY cw d days y :
  exists out, snd (days_loop tr width maxY cw d days y) = tr ++ out /\ marker_last out.
Proof.
  revert tr d y. induction days as [|day days IH]; intros tr d y; cbn [days_loop].
  { exists []. split; [by rewrite app_nil_r|]. apply marker_last_no_marker; constructor. }
  case_decide; [exists []; split; [by rewrite app_nil_r|apply marker_last_no_marker; constructor]|].
  set (lc := if bool_decide (label day = js "TODAY") then INK_BLACK else DARK_GRAY).
  assert (Hlab : forall w y', no_marker [DText w MARGIN y' (label day) lc 2]).
  { intros. apply no_marker_text. left. subst lc. case_bool_decide; discriminate. }
  destruct (bool_decide (d = 0)); cbn [cv_drawText cv_drawDashedHLine trace_canvas];
    destruct (events day) as [|ev evs].
  all: try (rewrite (events_loop_cut _ _ _ _ _ (ev :: evs)); case_decide as Hcut).
  all: try (rewrite days_loop_full by (pose proof (fit_count_cut maxY _ _ Hcut);
                                       unfold dayHeaderHeight, eventRowHeight in *; lia)).
  all: try (match goal with
            | |- context [days_loop ?t _ _ _ _ _ ?y'] =>
                destruct (IH t (d + 1) y') as (out & Hout & Hm); rewrite Hout
            end).
  all: cbn [snd]; eexists; split; [rewrite <- !app_assoc; reflexivity|].
  all: repeat first [ apply marker_last_snoc; no_marker_solve
                    | apply marker_last_app; [no_marker_solve|] ]; try assumption.
Qed.
