(* ===== verification/Render.v ===== *)
(** * [renderDisplay] on the pixel buffer

    index.ts lines 567-712.  [renderDisplay] allocates
    [new Uint8Array(width * height)], fills it with [PAPER_WHITE] and runs
    the composer ([Layout.render_page]) with the drawing primitives of
    [Text], [Shapes] and [Icons]: the instance [pixel_canvas] of the
    [Canvas] interface.  [drawDashedHLine] is a [while] loop modelled with
    fuel; the composer only calls it with dash and gap lengths 6 and 4, for
    which it always finishes, so the instance reads its result with
    [default]; [Shapes.dashed_loop_spec] shows the loop finishes there
    ([drawDashedHLine_terminates] in [Shapes]), so the default is never
    taken.

    [u8_new] throws only on a negative length: the engine's upper limit on
    a typed array's length (implementation-defined, at least [2^32 - 1] in
    current engines) is not modelled, so a render of more than that many
    pixels, which the engine would refuse, succeeds in the model.

    The lemmas [renderDisplay_spec] and [renderDisplay_Some] give the
    buffer a render returns, used by the handler's theorems; the theorem
    of this file: with no calendar day, the agenda band, the rows from 252
    up to the footer rule, stays paper-white
    ([renderDisplay_empty_agenda_white]). *)

From S2P Require Import Prelude JsString Pixels Font Text Shapes Icons Layout.
Local Open Scope Z_scope.
Local Open Scope calendar_scope.

(** The drawing primitives on the buffer. *)
#[export] Instance pixel_canvas `{JsTrig} : Canvas u8arr := {
  cv_drawText := drawText;
  cv_drawCenteredText := drawCenteredText;
  cv_drawRightAlignedText := drawRightAlignedText;
  cv_drawHLine := drawHLine;
  cv_drawDashedHLine p w y x1 x2 col d g := default p (drawDashedHLine p w y x1 x2 col d g);
  cv_drawWeatherIcon := drawWeatherIcon
}.

Section Render.
Context `{JsTrig}.

(** [renderDisplay(width, height, weather, days, generatedAt)]. *)
Definition renderDisplay (width height : Z) (weather : WeatherData) (days : list DayEvents)
    (generatedAt : GeneratedAt) : option u8arr :=
  pixels ← u8_new (width * height);
  let pixels := u8_fill pixels PAPER_WHITE in
  Some (render_page pixels width height weather days generatedAt).

(** ** The cells each recorded call may change *)

(** A text of scale [s] at row [y] stays in rows [[y, y + 8 s)]; a rule in
    the rectangle it fills; a dashed line on its row, unclipped; an icon
    in its 49x49 box. *)
Definition cmd_cells (cmd : DrawCmd) (k : Z) : Prop :=
  match cmd with
  | DText w _ y _ _ s | DCentered w y _ _ s | DRight w y _ _ s _ => 0 <= k /\ y <= k / w < y + 8 * s
  | DHLine w y x1 x2 _ th => in_box w x1 (x2 - 1) y (y + th - 1) k
  | DDashed w y x1 x2 _ _ _ => exists px, x1 <= px < x2 /\ k = y * w + px
  | DIcon w x y _ => in_box w x (x + 48) y (y + 48) k
  end.

(** The calls the lemma covers: positive widths and scales, dashes and
    gaps of at least one pixel. *)
Definition cmd_ok (cmd : DrawCmd) : Prop :=
  match cmd with
  | DText w _ _ _ _ s | DCentered w _ _ _ s | DRight w _ _ _ s _ => 0 < w /\ 0 < s
  | DHLine w _ _ _ _ _ | DIcon w _ _ _ => 0 < w
  | DDashed w _ _ _ _ d g => 0 < w /\ 1 <= d /\ 1 <= g
  end.

Lemma drawText_cells width x y text color scale :
  0 < width -> 0 < scale ->
  touches (fun p => drawText p width x y text color scale)
    (fun k => 0 <= k /\ y <= k / width < y + 8 * scale).
Proof.
  intros Hw Hs. eapply touches_mono;
    [|apply (paints_touches _ _ _ (drawText_from_paints width x y (code_points text) color scale Hw Hs))].
  intros k Hk. apply chars_footprint_box in Hk; [lia|done|done].
Qed.

Lemma run_cmd_touches cmd : cmd_ok cmd -> touches (fun p => run_cmd p cmd) (cmd_cells cmd).
Proof.
  destruct cmd; cbn [cmd_ok cmd_cells run_cmd cv_drawText cv_drawCenteredText
    cv_drawRightAlignedText cv_drawHLine cv_drawDashedHLine cv_drawWeatherIcon pixel_canvas];
    intros Hok.
  1-3: destruct Hok; by apply drawText_cells.
  - eapply touches_mono; [|apply drawHLine_box; lia]. intros k Hk.
    by replace (x1 + (x2 - x1) - 1) with (x2 - 1) in Hk by lia.
  - destruct Hok as (Hw & Hd & Hg).
    destruct (dashed_loop_spec (S (Z.to_nat (x2 - x1))) width y x1 x2 color dashLen gapLen true Hd Hg
                ltac:(lia)) as [_ Hp].
    eapply touches_mono; [|apply (paints_touches _ _ _ Hp)].
    intros k Hk. unfold dash_columns, dash_state_start in Hk.
    rewrite !andb_true_iff, Z.leb_le, !Z.ltb_lt in Hk. exists (k - y * width). lia.
  - by apply drawWeatherIcon_touches.
Qed.

Lemma replay_touches (tr : list DrawCmd) S :
  Forall (fun cmd => cmd_ok cmd /\ forall k, cmd_cells cmd k -> S k) tr ->
  touches (replay tr) S.
Proof.
  intros Htr. unfold replay. induction tr as [|cmd tr IH] using rev_ind.
  - apply touches_id.
  - apply Forall_app in Htr as [Htr [[Hok Hc] _]%Forall_cons].
    eapply touches_pointwise; [intros a; symmetry; apply foldl_app|].
    apply (touches_comp (fun c => foldl run_cmd c tr) (fun p => run_cmd p cmd)); [by apply IH|].
    eapply touches_mono; [apply Hc|by apply run_cmd_touches].
Qed.

End Render.

(** ** Every call of the composer is well formed *)

Section TraceOk.
Variable width : Z.
Hypothesis Hw : 0 < width.

Ltac trace_ok :=
  repeat first
    [ apply Forall_app_2 | apply Forall_cons_2 | apply Forall_nil_2 | assumption
    | progress cbn [cmd_ok cv_drawText cv_drawHLine cv_drawDashedHLine cv_drawCenteredText
                    cv_drawRightAlignedText cv_drawWeatherIcon trace_canvas]
    | lia | case_decide ].

Lemma events_loop_ok tr maxY cw isToday n i evs y :
  Forall cmd_ok tr -> Forall cmd_ok (events_loop tr width maxY cw isToday n i evs y).2.
Proof.
  revert tr i y. induction evs as [|ev evs IH]; intros tr i y Htr; cbn [events_loop]; [done|].
  case_decide; [case_decide; cbn [snd]; trace_ok|].
  apply IH. case_decide; trace_ok.
Qed.

Lemma days_loop_ok tr maxY cw d days y :
  Forall cmd_ok tr -> Forall cmd_ok (days_loop tr width maxY cw d days y).2.
Proof.
  revert tr d y. induction days as [|day days IH]; intros tr d y Htr; cbn [days_loop]; [done|].
  case_decide; [done|].
  assert (Hsep : Forall cmd_ok (if bool_decide (d = 0) then tr
                                else cv_drawDashedHLine tr width y MARGIN (width - MARGIN) DARK_GRAY 6 4))
    by (case_bool_decide; trace_ok).
  destruct (bool_decide (d = 0)); destruct (events day) as [|ev evs].
  all: try (apply IH; trace_ok; fail).
  all: destruct (events_loop _ _ _ _ _ _ _ _ _) as [y' tr'] eqn:E; apply IH;
    apply (f_equal snd) in E; cbn [snd] in E; rewrite <- E; apply events_loop_ok; trace_ok.
Qed.

Lemma render_page_ok height weather days generatedAt :
  Forall cmd_ok (render_page [] width height weather days generatedAt).
Proof.
  unfold render_page. cbv zeta.
  destruct (days_loop _ _ _ _ _ _ _) as [y' tr'] eqn:E.
  apply (f_equal snd) in E. cbn [snd] in E. rewrite <- E.
  trace_ok. apply days_loop_ok. trace_ok.
Qed.

End TraceOk.

(** An index in a box that lies within the canvas columns is on one of
    the box's rows. *)
Lemma in_box_rows width x0 x1 y0 y1 k :
  0 <= x0 -> x1 < width -> in_box width x0 x1 y0 y1 k -> y0 <= k / width <= y1.
Proof.
  intros Hx0 Hx1 (px & py & Hpx & Hpy & ->).
  rewrite Z.div_add_l by lia. rewrite Z.div_small by lia. lia.
Qed.

Section RenderTheorems.
Context `{JsTrig}.

(** Rendering on the buffer is replaying the display list, and every call
    keeps the length and the invariant. *)
Lemma render_page_touches width height weather days generatedAt :
  0 < width -> touches (fun p => render_page p width height weather days generatedAt) (fun _ => True).
Proof.
  intros Hw. eapply touches_pointwise; [intros a; symmetry; apply render_page_replay|].
  apply replay_touches. eapply Forall_impl; [by apply render_page_ok|]. naive_solver.
Qed.

Lemma renderDisplay_spec width height weather days generatedAt :
  0 < width ->
  match renderDisplay width height weather days generatedAt with
  | Some p => 0 <= height /\ u8_len p = width * height /\ u8_wf p
  | None => height < 0
  end.
Proof.
  intros Hw. unfold renderDisplay, u8_new. case_decide as Hh; cbn [mbind option_bind]; [|nia].
  pose proof (render_page_touches width height weather days generatedAt Hw) as [Hl _ Hwf].
  split_and!; [nia|by rewrite Hl|].
  apply Hwf, u8_fill_wf. split; [cbn; lia|split; [cbn; lia|apply map_Forall_empty]].
Qed.

(** A render on a canvas of positive width and non-negative height
    succeeds with a well-formed buffer of [width * height] bytes. *)
Lemma renderDisplay_Some width height weather days generatedAt :
  0 < width -> 0 <= height ->
  exists p, renderDisplay width height weather days generatedAt = Some p /\
    u8_len p = width * height /\ u8_wf p.
Proof.
  intros Hw Hh. pose proof (renderDisplay_spec width height weather days generatedAt Hw) as Hok.
  destruct (renderDisplay _ _ _ _ _) as [p|]; [|lia]. exists p. naive_solver.
Qed.

(** C18: With no calendar day, the agenda band stays paper-white: every
    pixel of the rows from 252 (below the date rule) up to the footer rule
    at [height - 40] keeps the [PAPER_WHITE] of [pixels.fill], on every
    canvas at least 289 pixels wide (so that the 49-pixel icon at column
    240 does not wrap onto later rows). *)
Theorem renderDisplay_empty_agenda_white width height weather generatedAt p k :
  289 <= width -> renderDisplay width height weather [] generatedAt = Some p ->
  252 <= k / width < height - 40 -> 0 <= k < width * height ->
  p.[k] = Some PAPER_WHITE.
Proof.
  intros Hw Hr Hrow Hk. unfold renderDisplay, u8_new in Hr. case_decide; [|done].
  cbn [mbind option_bind] in Hr. injection Hr as <-.
  rewrite render_page_replay.
  assert (Ht : touches (replay (render_page [] width height weather [] generatedAt))
                 (fun k => k / width < 252 \/ height - 40 <= k / width)).
  { apply replay_touches. unfold render_page. cbv zeta. cbn [days_loop].
    repeat first [ apply Forall_app_2 | apply Forall_cons_2 | apply Forall_nil_2 ].
    all: split; [cbn; lia|]; intros k' Hk'; cbn [cmd_cells] in Hk'.
    all: first [ apply in_box_rows in Hk'; [|unfold MARGIN; lia..]; unfold MARGIN, weatherSectionHeight in *; lia
               | unfold MARGIN, weatherSectionHeight in *; lia ]. }
  rewrite (touches_out _ _ Ht) by lia. rewrite u8_get_fill. cbn [u8_len]. by rewrite decide_True.
Qed.

End RenderTheorems.

(** ** Witnesses *)

(** The scenario of the specification: 72 degrees and clear. *)
Definition sample_weather : WeatherData :=
  {| temperature := 72; temperatureHigh := 78; temperatureLow := 61;
     condition := js "Clear"; conditionCode := 0 |}.

Definition sample_time : GeneratedAt :=
  {| gen_day := 1; gen_month := 10; gen_date := 9; gen_time_ny := js "08:30" |}.

Definition sample_days : list DayEvents :=
  [{| label := js "TODAY"; date := 0;
      events := [{| time := js "09:00"; title := js "Team Standup"; isAllDay := false |}] |}].

Lemma renderDisplay_empty_agenda_white_witness :
  (289 <= 480 /\
   renderDisplay 480 800 sample_weather [] sample_time =
     Some (render_page (white_canvas 480 800) 480 800 sample_weather [] sample_time) /\
   252 <= (300 * 480 + 10) / 480 < 800 - 40 /\ 0 <= 300 * 480 + 10 < 480 * 800) /\
  (render_page (white_canvas 480 800) 480 800 sample_weather [] sample_time).[300 * 480 + 10]
    = Some PAPER_WHITE.
Proof.
  assert (Hk : 252 <= (300 * 480 + 10) / 480 < 800 - 40) by (vm_compute; split; congruence).
  split; [split; [lia|split; [reflexivity|split; [exact Hk|lia]]]|].
  apply (renderDisplay_empty_agenda_white 480 800 sample_weather sample_time); [lia|reflexivity|exact Hk|lia].
Defined.
