(* ===== verification/Bmp.v ===== *)
(** * The bitmap encoder: [createBMP]

    index.ts lines 232-280.  [createBMP] allocates a zeroed [Uint8Array]
    of the file size, writes the two signature bytes and fourteen header
    fields through a little-endian [DataView], then the identity gray
    palette and the pixel rows, each padded to a multiple of four bytes.

    [DataView.setUint32], [setInt32] and [setUint16] store the
    little-endian bytes of the value taken modulo [2^32] (resp. [2^16]);
    they throw a [RangeError] when the field does not fit in the array,
    which is the [None] of [dv_set].

    The theorems: [createBMP] succeeds for every non-negative size and its
    bytes are exactly [bmp_file] (header, palette, padded rows)
    ([createBMP_layout]); the file size is [1078 + ceil(w/4)*4*h]; a
    reader of the format ([parse_bmp], written from the BMP format, not
    from the code) gets back the width, the height and the pixels
    ([createBMP_roundtrip]). *)

From S2P Require Import Prelude Pixels.
Local Open Scope Z_scope.
Local Open Scope calendar_scope.

(** ** DataView stores *)

(** The [n] little-endian bytes of [v] modulo [2^(8n)]. *)
Definition le_bytes (n : nat) (v : Z) : list Z :=
  (fun k => Z.shiftr v (8 * Z.of_nat k) mod 256) <$> seq 0 n.

(** Store [bytes] at [off], [off + 1], ... *)
Fixpoint store_bytes (buf : u8arr) (off : Z) (bytes : list Z) : u8arr :=
  match bytes with
  | [] => buf
  | b :: rest => store_bytes (buf.[off := b]) (off + 1) rest
  end.

(** [view.setUintN(off, v, true)] and [view.setIntN(off, v, true)]. *)
Definition dv_set (n : nat) (buf : u8arr) (off v : Z) : option u8arr :=
  if decide (0 <= off /\ off + Z.of_nat n <= u8_len buf)
  then Some (store_bytes buf off (le_bytes n v)) else None.

Definition dv_setUint32 := dv_set 4.
Definition dv_setInt32 := dv_set 4.
Definition dv_setUint16 := dv_set 2.

(** ** [createBMP] *)

(** The palette loop (lines 263-269). *)
Definition write_palette (buffer : u8arr) (paletteOffset : Z) : u8arr :=
  FOR i IN [0, 256) DO (fun b =>
    let b := b.[paletteOffset + i * 4 + 0 := i] in
    let b := b.[paletteOffset + i * 4 + 1 := i] in
    let b := b.[paletteOffset + i * 4 + 2 := i] in
    b.[paletteOffset + i * 4 + 3 := 0])
  FROM buffer.

(** The pixel loop (lines 272-277). *)
Definition write_pixels (buffer : u8arr) (pixelOffset width height paddedRowSize : Z)
    (pixelData : u8arr) : u8arr :=
  FOR y IN [0, height) DO (fun b =>
    FOR x IN [0, width) DO (fun b' =>
      b'.[pixelOffset + y * paddedRowSize + x := js_u8 (pixelData.[y * width + x])])
    FROM b)
  FROM buffer.

Definition createBMP (width height : Z) (pixelData : u8arr) : option u8arr :=
  let paddedRowSize := ceil_div width 4 * 4 in
  let pixelDataSize := paddedRowSize * height in
  let paletteSize := 256 * 4 in
  let headerSize := 14 in
  let dibHeaderSize := 40 in
  let fileSize := headerSize + dibHeaderSize + paletteSize + pixelDataSize in
  buffer ← u8_new fileSize;
  (* BMP header *)
  let buffer := buffer.[0 := 0x42] in
  let buffer := buffer.[1 := 0x4D] in
  buffer ← dv_setUint32 buffer 2 fileSize;
  buffer ← dv_setUint32 buffer 6 0;
  buffer ← dv_setUint32 buffer 10 (headerSize + dibHeaderSize + paletteSize);
  (* DIB header *)
  buffer ← dv_setUint32 buffer 14 dibHeaderSize;
  buffer ← dv_setInt32 buffer 18 width;
  buffer ← dv_setInt32 buffer 22 (- height);
  buffer ← dv_setUint16 buffer 26 1;
  buffer ← dv_setUint16 buffer 28 8;
  buffer ← dv_setUint32 buffer 30 0;
  buffer ← dv_setUint32 buffer 34 pixelDataSize;
  buffer ← dv_setInt32 buffer 38 2835;
  buffer ← dv_setInt32 buffer 42 2835;
  buffer ← dv_setUint32 buffer 46 256;
  buffer ← dv_setUint32 buffer 50 256;
  let buffer := write_palette buffer (headerSize + dibHeaderSize) in
  let buffer := write_pixels buffer (headerSize + dibHeaderSize + paletteSize) width height
                  paddedRowSize pixelData in
  Some buffer.

(** ** The byte layout *)

Definition paddedRowSize (width : Z) : Z := ceil_div width 4 * 4.

Definition bmp_file_size (width height : Z) : Z := 14 + 40 + 256 * 4 + paddedRowSize width * height.

Definition bmp_header (width height : Z) : list Z :=
  [0x42; 0x4D] ++ le_bytes 4 (bmp_file_size width height) ++ le_bytes 4 0 ++ le_bytes 4 1078 ++
  le_bytes 4 40 ++ le_bytes 4 width ++ le_bytes 4 (- height) ++ le_bytes 2 1 ++ le_bytes 2 8 ++
  le_bytes 4 0 ++ le_bytes 4 (paddedRowSize width * height) ++ le_bytes 4 2835 ++ le_bytes 4 2835 ++
  le_bytes 4 256 ++ le_bytes 4 256.

(** Palette entry [i] is [(i, i, i, 0)]. *)
Definition bmp_palette : list Z := seqZ 0 256 ≫= fun i => [i; i; i; 0].

(** Row [y]: the [width] pixels of the row, then zero padding. *)
Definition bmp_rows (width height : Z) (pixels : list Z) : list Z :=
  seqZ 0 height ≫= fun y =>
    ((fun x => default 0 (pixels !! Z.to_nat (y * width + x))) <$> seqZ 0 width) ++
    replicate (Z.to_nat (paddedRowSize width - width)) 0.

Definition bmp_file (width height : Z) (pixels : list Z) : list Z :=
  bmp_header width height ++ bmp_palette ++ bmp_rows width height pixels.

Example createBMP_3x2 :
  let px := U8 6 0 (list_to_map [(0, 10); (1, 20); (2, 30); (3, 40); (4, 50); (5, 60)]) in
  u8_to_list <$> createBMP 3 2 px = Some (bmp_file 3 2 (u8_to_list px)).
Proof. vm_compute. reflexivity. Qed.

(** ** Stores of byte blocks *)

Definition block_write (off : Z) (bytes : list Z) (k : Z) : option Z :=
  if decide (off <= k < off + Z.of_nat (length bytes)) then bytes !! Z.to_nat (k - off) else None.

Lemma store_bytes_writes off bytes :
  writes (fun b => store_bytes b off bytes) (block_write off bytes).
Proof.
  revert off. induction bytes as [|x bytes IH]; intros off; cbn [store_bytes].
  - eapply writes_ext; [|apply writes_id]. intros k. unfold block_write.
    cbn [length]. by rewrite decide_False by lia.
  - eapply writes_ext;
      [|apply (writes_seq (fun b => b.[off := x]) (fun b => store_bytes b (off + 1) bytes));
        [apply writes_set|apply IH]].
    intros k. unfold writes_then, block_write. cbn [length].
    destruct (decide (k = off)) as [->|Hk].
    + rewrite (decide_True (P := off <= off < _)) by lia.
      rewrite (decide_False (P := off + 1 <= off < _)) by lia.
      by replace (off - off) with 0 by lia.
    + destruct (decide (off + 1 <= k < off + 1 + Z.of_nat (length bytes))).
      * rewrite decide_True by lia.
        replace (Z.to_nat (k - off)) with (S (Z.to_nat (k - (off + 1)))) by lia. cbn. by destruct (bytes !! _).
      * rewrite decide_False by lia. done.
Qed.

Lemma store_bytes_app b off l1 l2 :
  store_bytes b off (l1 ++ l2) = store_bytes (store_bytes b off l1) (off + Z.of_nat (length l1)) l2.
Proof.
  revert b off. induction l1 as [|x l1 IH]; intros b off; cbn [store_bytes app length].
  - by rewrite Z.add_0_r.
  - rewrite IH. f_equal. lia.
Qed.

Lemma store_bytes_len b off l : u8_len (store_bytes b off l) = u8_len b.
Proof. apply (writes_len _ _ (store_bytes_writes off l)). Qed.

Lemma length_le_bytes n v : length (le_bytes n v) = n.
Proof. unfold le_bytes. by rewrite length_fmap, length_seq. Qed.

Lemma dv_set_Some n b off v b' :
  dv_set n b off v = Some b' -> off + Z.of_nat n <= u8_len b /\ u8_len b' = u8_len b.
Proof. unfold dv_set. case_decide; [|done]. intros [= <-]. rewrite store_bytes_len. split; [lia|done]. Qed.

Lemma dv_set_ok n b off v :
  0 <= off -> off + Z.of_nat n <= u8_len b -> dv_set n b off v = Some (store_bytes b off (le_bytes n v)).
Proof. intros. unfold dv_set. by rewrite decide_True. Qed.

Lemma store_bytes_app_le b off n v l :
  store_bytes b off (le_bytes n v ++ l) = store_bytes (store_bytes b off (le_bytes n v)) (off + Z.of_nat n) l.
Proof. by rewrite store_bytes_app, length_le_bytes. Qed.

Lemma store_bytes_congr b1 b2 o1 o2 l : b1 = b2 -> o1 = o2 -> store_bytes b1 o1 l = store_bytes b2 o2 l.
Proof. by intros -> ->. Qed.

Lemma u8_set_congr a1 a2 i1 i2 v : a1 = a2 -> i1 = i2 -> a1.[i1 := v] = a2.[i2 := v].
Proof. by intros -> ->. Qed.

Lemma paddedRowSize_ge w : 0 <= w -> w <= paddedRowSize w.
Proof. intros Hw. unfold paddedRowSize. pose proof (ceil_div_spec w 4 ltac:(lia)). lia. Qed.

Lemma paddedRowSize_bound w : 0 <= w -> paddedRowSize w < w + 4 /\ paddedRowSize w mod 4 = 0.
Proof.
  intros Hw. unfold paddedRowSize. pose proof (ceil_div_spec w 4 ltac:(lia)).
  rewrite Z.mod_mul by lia. lia.
Qed.

(** The header stores of [createBMP] are one store of [bmp_header]. *)
Lemma createBMP_unfold w h pd :
  54 <= bmp_file_size w h ->
  createBMP w h pd =
  Some (write_pixels (write_palette (store_bytes (U8 (bmp_file_size w h) 0 ∅) 0 (bmp_header w h)) 54)
          1078 w h (paddedRowSize w) pd).
Proof.
  intros Hsz. unfold createBMP.
  change (ceil_div w 4 * 4) with (paddedRowSize w).
  change (14 + 40 + 256 * 4 + paddedRowSize w * h) with (bmp_file_size w h).
  unfold u8_new. rewrite decide_True by lia. rewrite bind_Some.
  unfold dv_setUint32, dv_setInt32, dv_setUint16.
  repeat (rewrite dv_set_ok by (rewrite ?store_bytes_len, ?u8_len_set; cbn [u8_len]; lia);
          rewrite bind_Some).
  apply (f_equal Some), (f_equal (fun b => write_pixels b 1078 w h (paddedRowSize w) pd)),
    (f_equal (fun b => write_palette b 54)).
  unfold bmp_header. rewrite (store_bytes_app _ _ [_; _]), !store_bytes_app_le.
  repeat (apply store_bytes_congr; [|cbn [length]; lia]).
  reflexivity.
Qed.

(** One palette iteration is the store of the entry [(i, i, i, 0)]. *)
Lemma write_palette_block buffer off :
  write_palette buffer off = FOR i IN [0, 256) DO (fun b => store_bytes b (off + i * 4) [i; i; i; 0]) FROM buffer.
Proof.
  apply for_lt_ext. intros i b _. cbn [store_bytes].
  repeat (apply u8_set_congr; [|lia]). reflexivity.
Qed.

Definition palette_write (off : Z) : Z -> option Z :=
  writes_union 0 256 (fun i => block_write (off + i * 4) [i; i; i; 0]).

Lemma write_palette_writes off : writes (fun b => write_palette b off) (palette_write off).
Proof.
  eapply writes_pointwise; [intros b; symmetry; apply write_palette_block|].
  apply writes_for; [intros; apply store_bytes_writes|].
  intros i j k Hi Hj Hij. unfold block_write. cbn [length].
  destruct (decide (off + i * 4 <= k < off + i * 4 + Z.of_nat 4)); [right|by left].
  rewrite decide_False; [done|lia].
Qed.

Lemma palette_write_at off i r :
  0 <= i < 256 -> 0 <= r < 4 ->
  palette_write off (off + i * 4 + r) = Some (if decide (r < 3) then i else 0).
Proof.
  intros Hi Hr. unfold palette_write. rewrite (writes_union_unique _ _ _ i); [|lia|].
  2:{ intros j Hj Hji. unfold block_write. apply decide_False. cbn [length]. lia. }
  unfold block_write. rewrite decide_True by (cbn [length]; lia).
  replace (off + i * 4 + r - (off + i * 4)) with r by lia.
  destruct (decide (r = 0)) as [->|]; [done|].
  destruct (decide (r = 1)) as [->|]; [done|].
  destruct (decide (r = 2)) as [->|]; [done|].
  replace r with 3 by lia. done.
Qed.

Lemma palette_write_out off k :
  ~ (off <= k < off + 1024) -> palette_write off k = None.
Proof.
  intros Hk. apply writes_union_none. intros j Hj. unfold block_write.
  apply decide_False. cbn [length]. lia.
Qed.

Definition pixel_write (off width height padded : Z) (pixelData : u8arr) : Z -> option Z :=
  writes_union 0 height (fun y => writes_union 0 width (fun x k =>
    if decide (k = off + y * padded + x) then Some (js_u8 (pixelData.[y * width + x])) else None)).

Lemma row_write_none off width y padded pixelData k :
  ~ (off + y * padded <= k < off + y * padded + width) ->
  writes_union 0 width (fun x k =>
    if decide (k = off + y * padded + x) then Some (js_u8 (pixelData.[y * width + x])) else None) k = None.
Proof. intros Hk. apply writes_union_none. intros x Hx. apply decide_False. lia. Qed.

Lemma write_pixels_writes off width height padded pixelData :
  0 <= width <= padded ->
  writes (fun b => write_pixels b off width height padded pixelData)
    (pixel_write off width height padded pixelData).
Proof.
  intros Hw. apply writes_for.
  - intros y Hy. apply writes_for; [intros; apply writes_set|].
    intros x x' k _ _ Hx. destruct (decide (k = off + y * padded + x)); [right|by left].
    apply decide_False. lia.
  - intros y y' k Hy Hy' Hne.
    destruct (decide (off + y * padded <= k < off + y * padded + width)); [right|left];
      apply row_write_none; nia.
Qed.

Lemma pixel_write_at off width height padded pixelData y x :
  0 <= width <= padded -> 0 <= y < height -> 0 <= x < padded ->
  pixel_write off width height padded pixelData (off + y * padded + x) =
  if decide (x < width) then Some (js_u8 (pixelData.[y * width + x])) else None.
Proof.
  intros Hw Hy Hx. unfold pixel_write.
  rewrite (writes_union_unique _ _ _ y); [|lia|intros; apply row_write_none; nia].
  case_decide.
  - rewrite (writes_union_unique _ _ _ x); [|lia|intros; apply decide_False; lia].
    by rewrite decide_True.
  - apply row_write_none. lia.
Qed.

Lemma pixel_write_out off width height padded pixelData k :
  0 <= width <= padded -> ~ (off <= k < off + height * padded) ->
  pixel_write off width height padded pixelData k = None.
Proof.
  intros Hw Hk. apply writes_union_none. intros y Hy. apply row_write_none. nia.
Qed.

(** ** The byte layout, read back *)

Lemma le_bytes_bytes n v : Forall (fun b => 0 <= b < 256) (le_bytes n v).
Proof. unfold le_bytes. apply Forall_fmap, Forall_forall. intros k _. cbn. apply Z.mod_pos_bound. lia. Qed.

Lemma length_bmp_header w h : length (bmp_header w h) = 54%nat.
Proof. unfold bmp_header. rewrite !length_app, !length_le_bytes. reflexivity. Qed.

Lemma bmp_header_bytes w h : Forall (fun b => 0 <= b < 256) (bmp_header w h).
Proof.
  unfold bmp_header. repeat apply Forall_app_2; try apply le_bytes_bytes.
  repeat constructor; lia.
Qed.

Lemma length_bmp_palette : length bmp_palette = 1024%nat.
Proof. unfold bmp_palette. rewrite (length_bind_blocks _ _ 4); [|done]. by rewrite length_seqZ. Qed.

Lemma lookup_bmp_palette i r :
  0 <= i < 256 -> 0 <= r < 4 ->
  bmp_palette !! Z.to_nat (i * 4 + r) = Some (if decide (r < 3) then i else 0).
Proof.
  intros Hi Hr. unfold bmp_palette.
  replace (Z.to_nat (i * 4 + r)) with (Z.to_nat i * 4 + Z.to_nat r)%nat by lia.
  rewrite (lookup_bind_blocks _ _ 4 _ _ i); [| done | rewrite lookup_seqZ_lt by lia; f_equal; lia | lia].
  destruct (decide (r = 0)) as [->|]; [done|].
  destruct (decide (r = 1)) as [->|]; [by replace (Z.to_nat 1) with 1%nat by lia|].
  destruct (decide (r = 2)) as [->|]; [by replace (Z.to_nat 2) with 2%nat by lia|].
  replace r with 3 by lia. done.
Qed.

Lemma length_bmp_row width (px : list Z) y :
  0 <= width -> length (((fun x => default 0 (px !! Z.to_nat (y * width + x))) <$> seqZ 0 width) ++
    replicate (Z.to_nat (paddedRowSize width - width)) 0) = Z.to_nat (paddedRowSize width).
Proof.
  intros Hw. pose proof (paddedRowSize_ge width Hw).
  rewrite length_app, length_fmap, length_seqZ, length_replicate. lia.
Qed.

Lemma length_bmp_rows width height px :
  0 <= width -> 0 <= height ->
  length (bmp_rows width height px) = Z.to_nat (height * paddedRowSize width).
Proof.
  intros Hw Hh. unfold bmp_rows. pose proof (paddedRowSize_ge width Hw).
  rewrite (length_bind_blocks _ _ (Z.to_nat (paddedRowSize width)));
    [|intros; by apply length_bmp_row].
  rewrite length_seqZ. lia.
Qed.

Lemma lookup_bmp_rows width height px y x :
  0 <= width -> 0 <= y < height -> 0 <= x < paddedRowSize width ->
  bmp_rows width height px !! Z.to_nat (y * paddedRowSize width + x) =
  Some (if decide (x < width) then default 0 (px !! Z.to_nat (y * width + x)) else 0).
Proof.
  intros Hw Hy Hx. unfold bmp_rows.
  replace (Z.to_nat (y * paddedRowSize width + x))
    with (Z.to_nat y * Z.to_nat (paddedRowSize width) + Z.to_nat x)%nat by lia.
  rewrite (lookup_bind_blocks _ _ _ _ _ y);
    [| intros; by apply length_bmp_row | rewrite lookup_seqZ_lt by lia; f_equal; lia | lia].
  case_decide.
  - rewrite lookup_app_l by (rewrite length_fmap, length_seqZ; lia).
    rewrite list_lookup_fmap, lookup_seqZ_lt by lia. cbn. do 4 f_equal. lia.
  - rewrite lookup_app_r by (rewrite length_fmap, length_seqZ; lia).
    rewrite lookup_replicate_2; [done|]. rewrite length_fmap, length_seqZ. lia.
Qed.

Lemma length_bmp_file w h px :
  0 <= w -> 0 <= h -> length (bmp_file w h px) = Z.to_nat (bmp_file_size w h).
Proof.
  intros Hw Hh. pose proof (paddedRowSize_ge w Hw). unfold bmp_file, bmp_file_size.
  rewrite !length_app, length_bmp_header, length_bmp_palette, length_bmp_rows by done. nia.
Qed.

Lemma lookup_bmp_file_palette w h px k :
  0 <= k < 1024 -> bmp_file w h px !! Z.to_nat (54 + k) = bmp_palette !! Z.to_nat k.
Proof.
  intros Hk. unfold bmp_file.
  rewrite lookup_app_r, lookup_app_l; rewrite ?length_bmp_header, ?length_bmp_palette; [|lia..].
  f_equal. lia.
Qed.

Lemma lookup_bmp_file_rows w h px k :
  0 <= k -> bmp_file w h px !! Z.to_nat (1078 + k) = bmp_rows w h px !! Z.to_nat k.
Proof.
  intros Hk. unfold bmp_file.
  rewrite lookup_app_r, lookup_app_r; rewrite ?length_bmp_header, ?length_bmp_palette; [|lia..].
  f_equal. lia.
Qed.

(** The stores of [createBMP] after the allocation. *)
Definition bmp_write (w h : Z) (pd : u8arr) : Z -> option Z :=
  writes_then (writes_then (block_write 0 (bmp_header w h)) (palette_write 54))
    (pixel_write 1078 w h (paddedRowSize w) pd).

Lemma bmp_stores_writes w h pd :
  0 <= w ->
  writes (fun b => write_pixels (write_palette (store_bytes b 0 (bmp_header w h)) 54)
                     1078 w h (paddedRowSize w) pd) (bmp_write w h pd).
Proof.
  intros Hw. pose proof (paddedRowSize_ge w Hw).
  apply (writes_seq (fun b => write_palette (store_bytes b 0 (bmp_header w h)) 54)
           (fun b => write_pixels b 1078 w h (paddedRowSize w) pd));
    [|apply write_pixels_writes; lia].
  apply (writes_seq (fun b => store_bytes b 0 (bmp_header w h)) (fun b => write_palette b 54));
    [apply store_bytes_writes|apply write_palette_writes].
Qed.

Lemma js_u8_to_list a i :
  u8_wf a -> 0 <= i -> js_u8 (a.[i]) = default 0 (u8_to_list a !! Z.to_nat i).
Proof.
  intros Ha Hi. rewrite u8_lookup_to_list, Z2Nat.id by done.
  destruct (a.[i]) as [v|] eqn:E; case_decide; cbn; try done.
  - apply Z.mod_small. by apply (u8_wf_get a i).
  - destruct (proj1 (u8_get_in_range a i) ltac:(by eexists)). lia.
Qed.

Lemma js_u8_byte o : 0 <= js_u8 o < 256.
Proof. destruct o; cbn; [apply Z.mod_pos_bound|]; lia. Qed.

(** Every byte the stores leave in the zeroed file is the layout's byte. *)
Lemma bmp_write_layout w h pd k :
  0 <= w -> 0 <= h -> u8_wf pd -> 0 <= k < bmp_file_size w h ->
  bmp_file w h (u8_to_list pd) !! Z.to_nat k =
  Some (match bmp_write w h pd k with Some v => v mod 256 | None => 0 end).
Proof.
  intros Hw Hh Hpd Hk. pose proof (paddedRowSize_ge w Hw) as HP.
  unfold bmp_write, writes_then, bmp_file_size in *.
  destruct (decide (k < 54)).
  { rewrite pixel_write_out, palette_write_out by lia. unfold block_write.
    rewrite length_bmp_header, decide_True, Z.sub_0_r by lia. unfold bmp_file.
    rewrite lookup_app_l by (rewrite length_bmp_header; lia).
    destruct (bmp_header w h !! Z.to_nat k) as [v|] eqn:E; [|apply lookup_ge_None in E; rewrite length_bmp_header in E; lia].
    rewrite Z.mod_small; [done|]. exact (Forall_lookup_1 (fun b => 0 <= b < 256) _ _ _ (bmp_header_bytes w h) E). }
  destruct (decide (k < 1078)).
  { destruct (Z_row_col (k - 54) 4) as (i & r & Hkr & Hr & Hi); [lia..|].
    replace k with (54 + (i * 4 + r)) by lia.
    rewrite lookup_bmp_file_palette by lia. rewrite pixel_write_out by lia.
    rewrite Z.add_assoc, palette_write_at, lookup_bmp_palette by lia.
    case_decide; f_equal; symmetry; apply Z.mod_small; lia. }
  assert (HP0 : 0 < paddedRowSize w) by nia.
  destruct (Z_row_col (k - 1078) (paddedRowSize w)) as (y & x & Hkr & Hx & Hy); [lia..|].
  assert (y < h) by nia.
  replace k with (1078 + (y * paddedRowSize w + x)) by lia.
  rewrite lookup_bmp_file_rows, lookup_bmp_rows by nia.
  rewrite Z.add_assoc, pixel_write_at by lia.
  case_decide.
  - rewrite Z.mod_small by apply js_u8_byte. by rewrite js_u8_to_list by (done || nia).
  - rewrite palette_write_out by lia. unfold block_write. by rewrite length_bmp_header, decide_False by lia.
Qed.

(** ** Reading the file back *)

(** A reader of the format, written from the BMP layout: the value of
    little-endian bytes, the signed 32-bit fields, and the pixel rows read
    from the pixel offset with the padded row stride. *)
Definition le_value (bytes : list Z) : Z := foldr (fun b acc => b + 256 * acc) 0 bytes.

Definition read_le (file : list Z) (off n : nat) : option Z :=
  if decide (off + n <= length file)%nat then Some (le_value (take n (drop off file))) else None.

Definition to_signed32 (v : Z) : Z := if decide (v < 2 ^ 31) then v else v - 2 ^ 32.

Definition parse_bmp (file : list Z) : option (Z * Z * list Z) :=
  guard (file !! 0%nat = Some 0x42 /\ file !! 1%nat = Some 0x4D);;
  off ← read_le file 10 4;
  w ← to_signed32 <$> read_le file 18 4;
  hs ← to_signed32 <$> read_le file 22 4;
  bpp ← read_le file 28 2;
  guard (bpp = 8);;
  let h := - hs in
  Some (w, h, seqZ 0 h ≫= fun y =>
    (fun x => default 0 (file !! Z.to_nat (off + y * paddedRowSize w + x))) <$> seqZ 0 w).

Lemma le_bytes_S n v : le_bytes (S n) v = v mod 256 :: le_bytes n (Z.shiftr v 8).
Proof.
  unfold le_bytes. cbn [seq fmap list_fmap]. rewrite Z.shiftr_0_r. f_equal.
  rewrite <- seq_shift, <- list_fmap_compose. apply list_fmap_ext. intros _ k _. cbn.
  rewrite Z.shiftr_shiftr by lia. do 2 f_equal. lia.
Qed.

Lemma le_value_le_bytes n v : le_value (le_bytes n v) = v mod 2 ^ (8 * Z.of_nat n).
Proof.
  revert v. induction n as [|n IH]; intros v.
  - by rewrite Z.mod_1_r.
  - rewrite le_bytes_S. cbn [le_value foldr]. fold (le_value (le_bytes n (Z.shiftr v 8))).
    rewrite IH, Z.shiftr_div_pow2 by lia.
    replace (2 ^ (8 * Z.of_nat (S n))) with (2 ^ 8 * 2 ^ (8 * Z.of_nat n))
      by (rewrite <- Z.pow_add_r by lia; f_equal; lia).
    rewrite Z.rem_mul_r by lia. done.
Qed.

(** Read the header field at a fixed offset of [bmp_file]. *)
Ltac bmp_field :=
  unfold read_le; rewrite decide_True by (rewrite length_bmp_file by done; unfold bmp_file_size; nia);
  unfold bmp_file, bmp_header; rewrite <- !app_assoc;
  repeat (rewrite drop_app_ge by (rewrite ?length_le_bytes; cbn [length]; lia));
  rewrite ?length_le_bytes; cbn [length Nat.sub]; rewrite drop_0, take_app_length' by (by rewrite length_le_bytes);
  rewrite le_value_le_bytes; f_equal.

Lemma bmp_file_fields w h px :
  0 <= w -> 0 <= h -> 0 <= paddedRowSize w * h ->
  read_le (bmp_file w h px) 10 4 = Some 1078 /\
  read_le (bmp_file w h px) 18 4 = Some (w mod 2 ^ 32) /\
  read_le (bmp_file w h px) 22 4 = Some ((- h) mod 2 ^ 32) /\
  read_le (bmp_file w h px) 28 2 = Some 8.
Proof. intros Hw Hh HP. split_and!; bmp_field. Qed.

(** Reading [h] rows of [w] pixels from a row-major list gives it back. *)
Lemma bind_rows_id (w h : Z) (px : list Z) :
  0 <= w -> 0 <= h -> length px = Z.to_nat (w * h) ->
  (seqZ 0 h ≫= fun y => (fun x => default 0 (px !! Z.to_nat (y * w + x))) <$> seqZ 0 w) = px.
Proof.
  intros Hw Hh Hl.
  assert (Hblk : forall y, length ((fun x => default 0 (px !! Z.to_nat (y * w + x))) <$> seqZ 0 w) = Z.to_nat w)
    by (intros; by rewrite length_fmap, length_seqZ).
  apply list_eq. intros i. destruct (decide (i < length px)%nat) as [Hi|Hi].
  - assert (Hw0 : 0 < w) by nia.
    destruct (Z_row_col (Z.of_nat i) w) as (y & x & Hixy & Hx & Hy); [lia..|].
    assert (y < h) by nia.
    replace i with (Z.to_nat y * Z.to_nat w + Z.to_nat x)%nat by lia.
    rewrite (lookup_bind_blocks _ _ _ _ _ y); [|done|rewrite lookup_seqZ_lt by lia; f_equal; lia|lia].
    rewrite list_lookup_fmap, lookup_seqZ_lt by lia. cbn.
    replace (Z.to_nat (y * w + (0 + Z.of_nat (Z.to_nat x)))) with (Z.to_nat y * Z.to_nat w + Z.to_nat x)%nat by lia.
    destruct (lookup_lt_is_Some_2 px (Z.to_nat y * Z.to_nat w + Z.to_nat x)) as [v ->]; [lia|done].
  - rewrite (lookup_ge_None_2 px) by lia. apply lookup_ge_None_2.
    rewrite (length_bind_blocks _ _ _ Hblk), length_seqZ. nia.
Qed.

Lemma to_signed32_pos v : 0 <= v < 2 ^ 31 -> to_signed32 (v mod 2 ^ 32) = v.
Proof. intros Hv. unfold to_signed32. rewrite Z.mod_small by lia. by rewrite decide_True by lia. Qed.

Lemma to_signed32_neg h : 0 <= h <= 2 ^ 31 -> to_signed32 ((- h) mod 2 ^ 32) = - h.
Proof.
  intros Hh. unfold to_signed32. destruct (decide (h = 0)) as [->|]; [done|].
  replace ((- h) mod 2 ^ 32) with (2 ^ 32 - h)
    by (apply (Z.mod_unique_pos _ _ (-1)); lia).
  rewrite decide_False by lia. lia.
Qed.

Lemma parse_bmp_file w h px :
  0 <= w < 2 ^ 31 -> 0 <= h <= 2 ^ 31 -> length px = Z.to_nat (w * h) ->
  parse_bmp (bmp_file w h px) = Some (w, h, px).
Proof.
  intros Hw Hh Hl. pose proof (paddedRowSize_ge w ltac:(lia)).
  destruct (bmp_file_fields w h px) as (H10 & H18 & H22 & H28); [lia|lia|nia|].
  unfold parse_bmp. rewrite option_guard_True by (unfold bmp_file, bmp_header; done).
  rewrite H10, bind_Some, H18, H22, H28. cbn [fmap option_fmap option_map].
  rewrite !bind_Some, option_guard_True by done.
  rewrite to_signed32_pos, to_signed32_neg, Z.opp_involutive by lia.
  do 2 f_equal. etransitivity; [|apply (bind_rows_id w h px); lia || done].
  apply Forall_bind_ext, Forall_forall. intros y Hy%elem_of_seqZ.
  apply list_fmap_ext. intros _ x Hx%list_elem_of_lookup_2%elem_of_seqZ.
  rewrite <- Z.add_assoc, lookup_bmp_file_rows, lookup_bmp_rows by nia.
  by rewrite decide_True by lia.
Qed.

(** ** The encoder's contract *)

(** [createBMP] in terms of the byte layout. *)
Lemma createBMP_bytes w h pd :
  0 <= w -> 0 <= h -> u8_wf pd ->
  exists buf, createBMP w h pd = Some buf /\ u8_to_list buf = bmp_file w h (u8_to_list pd).
Proof.
  intros Hw Hh Hpd. pose proof (paddedRowSize_ge w Hw).
  eexists; split; [apply createBMP_unfold; unfold bmp_file_size; nia|].
  pose proof (bmp_stores_writes w h pd Hw) as [Hlen Hget _].
  apply list_eq. intros n. rewrite u8_lookup_to_list, Hlen. cbn [u8_len]. case_decide.
  - rewrite <- (Nat2Z.id n) at 2. rewrite Hget, bmp_write_layout by (done || lia). cbn [u8_len].
    destruct (bmp_write w h pd _); [by rewrite decide_True by lia|].
    unfold u8_get. cbn [u8_len u8_fillv u8_data]. by rewrite decide_True by lia.
  - symmetry. apply lookup_ge_None_2. rewrite length_bmp_file by done. lia.
Qed.

(** C1: For every non-negative size and every pixel buffer of bytes,
    [createBMP] succeeds and the bytes of the file are exactly
    [bmp_file]: the 54-byte header with the file size
    [1078 + ceil(w/4)*4*h], the identity gray palette, and the [h] pixel
    rows top-down, each row the [w] pixels [pixelData[y*w + x]] (0 where the
    buffer is shorter) followed by zero padding to a multiple of four. *)
Theorem createBMP_layout w h pd :
  0 <= w -> 0 <= h -> u8_wf pd ->
  exists buf, createBMP w h pd = Some buf /\ u8_to_list buf = bmp_file w h (u8_to_list pd).
Proof. apply createBMP_bytes. Qed.



(** C2: Round trip: a BMP reader gets back the width, the height and the
    pixels from the file [createBMP] writes, for every width below [2^31],
    every height up to [2^31] (the top-down header stores [-height] in a
    signed 32-bit field) and every buffer of [w*h] bytes. *)
Theorem createBMP_roundtrip w h pd :
  0 <= w < 2 ^ 31 -> 0 <= h <= 2 ^ 31 -> u8_wf pd -> u8_len pd = w * h ->
  exists buf, createBMP w h pd = Some buf /\ parse_bmp (u8_to_list buf) = Some (w, h, u8_to_list pd).
Proof.
  intros Hw Hh Hpd Hlen. destruct (createBMP_bytes w h pd) as (buf & Hc & Hl); [lia|lia|done|].
  exists buf. split; [done|]. rewrite Hl. apply parse_bmp_file; [lia|lia|].
  rewrite u8_length_to_list. by f_equal.
Qed.

(** C3: Error path: [createBMP] returns a buffer exactly when the file
    size is at least the 54 bytes of the two headers; otherwise
    [new Uint8Array] (negative size) or a [DataView] store past the end
    throws a [RangeError]. *)
Theorem createBMP_error w h pd : is_Some (createBMP w h pd) <-> 54 <= bmp_file_size w h.
Proof.
  split; [|intros Hs; rewrite (createBMP_unfold w h pd Hs); by eexists].
  unfold createBMP, u8_new, dv_setUint32, dv_setInt32, dv_setUint16. intros Hs.
  repeat (apply bind_is_Some in Hs as (? & ?Hb & Hs)).
  revert Hb. case_decide; [|done]. intros [= <-].
  repeat match goal with H : dv_set _ _ _ _ = Some _ |- _ => apply dv_set_Some in H as [? ?] end.
  rewrite !u8_len_set in *. cbn [u8_len] in *. unfold bmp_file_size, paddedRowSize. lia.
Qed.


(** ** Witnesses *)

Definition bmp_sample : u8arr := U8 6 0 (list_to_map [(0, 10); (1, 20); (2, 30); (3, 40); (4, 50); (5, 60)]).

Lemma bmp_sample_wf : u8_wf bmp_sample.
Proof.
  split; [cbn; lia|split; [cbn; lia|]].
  apply map_Forall_lookup_2. intros k v Hk. vm_compute in Hk.
  repeat (destruct k as [|k|k]; try discriminate); vm_compute in Hk; injection Hk as <-; cbn; lia.
Qed.

Lemma createBMP_layout_witness :
  (0 <= 3 /\ 0 <= 2 /\ u8_wf bmp_sample) /\
  exists buf, createBMP 3 2 bmp_sample = Some buf /\ u8_to_list buf = bmp_file 3 2 (u8_to_list bmp_sample).
Proof.
  split; [split; [lia|split; [lia|apply bmp_sample_wf]]|].
  apply createBMP_layout; [lia|lia|apply bmp_sample_wf].
Defined.

Lemma createBMP_roundtrip_witness :
  (0 <= 3 < 2 ^ 31 /\ 0 <= 2 <= 2 ^ 31 /\ u8_wf bmp_sample /\ u8_len bmp_sample = 3 * 2) /\
  exists buf, createBMP 3 2 bmp_sample = Some buf /\
    parse_bmp (u8_to_list buf) = Some (3, 2, u8_to_list bmp_sample).
Proof.
  split; [split; [lia|split; [lia|split; [apply bmp_sample_wf|reflexivity]]]|].
  apply createBMP_roundtrip; [lia|lia|apply bmp_sample_wf|reflexivity].
Defined.
