(* ===== verification/Worker.v ===== *)
(** * The data adapters and the request handler

    index.ts lines 10-15 ([Env]), 45-137 ([WMO_CODES], [fetchWeather]),
    139-227 ([DAY_NAMES], [getDayLabel], [fetchCalendarEvents],
    [getMockEvents]) and 716-744 (the [fetch] handler).

    The network and the JavaScript [Date] are library calls.  Their
    results enter the model as inputs: a fetch is an [option] of the parsed
    response ([None] for a network error, a status that is not [ok] or a
    body that is not JSON: every one of them lands in the same [catch]);
    the [Date] operations the adapters use are a record [DateOps] of the
    runtime's functions (time value of a date string, and the fields of
    the date at a time value in the worker's time zone).

    The calendar adapter is modelled statement by statement: the grouping
    [Map] is an association list in insertion order ([group_push] is
    [has]/[set]/[get().events.push]), [days.sort] is a stable sort by time
    value (ECMAScript requires [Array.prototype.sort] to be stable), and
    the final [unshift] adds an empty [TODAY].  An item without a [start]
    object makes [item.start.dateTime] throw a [TypeError]; the [catch]
    then returns the mock agenda ([group_items] returns [None]).

    The handler parses the two dimensions with [parseInt] and [|| 480] /
    [|| 800], fetches, renders and encodes; [None] is an exception
    escaping the handler (the runtime answers with an error page).

    Not represented: an Invalid Date.  [parse_date] gives every start
    string a time value, but [new Date('')] (an item whose [start] has
    neither [dateTime] nor [date], line 155) or an unparseable string is
    an Invalid Date: its time is [NaN], so the sort comparator returns
    [NaN] (line 187) and [DAY_NAMES[NaN]] is [undefined] (line 114), which
    makes [drawText] throw when the composer draws that label (line 393).
    The theorems about a real calendar answer are therefore stated about
    the adapter's own steps (grouping, [TODAY] first, labels under a
    hypothesis on [getDay()]), and the end-to-end theorems of the handler
    about the path where the adapter answers with the mock agenda. *)

From Stdlib Require Import QArith.
From stdpp Require Import sorting.
From S2P Require Import Prelude JsString Pixels Icons Layout Render Bmp.
Local Open Scope Z_scope.

(** ** Environment (lines 10-15) *)

Record Env := {
  DISPLAY_WIDTH : option jstr;
  DISPLAY_HEIGHT : option jstr;
  GOOGLE_CALENDAR_API_KEY : option jstr;
  GOOGLE_CALENDAR_ID : option jstr
}.

(** A string or [undefined] in a boolean context: only a non-empty
    string is truthy. *)
Definition js_truthy_str (o : option jstr) : bool :=
  match o with
  | Some (_ :: _) => true
  | _ => false
  end.

(** [o || d] on a string or [undefined]. *)
Definition js_or_str (o : option jstr) (d : jstr) : jstr :=
  match o with
  | Some s => if js_truthy_str o then s else d
  | None => d
  end.

(** ** Weather (lines 45-106) *)

Definition WMO_CODES : gmap Z jstr :=
  list_to_map ((fun '(k, s) => (k, js s)) <$>
    [(0, "Clear"); (1, "Mostly Clear"); (2, "Partly Cloudy"); (3, "Overcast");
     (45, "Foggy"); (48, "Rime Fog"); (51, "Light Drizzle"); (53, "Drizzle");
     (55, "Heavy Drizzle"); (61, "Light Rain"); (63, "Rain"); (65, "Heavy Rain");
     (66, "Freezing Rain"); (67, "Heavy Freezing Rain"); (71, "Light Snow");
     (73, "Snow"); (75, "Heavy Snow"); (77, "Snow Grains"); (80, "Light Showers");
     (81, "Showers"); (82, "Heavy Showers"); (85, "Light Snow Showers");
     (86, "Snow Showers"); (95, "Thunderstorm"); (96, "Thunderstorm + Hail");
     (99, "Severe Thunderstorm")]%string).

(** The fields of the Open-Meteo answer the adapter reads;
    [daily_max] and [daily_min] are [temperature_2m_max[0]] and
    [temperature_2m_min[0]]. *)
Record WeatherResponse := {
  current_temperature_2m : Q;
  current_weather_code : Z;
  daily_max : Q;
  daily_min : Q
}.

Definition weather_unavailable : WeatherData :=
  {| temperature := 0; temperatureHigh := 0; temperatureLow := 0;
     condition := js "Unavailable"; conditionCode := -1 |}.

Definition fetchWeather (response : option WeatherResponse) : WeatherData :=
  match response with
  | Some data =>
      {| temperature := js_round (current_temperature_2m data);
         temperatureHigh := js_round (daily_max data);
         temperatureLow := js_round (daily_min data);
         condition := js_or_str (WMO_CODES !! current_weather_code data) (js "Unknown");
         conditionCode := current_weather_code data |}
  | None => weather_unavailable
  end.

(** ** Calendar (lines 108-227) *)

(** What the adapter reads of a [Date]: [getTime()], [toDateString()]
    and [getDay()] in the worker's time zone, and
    [toLocaleTimeString('en-US', {hour: '2-digit', minute: '2-digit',
    hour12: false, timeZone: TIMEZONE})]. *)
Record DateView := {
  dt_time : Z;
  dt_dateString : jstr;
  dt_day : Z;
  dt_localTime : jstr
}.

(** The runtime's dates: the date at a time value, and the time value
    [new Date(s)] gives a date string the runtime accepts (an Invalid Date
    is not represented, see the header). *)
Record DateOps := {
  date_of_time : Z -> DateView;
  parse_date : jstr -> Z
}.

(** The two clock readings of [fetchCalendarEvents] and [getMockEvents]:
    [new Date()] and [new Date(now.toLocaleString('en-US', {timeZone}))]. *)
Record Clock := {
  now_ms : Z;
  now_local_ms : Z
}.

Record ItemStart := {
  start_dateTime : option jstr;
  start_date : option jstr
}.

(** A calendar item; [start = None] is an item without a [start] object. *)
Record Item := {
  summary : option jstr;
  start : option ItemStart
}.

Definition getDayLabel (d : DateView) (todayDate tomorrowDate : jstr) : jstr :=
  let dateStr := dt_dateString d in
  if decide (dateStr = todayDate) then js "TODAY"
  else if decide (dateStr = tomorrowDate) then js "TOMORROW"
  else default [] (DAY_NAMES !! Z.to_nat (dt_day d)).

Definition mock_event (t s : string) : CalendarEvent :=
  {| time := js t; title := js s; isAllDay := false |}.

Definition getMockEvents (now : Z) : list DayEvents :=
  [{| label := js "TODAY"; date := now;
      events := [mock_event "09:00" "Team Standup"; mock_event "11:30" "Design Review";
                 mock_event "14:00" "Deep Work Block"] |};
   {| label := js "TOMORROW"; date := now + 86400000;
      events := [mock_event "10:00" "Client Call"] |}].

Section Calendar.
Variable D : DateOps.

(** The event of one item and the date it starts (lines 163-176). *)
Definition item_event (st : ItemStart) (summ : option jstr) : DateView * CalendarEvent :=
  let allDay := negb (js_truthy_str (start_dateTime st)) in
  let startStr := js_or_str (start_dateTime st) (js_or_str (start_date st) []) in
  let startDate := date_of_time D (parse_date D startStr) in
  (startDate, {| title := js_or_str summ (js "Untitled");
                 time := if allDay then js "All Day" else dt_localTime startDate;
                 isAllDay := allDay |}).

(** The [eventsByDate] map, in insertion order. *)
Definition Group := (jstr * DateView * list CalendarEvent)%type.

Fixpoint group_push (key : jstr) (d : DateView) (ev : CalendarEvent) (g : list Group) : list Group :=
  match g with
  | [] => [(key, d, [ev])]
  | (k, d', evs) :: g' =>
      if decide (key = k) then (k, d', evs ++ [ev]) :: g'
      else (k, d', evs) :: group_push key d ev g'
  end.

(** The loop over [data.items] (lines 163-182); [None] is the [TypeError]
    of an item without [start]. *)
Fixpoint group_items (items : list Item) (g : list Group) : option (list Group) :=
  match items with
  | [] => Some g
  | it :: rest =>
      st ← start it;
      let '(d, ev) := item_event st (summary it) in
      group_items rest (group_push (dt_dateString d) d ev g)
  end.

Definition label_days (todayDate tomorrowDate : jstr) (g : list Group) : list DayEvents :=
  (fun '(_, d, evs) => {| label := getDayLabel d todayDate tomorrowDate;
                          date := dt_time d; events := evs |}) <$> g.

(** The comparator [a.date.getTime() - b.date.getTime()], as the order a
    stable sort keeps. *)
Definition date_le (a b : DayEvents) : Prop := date a <= date b.

#[global] Instance date_le_dec : RelDecision date_le.
Proof. intros a b. unfold date_le. apply _. Defined.

Definition sort_days (days : list DayEvents) : list DayEvents := merge_sort date_le days.

(** Lines 196-203. *)
Definition unshift_today (nowLocal : DateView) (days : list DayEvents) : list DayEvents :=
  let today := {| label := js "TODAY"; date := dt_time nowLocal; events := [] |} in
  match days with
  | [] => [today]
  | d :: _ => if decide (label d = js "TODAY") then days else today :: days
  end.

Definition fetchCalendarEvents (env : Env) (clock : Clock)
    (response : option (option (list Item))) : list DayEvents :=
  if negb (js_truthy_str (GOOGLE_CALENDAR_API_KEY env)) || negb (js_truthy_str (GOOGLE_CALENDAR_ID env))
  then getMockEvents (now_ms clock)
  else
    match response with
    | None => getMockEvents (now_ms clock)
    | Some items =>
        let nowLocal := date_of_time D (now_local_ms clock) in
        let todayDate := dt_dateString nowLocal in
        let tomorrowDate := dt_dateString (date_of_time D (now_local_ms clock + 86400000)) in
        match group_items (default [] items) [] with
        | Some g => unshift_today nowLocal (sort_days (label_days todayDate tomorrowDate g))
        | None => getMockEvents (now_ms clock)
        end
    end.

End Calendar.

(** ** The handler (lines 716-744) *)

Record Response := {
  body : u8arr;
  headers : list (jstr * jstr)
}.

Definition response_headers : list (jstr * jstr) :=
  [(js "Content-Type", js "image/bmp");
   (js "Content-Disposition", js "inline; filename=" ++ [34] ++ js "calendar.bmp" ++ [34]);
   (js "Cache-Control", js "no-cache")].

Definition handler_dims (env : Env) : Z * Z :=
  (js_or_num (js_parseInt (DISPLAY_WIDTH env)) 480,
   js_or_num (js_parseInt (DISPLAY_HEIGHT env)) 800).

Definition worker_fetch `{JsTrig} (D : DateOps) (env : Env) (clock : Clock)
    (weather_response : option WeatherResponse) (calendar_response : option (option (list Item)))
    (generatedAt : GeneratedAt) : option Response :=
  let '(width, height) := handler_dims env in
  let weather := fetchWeather weather_response in
  let days := fetchCalendarEvents D env clock calendar_response in
  pixels ← renderDisplay width height weather days generatedAt;
  bmp ← createBMP width height pixels;
  Some {| body := bmp; headers := response_headers |}.

(** [eventsByDate.get(key).events]. *)
Fixpoint glookup (key : jstr) (g : list (jstr * DateView * list CalendarEvent)) : option (list CalendarEvent) :=
  match g with
  | [] => None
  | (k, _, evs) :: g' => if decide (key = k) then Some evs else glookup key g'
  end.

(** ** Laws of the calendar adapter *)

Definition gkey (x : jstr * DateView * list CalendarEvent) : jstr := x.1.1.
Definition gevents (x : jstr * DateView * list CalendarEvent) : list CalendarEvent := x.2.

Section CalendarLaws.
Variable D : DateOps.

(** The dated events of the items that have a [start]. *)
Definition item_events (items : list Item) : list (DateView * CalendarEvent) :=
  omap (fun it => (fun st => item_event D st (summary it)) <$> start it) items.

(** The events of the items of date string [k], in item order, as the
    map holds them ([None] when there is none). *)
Definition events_for (k : jstr) (P : list (DateView * CalendarEvent)) : option (list CalendarEvent) :=
  match filter (fun p => dt_dateString p.1 = k) P with
  | [] => None
  | l => Some (snd <$> l)
  end.

Lemma group_push_keys k d ev g :
  gkey <$> group_push k d ev g = if decide (k ∈ gkey <$> g) then gkey <$> g else (gkey <$> g) ++ [k].
Proof.
  induction g as [|[[k' d'] evs] g IH]; [done|]. cbn [group_push].
  destruct (decide (k = k')) as [<-|Hk]; cbn [fmap list_fmap gkey fst].
  - rewrite decide_True by apply list_elem_of_here. done.
  - rewrite IH. fold (fmap (M := list) gkey g).
    destruct (decide (k ∈ gkey <$> g)); [rewrite decide_True by (apply list_elem_of_further; done)|
      rewrite decide_False by (rewrite elem_of_cons; naive_solver)]; done.
Qed.

Lemma glookup_push k' k d ev g :
  glookup k' (group_push k d ev g) =
  if decide (k' = k) then Some (default [] (glookup k g) ++ [ev]) else glookup k' g.
Proof.
  induction g as [|[[k0 d0] evs] g IH]; cbn [group_push glookup].
  - by repeat case_decide.
  - destruct (decide (k = k0)) as [<-|Hk]; cbn [glookup].
    + destruct (decide (k' = k)); done.
    + rewrite IH. destruct (decide (k' = k)) as [->|]; [by rewrite decide_False|done].
Qed.

Lemma events_for_snoc k P d ev :
  events_for k (P ++ [(d, ev)]) =
  if decide (k = dt_dateString d) then Some (default [] (events_for k P) ++ [ev]) else events_for k P.
Proof.
  unfold events_for. rewrite filter_app. cbn [filter list_filter fst].
  destruct (decide (k = dt_dateString d)) as [->|Hk].
  - rewrite decide_True by done. destruct (filter _ P); cbn; [done|]. by rewrite fmap_app.
  - rewrite decide_False by congruence. by rewrite app_nil_r.
Qed.

(** The map after the events [P]: its keys are distinct and [get(k)]
    holds the events of date [k], in order. *)
Definition group_inv (P : list (DateView * CalendarEvent)) (g : list Group) : Prop :=
  NoDup (gkey <$> g) /\ forall k, glookup k g = events_for k P.

Lemma group_inv_push P g d ev :
  group_inv P g -> group_inv (P ++ [(d, ev)]) (group_push (dt_dateString d) d ev g).
Proof.
  intros [Hnd Hl]. split.
  - rewrite group_push_keys. case_decide; [done|].
    apply NoDup_app. split_and!; [done| |apply NoDup_singleton]. set_solver.
  - intros k. rewrite glookup_push, events_for_snoc, !Hl. by case_decide; subst.
Qed.

Lemma group_items_inv items P g g' :
  group_items D items g = Some g' -> group_inv P g -> group_inv (P ++ item_events items) g'.
Proof.
  revert P g. induction items as [|it items IH]; intros P g Hg Hinv; cbn [group_items] in Hg.
  - injection Hg as <-. by rewrite app_nil_r.
  - destruct (start it) as [st|] eqn:Hs; [|done]. cbn [mbind option_bind] in Hg.
    destruct (item_event D st (summary it)) as [d ev] eqn:He.
    unfold item_events. cbn [omap list_omap]. rewrite Hs. cbn [fmap option_fmap option_map]. rewrite He.
    change ((d, ev) :: ?l) with ([(d, ev)] ++ l). rewrite app_assoc.
    apply (IH _ _ Hg), group_inv_push, Hinv.
Qed.

Lemma group_items_Exists_None items g :
  Exists (fun it => start it = None) items -> group_items D items g = None.
Proof.
  intros Hex. revert g. induction Hex as [it items Hs|it items _ IH]; intros g; cbn [group_items].
  - by rewrite Hs.
  - destruct (start it); [|done]. cbn [mbind option_bind].
    destruct (item_event D _ _). apply IH.
Qed.

Lemma group_items_Forall_Some items g :
  Forall (fun it => is_Some (start it)) items -> is_Some (group_items D items g).
Proof.
  intros Hall. revert g. induction Hall as [|it items [st Hs] _ IH]; intros g; cbn [group_items].
  - by eexists.
  - rewrite Hs. cbn [mbind option_bind]. destruct (item_event D _ _). apply IH.
Qed.

End CalendarLaws.

(** ** Laws of the handler *)

(** A dimension written as a decimal integer is read back, [0] falling
    back to the default. *)
Lemma js_or_num_dec z d : js_or_num (js_parseInt (Some (z_to_dec z))) d = if decide (z = 0) then d else z.
Proof. unfold js_or_num. by rewrite parseInt_z_to_dec. Qed.

Section HandlerLaws.
Context `{JsTrig}.
Variable D : DateOps.

(** The handler on positive dimensions: the render succeeds and the body
    is the bitmap of the rendered buffer. *)
Lemma worker_fetch_spec env clock wr cr gen w h :
  handler_dims env = (w, h) -> 0 < w -> 0 <= h ->
  exists pixels bmp,
    renderDisplay w h (fetchWeather wr) (fetchCalendarEvents D env clock cr) gen = Some pixels /\
    u8_len pixels = w * h /\ u8_wf pixels /\
    worker_fetch D env clock wr cr gen = Some {| body := bmp; headers := response_headers |} /\
    u8_to_list bmp = bmp_file w h (u8_to_list pixels).
Proof.
  intros Hd Hw Hh. unfold worker_fetch. rewrite Hd.
  destruct (renderDisplay_Some w h (fetchWeather wr) (fetchCalendarEvents D env clock cr) gen Hw Hh)
    as (p & Hr & Hl & Hwf).
  destruct (createBMP_bytes w h p) as (buf & Hc & Hb); [lia|lia|done|].
  exists p, buf. rewrite Hr. cbn [mbind option_bind]. rewrite Hc. done.
Qed.

End HandlerLaws.

(** ** The data adapters' contract *)

Lemma unshift_today_cases nowLocal days :
  exists pre, unshift_today nowLocal days = pre ++ days /\
    (pre = [] \/ pre = [{| label := js "TODAY"; date := dt_time nowLocal; events := [] |}]).
Proof.
  unfold unshift_today. destruct days as [|d0 days]; [eexists [_]; naive_solver|].
  case_decide; [exists []|eexists [_]]; naive_solver.
Qed.

Lemma unshift_today_head nowLocal days :
  exists d rest, unshift_today nowLocal days = d :: rest /\ label d = js "TODAY".
Proof.
  unfold unshift_today. destruct days as [|d0 days]; [by do 2 eexists|].
  case_decide; by do 2 eexists.
Qed.

Lemma getMockEvents_today now : exists d rest, getMockEvents now = d :: rest /\ label d = js "TODAY".
Proof. by do 2 eexists. Qed.

(** C19: Today first: whatever the configuration and the answer of the
    calendar API, the adapter's first day is labelled [TODAY] (the mock
    agenda starts with it, and the [unshift] puts an empty one in front of
    any other first day). *)
Theorem fetchCalendarEvents_today_first D env clock response :
  exists d rest, fetchCalendarEvents D env clock response = d :: rest /\ label d = js "TODAY".
Proof.
  unfold fetchCalendarEvents.
  destruct (_ || _); [apply getMockEvents_today|].
  destruct response as [items|]; [|apply getMockEvents_today].
  destruct (group_items D _ _); [|apply getMockEvents_today].
  apply unshift_today_head.
Qed.

(** A configured adapter: both settings are non-empty strings. *)
Definition calendar_configured (env : Env) : bool :=
  js_truthy_str (GOOGLE_CALENDAR_API_KEY env) && js_truthy_str (GOOGLE_CALENDAR_ID env).

(** C20: The grouping [Map] against its reference: after the loop over
    the items, the keys are distinct date strings and [get(k).events] are
    exactly the events of the items whose start falls on date [k], in the
    order of the items ([None] when there is none). *)
Theorem group_items_by_date D items g :
  group_items D items [] = Some g ->
  NoDup (gkey <$> g) /\ forall k, glookup k g = events_for k (item_events D items).
Proof.
  intros Hg. apply (group_items_inv D items [] [] g Hg). split; [constructor|done].
Qed.

(** C21: Error path: one item without a [start] object makes the loop
    throw; the [catch] then returns the mock agenda, dropping every real
    event. *)
Theorem fetchCalendarEvents_malformed_item D env clock items :
  calendar_configured env = true -> Exists (fun it => start it = None) items ->
  fetchCalendarEvents D env clock (Some (Some items)) = getMockEvents (now_ms clock).
Proof.
  unfold calendar_configured, fetchCalendarEvents. intros [-> ->]%andb_prop Hex.
  cbn. by rewrite group_items_Exists_None.
Qed.

(** ** A runtime in UTC, for the examples

    Dates in UTC: the date string of a time value is its day number, the
    weekday counts from the Thursday of 1 January 1970; date strings are
    read as decimal time values. *)
Definition utc_dates : DateOps :=
  {| date_of_time t := {| dt_time := t; dt_dateString := z_to_dec (t / 86400000);
                          dt_day := (t / 86400000 + 4) mod 7; dt_localTime := js "00:00" |};
     parse_date s := default 0 (js_parseInt (Some s)) |}.

Definition configured_env : Env :=
  {| DISPLAY_WIDTH := None; DISPLAY_HEIGHT := None;
     GOOGLE_CALENDAR_API_KEY := Some (js "key"); GOOGLE_CALENDAR_ID := Some (js "calendar") |}.

(** An event that began yesterday evening and is still running (the API
    returns every event that ends after [timeMin]), and one this morning. *)
Definition overnight_items : list Item :=
  [{| summary := Some (js "Offsite"); start := Some {| start_dateTime := Some (z_to_dec (9 * 86400000 + 72000000)); start_date := None |} |};
   {| summary := Some (js "Standup"); start := Some {| start_dateTime := Some (z_to_dec (10 * 86400000 + 32400000)); start_date := None |} |}].

Definition overnight_clock : Clock := {| now_ms := 10 * 86400000 + 3600000; now_local_ms := 10 * 86400000 + 3600000 |}.

(** The scenario of the finding on [unshift]: the test looks only at the
    first day, so when an event that started yesterday comes back from
    the API, the sorted days start with yesterday and an empty [TODAY] is
    put in front of the real [TODAY]: the agenda shows two [TODAY] days,
    and the list is no longer in date order. *)
Example fetchCalendarEvents_today_twice :
  let days := fetchCalendarEvents utc_dates configured_env overnight_clock (Some (Some overnight_items)) in
  length (filter (fun d => label d = js "TODAY") days) = 2%nat /\
  match days with d1 :: d2 :: _ => date d2 < date d1 | _ => False end.
Proof. vm_compute. split; reflexivity. Qed.

(** ** The handler's contract *)

Section HandlerTheorems.
Context `{JsTrig}.

(** Unconfigured, or with a failed fetch, the adapter answers with the
    mock agenda. *)
Lemma fetchCalendarEvents_mock D env clock cr :
  calendar_configured env = false \/ cr = None ->
  fetchCalendarEvents D env clock cr = getMockEvents (now_ms clock).
Proof.
  unfold calendar_configured, fetchCalendarEvents. intros [Hc| ->].
  - apply andb_false_iff in Hc as [-> | ->]; [done|]. by rewrite orb_true_r.
  - by destruct (_ || _).
Qed.

(** C22: End to end, on the path where the calendar falls back to the
    mock agenda (not configured, or the fetch failed): when the
    environment's dimensions are a positive width below [2^31] and a
    height up to [2^31], the handler answers with the bitmap headers and a
    body from which a BMP reader gets back the width, the height and
    exactly the buffer [renderDisplay] paints for the weather adapter's
    result and the mock agenda.  (With a real calendar answer the adapter
    can produce a day whose [Date] is invalid, a case the model of [Date]
    does not represent.) *)
Theorem worker_fetch_bmp D env clock wr cr gen w h :
  handler_dims env = (w, h) -> 0 < w < 2 ^ 31 -> 0 <= h <= 2 ^ 31 ->
  calendar_configured env = false \/ cr = None ->
  exists resp pixels,
    worker_fetch D env clock wr cr gen = Some resp /\ headers resp = response_headers /\
    renderDisplay w h (fetchWeather wr) (getMockEvents (now_ms clock)) gen = Some pixels /\
    parse_bmp (u8_to_list (body resp)) = Some (w, h, u8_to_list pixels).
Proof.
  intros Hd Hw Hh Hm.
  destruct (worker_fetch_spec D env clock wr cr gen w h Hd ltac:(lia) ltac:(lia))
    as (p & bmp & Hr & Hl & _ & Hf & Hb).
  rewrite fetchCalendarEvents_mock in Hr by done.
  eexists _, p. split_and!; [exact Hf|done|exact Hr|]. cbn [body]. rewrite Hb.
  apply parse_bmp_file; [lia|lia|]. rewrite u8_length_to_list. by f_equal.
Qed.

(** C23: The scenario of the specification: with the dimensions unset
    and the calendar on the mock agenda, the handler renders the page at
    480 by 800 and answers with a file of exactly
    [14 + 40 + 1024 + 480 * 800 = 385078] bytes, whatever the weather. *)
Theorem worker_fetch_default_size D env clock wr cr gen :
  DISPLAY_WIDTH env = None -> DISPLAY_HEIGHT env = None ->
  calendar_configured env = false \/ cr = None ->
  exists resp pixels,
    worker_fetch D env clock wr cr gen = Some resp /\
    renderDisplay 480 800 (fetchWeather wr) (getMockEvents (now_ms clock)) gen = Some pixels /\
    u8_to_list (body resp) = bmp_file 480 800 (u8_to_list pixels) /\
    Z.of_nat (length (u8_to_list (body resp))) = 385078.
Proof.
  intros Hw Hh Hm. assert (Hd : handler_dims env = (480, 800)) by (unfold handler_dims; by rewrite Hw, Hh).
  destruct (worker_fetch_spec D env clock wr cr gen 480 800 Hd ltac:(lia) ltac:(lia))
    as (p & bmp & Hr & _ & _ & Hf & Hb).
  rewrite fetchCalendarEvents_mock in Hr by done.
  eexists _, p. split_and!; [exact Hf|exact Hr|exact Hb|]. cbn [body].
  rewrite Hb, length_bmp_file, Z2Nat.id by (vm_compute; congruence). reflexivity.
Qed.

(** C24: The dimensions are not checked for sign: a negative
    [DISPLAY_WIDTH] is truthy, so [|| 480] keeps it, and with the default
    height [new Uint8Array(width * height)] throws a [RangeError] that
    escapes the handler (the specification asks for a fallback to the
    defaults). *)
Theorem worker_fetch_negative_width D env clock wr cr gen w :
  DISPLAY_WIDTH env = Some (z_to_dec w) -> w < 0 -> DISPLAY_HEIGHT env = None ->
  worker_fetch D env clock wr cr gen = None.
Proof.
  intros Hw Hneg Hh. unfold worker_fetch, handler_dims. rewrite Hw, Hh, js_or_num_dec.
  rewrite decide_False by lia. change (js_or_num (js_parseInt None) 800) with 800.
  cbn -[renderDisplay]. unfold renderDisplay, u8_new. rewrite decide_False by lia. done.
Qed.

End HandlerTheorems.

(** ** The label type *)

(** The labels a day may carry: [TODAY], [TOMORROW] or a weekday name. *)
Definition day_label_ok (l : jstr) : Prop := l = js "TODAY" \/ l = js "TOMORROW" \/ l ∈ DAY_NAMES.

Lemma getDayLabel_ok d t t' : 0 <= dt_day d < 7 -> day_label_ok (getDayLabel d t t').
Proof.
  intros Hd. unfold getDayLabel, day_label_ok.
  case_decide; [by left|]. case_decide; [by right; left|]. right; right.
  destruct (DAY_NAMES !! Z.to_nat (dt_day d)) as [n|] eqn:Hn.
  - cbn. by eapply list_elem_of_lookup_2.
  - apply lookup_ge_None_1 in Hn. cbn in Hn. lia.
Qed.

(** Every date the map holds is a date of the runtime. *)
Lemma group_push_dates (P : DateView -> Prop) k d ev g :
  P d -> Forall (fun x : Group => P x.1.2) g -> Forall (fun x : Group => P x.1.2) (group_push k d ev g).
Proof.
  intros Hd Hg. induction Hg as [|[[k' d'] evs] g Hx Hg IH]; cbn; [by repeat constructor|].
  case_decide; constructor; done.
Qed.

Lemma group_items_dates D (P : DateView -> Prop) items g g' :
  (forall t, P (date_of_time D t)) -> Forall (fun x : Group => P x.1.2) g ->
  group_items D items g = Some g' -> Forall (fun x : Group => P x.1.2) g'.
Proof.
  intros HP. revert g. induction items as [|it items IH]; intros g Hg Hi; cbn [group_items] in Hi.
  - by injection Hi as <-.
  - destruct (start it) as [st|]; [|done]. cbn [mbind option_bind] in Hi.
    destruct (item_event D st (summary it)) as [d ev] eqn:He.
    apply (IH _ (group_push_dates P _ d ev g ltac:(injection He as <- _; apply HP) Hg) Hi).
Qed.

Lemma unshift_today_labels nowLocal days :
  Forall (fun d => day_label_ok (label d)) days ->
  Forall (fun d => day_label_ok (label d)) (unshift_today nowLocal days).
Proof.
  intros Hall. destruct (unshift_today_cases nowLocal days) as (pre & -> & [->| ->]); [done|].
  constructor; [by left|done].
Qed.

(** C31: The label type of the specification's [CalendarDay]: when the
    runtime's [getDay()] is a weekday number in [0, 7), every day the
    calendar adapter returns is labelled [TODAY], [TOMORROW] or a weekday
    name, on every path (mock agenda, real answer, error). *)
Theorem fetchCalendarEvents_labels D env clock response :
  (forall t, 0 <= dt_day (date_of_time D t) < 7) ->
  Forall (fun d => day_label_ok (label d)) (fetchCalendarEvents D env clock response).
Proof.
  intros Hday.
  assert (Hmock : forall now, Forall (fun d => day_label_ok (label d)) (getMockEvents now))
    by (intros now; constructor; [by left|constructor; [by right; left|constructor]]).
  unfold fetchCalendarEvents. destruct (_ || _); [apply Hmock|].
  destruct response as [items|]; [|apply Hmock].
  destruct (group_items D _ _) as [g|] eqn:Hg; [|apply Hmock].
  apply unshift_today_labels. unfold sort_days. rewrite (merge_sort_Permutation _ _).
  unfold label_days. apply Forall_fmap, Forall_forall. intros [[k d] evs] Hin. cbn.
  apply getDayLabel_ok.
  assert (Hgd : Forall (fun x : Group => 0 <= dt_day x.1.2 < 7) g)
    by (eapply (group_items_dates D (fun v => 0 <= dt_day v < 7)); [exact Hday|constructor|exact Hg]).
  rewrite Forall_forall in Hgd. exact (Hgd (k, d, evs) Hin).
Qed.

(** ** Witnesses *)

Definition malformed_items : list Item := overnight_items ++ [{| summary := None; start := None |}].

Definition negative_env : Env :=
  {| DISPLAY_WIDTH := Some (z_to_dec (-480)); DISPLAY_HEIGHT := None;
     GOOGLE_CALENDAR_API_KEY := None; GOOGLE_CALENDAR_ID := None |}.

Lemma group_items_by_date_witness :
  exists g, group_items utc_dates overnight_items [] = Some g /\
    NoDup (gkey <$> g) /\ forall k, glookup k g = events_for k (item_events utc_dates overnight_items).
Proof.
  eexists. split; [reflexivity|]. apply group_items_by_date. reflexivity.
Defined.

Lemma fetchCalendarEvents_malformed_item_witness :
  (calendar_configured configured_env = true /\ Exists (fun it => start it = None) malformed_items) /\
  fetchCalendarEvents utc_dates configured_env overnight_clock (Some (Some malformed_items)) =
    getMockEvents (now_ms overnight_clock).
Proof.
  assert (He : Exists (fun it => start it = None) malformed_items)
    by (apply Exists_app; right; by constructor).
  split; [split; [reflexivity|exact He]|].
  apply fetchCalendarEvents_malformed_item; [reflexivity|exact He].
Defined.

Lemma worker_fetch_bmp_witness :
  (handler_dims configured_env = (480, 800) /\ 0 < 480 < 2 ^ 31 /\ 0 <= 800 <= 2 ^ 31 /\
   (calendar_configured configured_env = false \/ @None (option (list Item)) = None)) /\
  exists resp pixels,
    worker_fetch utc_dates configured_env overnight_clock None None sample_time = Some resp /\
    headers resp = response_headers /\
    renderDisplay 480 800 (fetchWeather None) (getMockEvents (now_ms overnight_clock)) sample_time = Some pixels /\
    parse_bmp (u8_to_list (body resp)) = Some (480, 800, u8_to_list pixels).
Proof.
  split; [split; [reflexivity|split; [lia|split; [lia|by right]]]|].
  apply worker_fetch_bmp; [reflexivity|lia|lia|by right].
Defined.

Lemma worker_fetch_default_size_witness :
  (DISPLAY_WIDTH configured_env = None /\ DISPLAY_HEIGHT configured_env = None /\
   (calendar_configured configured_env = false \/ @None (option (list Item)) = None)) /\
  exists resp pixels,
    worker_fetch utc_dates configured_env overnight_clock None None sample_time = Some resp /\
    renderDisplay 480 800 (fetchWeather None) (getMockEvents (now_ms overnight_clock)) sample_time = Some pixels /\
    u8_to_list (body resp) = bmp_file 480 800 (u8_to_list pixels) /\
    Z.of_nat (length (u8_to_list (body resp))) = 385078.
Proof.
  split; [split; [reflexivity|split; [reflexivity|by right]]|].
  apply worker_fetch_default_size; [reflexivity|reflexivity|by right].
Defined.

Lemma worker_fetch_negative_width_witness :
  (DISPLAY_WIDTH negative_env = Some (z_to_dec (-480)) /\ -480 < 0 /\ DISPLAY_HEIGHT negative_env = None) /\
  worker_fetch utc_dates negative_env overnight_clock None None sample_time = None.
Proof.
  split; [split; [reflexivity|split; [lia|reflexivity]]|].
  apply (worker_fetch_negative_width utc_dates negative_env overnight_clock None None sample_time (-480));
    [reflexivity|lia|reflexivity].
Defined.

Lemma fetchCalendarEvents_labels_witness :
  (forall t, 0 <= dt_day (date_of_time utc_dates t) < 7) /\
  Forall (fun d => day_label_ok (label d))
    (fetchCalendarEvents utc_dates configured_env overnight_clock (Some (Some overnight_items))).
Proof.
  assert (Hd : forall t, 0 <= dt_day (date_of_time utc_dates t) < 7)
    by (intros t; cbn; apply Z.mod_pos_bound; lia).
  split; [exact Hd|]. apply fetchCalendarEvents_labels, Hd.
Defined.
