(* ===== verification/Firmware.v ===== *)
(** * The firmware's calendar mode ([CalendarActivity] and [setup])

    index.ts lines 798-1015: the C++ listings of the firmware design
    document carried in the source file.  [CalendarActivity] is a state
    machine driven by the firmware's main loop, which calls [loop()] of the
    current activity over and over.

    The model:
    - [CalendarState] is the enum (lines 821-828), [Activity] the two
      fields [state] and [stateStartTime] (lines 838-839);
    - the device is a [Device]: which activity runs ([Mode]), the settings
      (lines 800-803 and [sleepScreen]) and the log of the effects on the
      hardware, in order ([Effect]: WiFi, HTTP, SD card, screen, sleep);
    - one call of [loop()] reads its inputs from a [LoopInput]: the time
      in milliseconds, [WiFi.status()], and the outcome of [fetchImage]'s
      [GET] and [SD.open]; all the [millis()] calls of one call read the
      same clock value;
    - [millis()] and [stateStartTime] are [unsigned long], 32 bits on the
      ESP32: [millis] is the real time modulo [2^32] and the elapsed time
      [millis() - stateStartTime] is computed modulo [2^32] ([u32_sub]);
    - [enterNewActivity] makes its argument the current activity, so the
      main loop no longer calls the calendar activity's [loop()];
      [esp_deep_sleep_start] does not return;
    - the settings start from [default_settings] (lines 800-803) and the
      "Calendar Mode" submenu (lines 1026-1038) is the data [calendar_menu]
      of [SettingEntry] values.

    The theorems: a [loop()] call in [CONNECTING_WIFI] times out exactly
    after [WIFI_TIMEOUT_MS], also across the rollover of [millis()]; the
    sleep duration never overflows its 64 bits; the reachable states
    satisfy the activity's invariant (rule induction on [reachable]);
    [setup] dispatches on the wake cause; every run of the activity leaves
    it within 93004 calls of [loop()] when the clock advances (a
    decreasing measure); on the success path the device goes to the
    [SleepActivity] without ever arming the wake-up timer; and a run that
    ends in deep sleep has armed the timer for exactly the configured
    number of hours, for every value the settings menu accepts. *)

From S2P Require Import Prelude JsString.
Local Open Scope Z_scope.

(** ** Machine integers *)

Definition u32 (z : Z) : Z := z mod 2 ^ 32.
Definition u64 (z : Z) : Z := z mod 2 ^ 64.

(** [millis()] at real time [t] (milliseconds since boot). *)
Definition millis (t : Z) : Z := u32 t.

(** [a - b] on [unsigned long]. *)
Definition u32_sub (a b : Z) : Z := u32 (a - b).

(** ** Data (lines 798-849) *)

Inductive CalendarState :=
  CONNECTING_WIFI | FETCHING_IMAGE | SAVING_IMAGE | RENDERING | SCHEDULING_SLEEP | ERROR.

#[export] Instance CalendarState_eq_dec : EqDecision CalendarState.
Proof. solve_decision. Defined.

Inductive SleepScreenMode := SLEEP_SCREEN_OTHER | CUSTOM.

(** The calendar settings; the C strings are their characters before the
    terminating NUL. *)
Record Settings := {
  calendarModeEnabled : bool;
  calendarRefreshHours : Z;
  calendarServerUrl : jstr;
  calendarWifiSsid : jstr;
  sleepScreen : SleepScreenMode
}.

(** [WIFI_STORE] after [loadFromFile()]. *)
Record WifiStore := {
  getFirstSsid : option jstr;
  findCredential : jstr -> option jstr
}.

Inductive Effect :=
  | LoadWifiCredentials
  | WifiModeSta
  | WifiBegin (ssid : jstr) (password : option jstr)
  | SerialError (message : jstr)
  | DrawText (x y : Z) (message : jstr)
  | RenderScreen
  | HttpGet (url : jstr)
  | WriteSleepBmp
  | EnterSleepActivity
  | WifiDisconnect
  | WifiOff
  | TimerWakeup (us : Z)
  | GpioWakeup
  | DeepSleepStart.

Record Activity := {
  state : CalendarState;
  stateStartTime : Z
}.

Inductive Mode :=
  | NormalBoot
  | Running (a : Activity)
  | InSleepActivity
  | DeepSleep.

Record Device := {
  mode : Mode;
  settings : Settings;
  effects : list Effect
}.

Definition WIFI_TIMEOUT_MS : Z := 30000.
Definition HTTP_TIMEOUT_MS : Z := 60000.
Definition ERROR_DISPLAY_MS : Z := 3000.
Definition HTTP_CODE_OK : Z := 200.

(** The inputs of one call of [loop()]. *)
Record LoopInput := {
  at_ms : Z;
  wifi_connected : bool;
  http_code : Z;
  sd_open_ok : bool
}.

Inductive WakeCause := WAKEUP_TIMER | WAKEUP_GPIO | WAKEUP_UNDEFINED.

(** ** Operations (lines 864-988) *)

Definition emit (d : Device) (es : list Effect) : Device :=
  {| mode := mode d; settings := settings d; effects := effects d ++ es |}.

Definition set_mode (d : Device) (m : Mode) : Device :=
  {| mode := m; settings := settings d; effects := effects d |}.

Definition handleError (d : Device) (message : jstr) (now : Z) : Device :=
  let d := set_mode d (Running {| state := ERROR; stateStartTime := millis now |}) in
  emit d [SerialError message; DrawText 10 200 message; RenderScreen].

(** The dedicated SSID when it is set ([calendarWifiSsid[0] != '\0']),
    otherwise the first saved network ([nullptr] when there is none). *)
Definition chosen_ssid (st : Settings) (store : WifiStore) : option jstr :=
  match calendarWifiSsid st with
  | _ :: _ => Some (calendarWifiSsid st)
  | [] => getFirstSsid store
  end.

Definition connectToWifi (d : Device) (store : WifiStore) (now : Z) : Device :=
  let d := emit d [LoadWifiCredentials; WifiModeSta] in
  match chosen_ssid (settings d) store with
  | None => handleError d (js "No WiFi credentials") now
  | Some s => emit d [WifiBegin s (findCredential store s)]
  end.

Definition onEnter (d : Device) (store : WifiStore) (now : Z) : Device :=
  let d := set_mode d (Running {| state := CONNECTING_WIFI; stateStartTime := millis now |}) in
  connectToWifi d store now.

(** [fetchImage]: the effects and the result. *)
Definition fetchImage (d : Device) (i : LoopInput) : Device * bool :=
  let d := emit d [HttpGet (calendarServerUrl (settings d))] in
  if (http_code i =? HTTP_CODE_OK) && sd_open_ok i then (emit d [WriteSleepBmp], true)
  else (d, false).

(** [(uint64_t)SETTINGS.calendarRefreshHours * 60 * 60 * 1000000ULL],
    each product on 64 bits. *)
Definition sleepDurationUs (hours : Z) : Z := u64 (u64 (u64 (hours * 60) * 60) * 1000000).

Definition scheduleWakeAndSleep (d : Device) : Device :=
  let d := emit d [WifiDisconnect; WifiOff; TimerWakeup (sleepDurationUs (calendarRefreshHours (settings d)));
                   GpioWakeup; DeepSleepStart] in
  set_mode d DeepSleep.

(** [saveAndRender]: the sleep screen becomes [CUSTOM] and the
    [SleepActivity] replaces the calendar activity (the assignment
    [state = SCHEDULING_SLEEP] that follows is to an activity the main
    loop no longer calls). *)
Definition saveAndRender (d : Device) : Device :=
  let s := settings d in
  let d := {| mode := mode d; effects := effects d;
              settings := {| calendarModeEnabled := calendarModeEnabled s;
                             calendarRefreshHours := calendarRefreshHours s;
                             calendarServerUrl := calendarServerUrl s;
                             calendarWifiSsid := calendarWifiSsid s;
                             sleepScreen := CUSTOM |} |} in
  set_mode (emit d [EnterSleepActivity]) InSleepActivity.

Definition activity_loop (d : Device) (a : Activity) (i : LoopInput) : Device :=
  let now := at_ms i in
  let elapsed := u32_sub (millis now) (stateStartTime a) in
  match state a with
  | CONNECTING_WIFI =>
      if wifi_connected i then set_mode d (Running {| state := FETCHING_IMAGE; stateStartTime := millis now |})
      else if decide (elapsed > WIFI_TIMEOUT_MS) then handleError d (js "WiFi timeout") now
      else d
  | FETCHING_IMAGE =>
      let '(d, ok) := fetchImage d i in
      if ok then set_mode d (Running {| state := RENDERING; stateStartTime := stateStartTime a |})
      else if decide (elapsed > HTTP_TIMEOUT_MS) then handleError d (js "HTTP timeout") now
      else d
  | RENDERING => saveAndRender d
  | SCHEDULING_SLEEP => scheduleWakeAndSleep d
  | ERROR => if decide (elapsed > ERROR_DISPLAY_MS) then scheduleWakeAndSleep d else d
  | SAVING_IMAGE => d
  end.

(** One turn of the firmware's main loop. *)
Definition device_loop (d : Device) (i : LoopInput) : Device :=
  match mode d with
  | Running a => activity_loop d a i
  | _ => d
  end.

(** [setup()] after the settings are loaded (lines 1001-1015). *)
Definition setup (cause : WakeCause) (st : Settings) (store : WifiStore) (now : Z) : Device :=
  let d := {| mode := NormalBoot; settings := st; effects := [] |} in
  if (if cause is WAKEUP_TIMER then true else false) && calendarModeEnabled st then onEnter d store now
  else d.

Definition run (d : Device) (inputs : list LoopInput) : Device := foldl device_loop d inputs.

Definition is_running (d : Device) : bool := if mode d is Running _ then true else false.

(** ** Settings (lines 798-803 and 1026-1038) *)

(** The values of [CrossPointSettings] a fresh device starts with. *)
Definition default_settings : Settings :=
  {| calendarModeEnabled := false; calendarRefreshHours := 4; calendarServerUrl := [];
     calendarWifiSsid := []; sleepScreen := SLEEP_SCREEN_OTHER |}.

(** The fields a menu entry points to. *)
Inductive SettingField := FieldEnabled | FieldRefreshHours | FieldServerUrl.

#[export] Instance SettingField_eq_dec : EqDecision SettingField.
Proof. solve_decision. Defined.

Inductive SETTING_TYPE := SUBMENU | BOOL | NUMBER | TEXT | ACTION.

(** An entry of [settingsMenu]: its name, type, target, and the extra
    arguments of the initializer (the range of a [NUMBER], the capacity of
    a [TEXT]). *)
Inductive SettingEntry :=
  | SettingBool (name : jstr) (target : SettingField)
  | SettingNumber (name : jstr) (target : SettingField) (lo hi : Z)
  | SettingText (name : jstr) (target : SettingField) (capacity : Z)
  | SettingAction (name : jstr)
  | SettingSubmenu (name : jstr) (children : list SettingEntry).

Definition setting_type (e : SettingEntry) : SETTING_TYPE :=
  match e with
  | SettingBool _ _ => BOOL
  | SettingNumber _ _ _ _ => NUMBER
  | SettingText _ _ _ => TEXT
  | SettingAction _ => ACTION
  | SettingSubmenu _ _ => SUBMENU
  end.

(** The entry [buildSettingsMenu()] pushes. *)
Definition calendar_menu : SettingEntry :=
  SettingSubmenu (js "Calendar Mode")
    [SettingBool (js "Enabled") FieldEnabled;
     SettingNumber (js "Refresh Hours") FieldRefreshHours 1 24;
     SettingText (js "Server URL") FieldServerUrl 256;
     SettingAction (js "Test Now")].

(** The range a [NUMBER] entry of a submenu gives a field. *)
Definition number_range (menu : SettingEntry) (f : SettingField) : option (Z * Z) :=
  match menu with
  | SettingSubmenu _ children =>
      head (omap (fun e => match e with
                           | SettingNumber _ f' lo hi => if decide (f' = f) then Some (lo, hi) else None
                           | _ => None
                           end) children)
  | _ => None
  end.

(** The clock readings of a run: strictly increasing from [t], all
    before [hi]. *)
Fixpoint clock_advances (t hi : Z) (inputs : list LoopInput) : bool :=
  match inputs with
  | [] => true
  | i :: rest => (t <? at_ms i) && (at_ms i <? hi) && clock_advances (at_ms i) hi rest
  end.

(** The reachable devices: [setup] with the stored settings, then turns
    of the main loop with any inputs. *)
Inductive reachable (st : Settings) (store : WifiStore) : Device -> Prop :=
  | reach_setup cause t : reachable st store (setup cause st store t)
  | reach_loop d i : reachable st store d -> reachable st store (device_loop d i).

(** ** Laws *)

Lemma u32_sub_millis s e : 0 <= e < 2 ^ 32 -> u32_sub (millis (s + e)) (millis s) = e.
Proof.
  intros He. unfold u32_sub, millis, u32.
  rewrite Zminus_mod_idemp_l, Zminus_mod_idemp_r. replace (s + e - s) with e by lia.
  by apply Z.mod_small.
Qed.

Lemma millis_range t : 0 <= millis t < 2 ^ 32.
Proof. unfold millis, u32. apply Z.mod_pos_bound. lia. Qed.

(** The activity's invariant: it never sits in [SAVING_IMAGE], which no
    transition enters and [loop()] has no case for, and its start time is
    an [unsigned long] value. *)
Definition activity_ok (a : Activity) : Prop :=
  state a <> SAVING_IMAGE /\ 0 <= stateStartTime a < 2 ^ 32.

(** The device's invariant: the running activity is well formed, and the
    wake-up timer is armed only on the way into deep sleep. *)
Definition device_inv (d : Device) : Prop :=
  (if mode d is Running a then activity_ok a else True) /\
  (mode d <> DeepSleep -> forall us, TimerWakeup us ∉ effects d).

Definition no_timer (es : list Effect) : Prop := forall us, TimerWakeup us ∉ es.

Lemma no_timer_app es es' : no_timer es -> no_timer es' -> no_timer (es ++ es').
Proof. intros H H' us. rewrite elem_of_app. intros [?|?]; [by eapply H|by eapply H']. Qed.

(** A list of effects written out without [TimerWakeup]. *)
Ltac no_timer_lit :=
  let us := fresh "us" in let Hin := fresh "Hin" in
  intros us Hin; repeat (apply elem_of_cons in Hin as [Hin|Hin]; [discriminate|]);
  by apply elem_of_nil in Hin.

Lemma emit_no_timer d es : no_timer (effects d) -> no_timer es -> no_timer (effects (emit d es)).
Proof. apply no_timer_app. Qed.

Lemma handleError_inv d msg now :
  no_timer (effects d) -> device_inv (handleError d msg now).
Proof.
  intros Hd. split; [split; [done|apply millis_range]|].
  intros _. apply emit_no_timer; [done|no_timer_lit].
Qed.

Lemma connectToWifi_inv d store now :
  (if mode d is Running a then activity_ok a else True) -> no_timer (effects d) ->
  device_inv (connectToWifi d store now).
Proof.
  intros Ha Hd. unfold connectToWifi.
  assert (He : no_timer (effects (emit d [LoadWifiCredentials; WifiModeSta])))
    by (apply emit_no_timer; [done|no_timer_lit]).
  destruct (chosen_ssid _ store); [|by apply handleError_inv].
  split; [done|]. intros _. apply emit_no_timer; [done|no_timer_lit].
Qed.

Lemma fetchImage_spec d i :
  mode (fetchImage d i).1 = mode d /\ settings (fetchImage d i).1 = settings d /\
  (no_timer (effects d) -> no_timer (effects (fetchImage d i).1)).
Proof.
  unfold fetchImage. destruct (_ && _); cbn; (split; [done|split; [done|]]); intros Hd;
    repeat apply no_timer_app; try done; no_timer_lit.
Qed.

Lemma saveAndRender_inv d : no_timer (effects d) -> device_inv (saveAndRender d).
Proof. intros Hd. split; [done|]. intros _. apply emit_no_timer; [done|no_timer_lit]. Qed.

Lemma scheduleWakeAndSleep_inv d : device_inv (scheduleWakeAndSleep d).
Proof. split; [done|]. by intros []. Qed.

Lemma set_mode_running_inv d a : activity_ok a -> no_timer (effects d) -> device_inv (set_mode d (Running a)).
Proof. intros Ha Hd. split; [done|]. intros _. done. Qed.

Lemma device_loop_inv d i : device_inv d -> device_inv (device_loop d i).
Proof.
  intros [Ha Ht]. unfold device_loop. destruct (mode d) as [|a| |] eqn:Hm; try (split; [by rewrite Hm|rewrite Hm; exact Ht]).
  assert (Hd : no_timer (effects d)) by (intros us; apply Ht; discriminate).
  pose proof Ha as [Hs Hr]. unfold activity_loop.
  destruct (state a) eqn:Hst.
  - destruct (wifi_connected i); [apply set_mode_running_inv; [split; [done|apply millis_range]|done]|].
    case_decide; [by apply handleError_inv|]. split; [rewrite Hm; exact Ha|intros _; exact Hd].
  - destruct (fetchImage_spec d i) as (Hfm & _ & Hft). destruct (fetchImage d i) as [d' ok]. cbn in Hfm, Hft.
    destruct ok; [apply set_mode_running_inv; [done|by apply Hft]|].
    case_decide; [by apply handleError_inv, Hft|]. split; [rewrite Hfm, Hm; exact Ha|]. intros _. by apply Hft.
  - done.
  - by apply saveAndRender_inv.
  - apply scheduleWakeAndSleep_inv.
  - destruct (decide (_ > ERROR_DISPLAY_MS)); [apply scheduleWakeAndSleep_inv|]. split; [rewrite Hm; exact Ha|intros _; exact Hd].
Qed.

Lemma setup_inv cause st store t : device_inv (setup cause st store t).
Proof.
  unfold setup. destruct (_ && _); [|split; [done|intros _ ?; apply not_elem_of_nil]].
  apply connectToWifi_inv; [split; [done|apply millis_range]|intros ?; apply not_elem_of_nil].
Qed.

Lemma reachable_inv st store d : reachable st store d -> device_inv d.
Proof. induction 1; [apply setup_inv|by apply device_loop_inv]. Qed.

(** ** Termination of the activity

    A measure on the running activity at the time [T] of the last call:
    the calls that can still come before each timeout, phase by phase.
    Every call of [loop()] at a later time decreases it. *)
Definition phase_budget (a : Activity) (T : Z) : Z :=
  let el := u32_sub (millis T) (stateStartTime a) in
  match state a with
  | CONNECTING_WIFI => WIFI_TIMEOUT_MS + 1 - el + (HTTP_TIMEOUT_MS + 1) + (ERROR_DISPLAY_MS + 2)
  | FETCHING_IMAGE => HTTP_TIMEOUT_MS + 1 - el + (ERROR_DISPLAY_MS + 2)
  | ERROR => ERROR_DISPLAY_MS + 1 - el
  | RENDERING | SCHEDULING_SLEEP => 1
  | SAVING_IMAGE => 0
  end.

Definition measure (d : Device) (T : Z) : Z := if mode d is Running a then phase_budget a T else 0.

(** The ghost state of a run that started at [t0]: the real time [s] the
    stored start time was read at, and the timeout not yet passed at the
    last call [T]. *)
Definition live_inv (t0 T : Z) (d : Device) : Prop :=
  T < t0 + 2 ^ 32 /\
  if mode d is Running a then
    exists s, stateStartTime a = millis s /\ t0 <= s <= T /\
      match state a with
      | CONNECTING_WIFI => T - s <= WIFI_TIMEOUT_MS
      | FETCHING_IMAGE => T - s <= HTTP_TIMEOUT_MS
      | ERROR => T - s <= ERROR_DISPLAY_MS
      | RENDERING | SCHEDULING_SLEEP => True
      | SAVING_IMAGE => False
      end
  else True.

Lemma elapsed_real t0 s T : t0 <= s <= T -> T < t0 + 2 ^ 32 -> u32_sub (millis T) (millis s) = T - s.
Proof. intros Hs HT. replace T with (s + (T - s)) at 1 by lia. apply u32_sub_millis. lia. Qed.

Lemma measure_pos t0 T d : live_inv t0 T d -> is_running d = true -> 1 <= measure d T.
Proof.
  unfold live_inv, measure, is_running, phase_budget. intros [HT Hd] Hr.
  destruct (mode d) as [|a| |]; try done. destruct Hd as (s & Hst & Hs & Hph).
  rewrite Hst, (elapsed_real t0 s T) by lia.
  unfold WIFI_TIMEOUT_MS, HTTP_TIMEOUT_MS, ERROR_DISPLAY_MS in *. destruct (state a); lia.
Qed.

Lemma run_halted d inputs : is_running d = false -> run d inputs = d.
Proof.
  revert d. induction inputs as [|i inputs IH]; intros d Hd; [done|]. cbn [run foldl].
  assert (Hl : device_loop d i = d) by (unfold device_loop, is_running in *; by destruct (mode d)).
  rewrite Hl. by apply IH.
Qed.

Lemma u32_sub_self t : u32_sub (millis t) (millis t) = 0.
Proof. unfold u32_sub. rewrite Z.sub_diag. done. Qed.

(** Entering a timed phase at time [T']. *)
Lemma live_enter t0 T' d st :
  t0 <= T' < t0 + 2 ^ 32 -> st = CONNECTING_WIFI \/ st = FETCHING_IMAGE \/ st = ERROR ->
  mode d = Running {| state := st; stateStartTime := millis T' |} ->
  live_inv t0 T' d /\ measure d T' = phase_budget {| state := st; stateStartTime := millis T' |} T'.
Proof.
  intros HT Hst Hm. unfold live_inv, measure. rewrite Hm. split; [|done].
  split; [lia|]. exists T'. cbn [state stateStartTime]. split; [done|split; [lia|]].
  unfold WIFI_TIMEOUT_MS, HTTP_TIMEOUT_MS, ERROR_DISPLAY_MS. destruct Hst as [->|[->| ->]]; lia.
Qed.

Lemma phase_budget_entry st T' :
  phase_budget {| state := st; stateStartTime := millis T' |} T' =
  match st with
  | CONNECTING_WIFI => 93004 | FETCHING_IMAGE => 63003 | ERROR => 3001
  | RENDERING | SCHEDULING_SLEEP => 1 | SAVING_IMAGE => 0
  end.
Proof. unfold phase_budget. cbn [state stateStartTime]. rewrite u32_sub_self. by destruct st. Qed.

Lemma device_loop_live t0 T d i :
  live_inv t0 T d -> T < at_ms i < t0 + 2 ^ 32 ->
  live_inv t0 (at_ms i) (device_loop d i) /\
  (is_running (device_loop d i) = true -> measure (device_loop d i) (at_ms i) < measure d T).
Proof.
  intros [HT Hd] Hi. unfold device_loop.
  destruct (mode d) as [|a| |] eqn:Hm;
    try (split; [split; [lia|by rewrite Hm]|by unfold is_running; rewrite Hm]).
  destruct Hd as (s & Hst & Hs & Hph).
  assert (Hel : u32_sub (millis (at_ms i)) (stateStartTime a) = at_ms i - s)
    by (rewrite Hst; apply (elapsed_real t0); lia).
  assert (Hm0 : measure d T = phase_budget a T) by (unfold measure; by rewrite Hm).
  unfold phase_budget in Hm0. rewrite Hst, (elapsed_real t0 s T) in Hm0 by lia.
  rewrite Hm0. unfold activity_loop. rewrite Hel.
  unfold WIFI_TIMEOUT_MS, HTTP_TIMEOUT_MS, ERROR_DISPLAY_MS in *.
  destruct (state a) eqn:Hsa.
  - destruct (wifi_connected i).
    { destruct (live_enter t0 (at_ms i) (set_mode d (Running {| state := FETCHING_IMAGE; stateStartTime := millis (at_ms i) |})) FETCHING_IMAGE)
        as [Hl ->]; [lia|auto|done|]. rewrite phase_budget_entry. split; [done|lia]. }
    destruct (decide (at_ms i - s > 30000)).
    { destruct (live_enter t0 (at_ms i) (handleError d (js "WiFi timeout") (at_ms i)) ERROR)
        as [Hl ->]; [lia|auto|done|]. rewrite phase_budget_entry. split; [done|lia]. }
    split; [split; [lia|rewrite Hm; exists s; rewrite Hsa; repeat split; try done; lia]|].
    intros _. unfold measure, phase_budget, WIFI_TIMEOUT_MS, HTTP_TIMEOUT_MS, ERROR_DISPLAY_MS. rewrite Hm, Hsa, Hel. lia.
  - unfold fetchImage. destruct (_ && _).
    { cbn -[millis]. split; [split; [lia|exists s; cbn; repeat split; try done; lia]|]. intros _. cbn. lia. }
    destruct (decide (at_ms i - s > 60000)).
    { destruct (live_enter t0 (at_ms i) (handleError (emit d [HttpGet (calendarServerUrl (settings d))]) (js "HTTP timeout") (at_ms i)) ERROR)
        as [Hl ->]; [lia|auto|done|]. rewrite phase_budget_entry. split; [done|lia]. }
    split; [split; [lia|cbn; rewrite Hm; exists s; rewrite Hsa; repeat split; try done; lia]|].
    intros _. unfold measure, phase_budget, WIFI_TIMEOUT_MS, HTTP_TIMEOUT_MS, ERROR_DISPLAY_MS. cbn. rewrite Hm, Hsa, Hel. lia.
  - done.
  - split; [by split; [lia|]|done].
  - split; [by split; [lia|]|done].
  - destruct (decide (at_ms i - s > 3000)); [split; [by split; [lia|]|done]|].
    split; [split; [lia|rewrite Hm; exists s; rewrite Hsa; repeat split; try done; lia]|].
    intros _. unfold measure, phase_budget, WIFI_TIMEOUT_MS, HTTP_TIMEOUT_MS, ERROR_DISPLAY_MS. rewrite Hm, Hsa, Hel. lia.
Qed.

Lemma run_measure t0 inputs d T :
  live_inv t0 T d -> clock_advances T (t0 + 2 ^ 32) inputs = true ->
  is_running (run d inputs) = true -> Z.of_nat (length inputs) < measure d T.
Proof.
  revert d T. induction inputs as [|i inputs IH]; intros d T Hl Hc Hr.
  - cbn in *. pose proof (measure_pos t0 T d Hl Hr). lia.
  - cbn [clock_advances] in Hc. apply andb_prop in Hc as [[Hlo Hhi]%andb_prop Hc].
    apply Z.ltb_lt in Hlo, Hhi. cbn [run foldl] in Hr. fold (run (device_loop d i) inputs) in Hr.
    destruct (device_loop_live t0 T d i Hl ltac:(lia)) as [Hl' Hdec].
    destruct (is_running (device_loop d i)) eqn:Hri; [|by rewrite run_halted in Hr; [congruence|]].
    specialize (IH _ _ Hl' Hc Hr). specialize (Hdec eq_refl). cbn [length]. lia.
Qed.

Lemma setup_live cause st store t0 :
  live_inv t0 t0 (setup cause st store t0) /\ measure (setup cause st store t0) t0 <= 93004.
Proof.
  unfold setup. destruct (_ && _); [|split; [split; [lia|done]|done]].
  unfold onEnter, connectToWifi. destruct (chosen_ssid _ store) as [ssid|].
  - match goal with |- context [live_inv t0 t0 ?d] =>
      destruct (live_enter t0 t0 d CONNECTING_WIFI) as [Hl ->]; [lia|auto|done|] end.
    rewrite phase_budget_entry. split; [done|lia].
  - match goal with |- context [handleError ?d ?m t0] =>
      destruct (live_enter t0 t0 (handleError d m t0) ERROR) as [Hl ->]; [lia|auto|done|] end.
    rewrite phase_budget_entry. split; [done|lia].
Qed.

Lemma reachable_run st store d inputs : reachable st store d -> reachable st store (run d inputs).
Proof.
  revert d. induction inputs as [|i inputs IH]; intros d Hd; [done|].
  cbn [run foldl]. apply IH. by constructor.
Qed.

(** ** The activity's contract *)

(** C25: The WiFi timeout survives the rollover of [millis()]: in
    [CONNECTING_WIFI] with the network still down, a call of [loop()]
    [e] milliseconds after the phase began (any [e] below [2^32], also
    when [millis()] has wrapped around in between) moves to [ERROR],
    stamped with the call's time, exactly when [e] exceeds
    [WIFI_TIMEOUT_MS], and otherwise leaves the activity as it is. *)
Theorem wifi_timeout_rollover d s e i :
  mode d = Running {| state := CONNECTING_WIFI; stateStartTime := millis s |} ->
  wifi_connected i = false -> at_ms i = s + e -> 0 <= e < 2 ^ 32 ->
  mode (device_loop d i) =
    Running (if decide (e > WIFI_TIMEOUT_MS) then {| state := ERROR; stateStartTime := millis (s + e) |}
             else {| state := CONNECTING_WIFI; stateStartTime := millis s |}).
Proof.
  intros Hm Hw Hi He. unfold device_loop. rewrite Hm. unfold activity_loop.
  cbn [state stateStartTime]. rewrite Hw, Hi, u32_sub_millis by done.
  destruct (decide (e > WIFI_TIMEOUT_MS)); [reflexivity|]. by rewrite Hm.
Qed.

Lemma sleepDurationUs_spec hours :
  0 <= hours < 256 -> sleepDurationUs hours = hours * 3600000000 /\ sleepDurationUs hours < 2 ^ 64.
Proof.
  intros Hh. unfold sleepDurationUs, u64.
  rewrite (Z.mod_small (hours * 60)), (Z.mod_small (hours * 60 * 60)), Z.mod_small by lia. lia.
Qed.

(** C26: The sleep duration does not overflow: for every refresh
    setting of the [uint8_t] range, the three 64-bit products give the
    exact number of microseconds [hours * 3600 * 10^6], which is below
    [2^64]. *)
Theorem sleepDurationUs_exact hours :
  0 <= hours < 256 -> sleepDurationUs hours = hours * 3600000000 /\ sleepDurationUs hours < 2 ^ 64.
Proof. apply sleepDurationUs_spec. Qed.

(** C27: The invariant of the activity, by induction on the runs: in
    every reachable device the running calendar activity is never in
    [SAVING_IMAGE] (an enumerator no transition enters and [loop()] has no
    case for, where the activity would hang) and its [stateStartTime] is an
    [unsigned long] value. *)
Theorem reachable_activity_ok st store d a :
  reachable st store d -> mode d = Running a -> state a <> SAVING_IMAGE /\ 0 <= stateStartTime a < 2 ^ 32.
Proof. intros Hr Hm. destruct (reachable_inv st store d Hr) as [Ha _]. by rewrite Hm in Ha. Qed.

(** C28: [setup] dispatches on the wake cause: a timer wake with the
    calendar mode enabled enters the calendar activity at the boot time,
    connecting to the chosen network or, without any SSID, in [ERROR];
    any other wake keeps the normal boot and touches no hardware. *)
Theorem setup_dispatch cause st store t :
  let d := setup cause st store t in
  if (if cause is WAKEUP_TIMER then true else false) && calendarModeEnabled st then
    mode d = Running {| state := if chosen_ssid st store is Some _ then CONNECTING_WIFI else ERROR;
                        stateStartTime := millis t |}
  else mode d = NormalBoot /\ effects d = [].
Proof.
  unfold setup. destruct (_ && _); [|done].
  unfold onEnter, connectToWifi. cbn [settings set_mode emit]. by destruct (chosen_ssid st store).
Qed.

(** C29: On the success path the wake-up timer is never armed:
    [saveAndRender] hands the device to the [SleepActivity], so the
    calendar activity's [loop()] never reaches [SCHEDULING_SLEEP] and
    [esp_sleep_enable_timer_wakeup] is never called; in every reachable
    device that is in the [SleepActivity], no [TimerWakeup] was issued
    (the design's flow ends with "Set Timer, Deep Sleep"). *)
Theorem success_path_no_timer st store d :
  reachable st store d -> mode d = InSleepActivity -> forall us, TimerWakeup us ∉ effects d.
Proof. intros Hr Hm. destruct (reachable_inv st store d Hr) as [_ Ht]. apply Ht. by rewrite Hm. Qed.

(** C30: Liveness: whatever WiFi and the server do, a run of the
    calendar activity ends within 93004 calls of [loop()] (30001 while
    connecting, 60001 while fetching, 3001 in [ERROR], one to render),
    when [millis()] advances between calls and the run lasts less than
    [2^32] ms: the device is then in the [SleepActivity] or in deep
    sleep. *)
Theorem calendar_mode_halts cause st store t0 inputs :
  clock_advances t0 (t0 + 2 ^ 32) inputs = true -> 93004 <= Z.of_nat (length inputs) ->
  is_running (run (setup cause st store t0) inputs) = false.
Proof.
  intros Hc Hlen. destruct (is_running _) eqn:Hr; [|done]. exfalso.
  destruct (setup_live cause st store t0) as [Hl Hm].
  pose proof (run_measure t0 inputs _ t0 Hl Hc Hr). lia.
Qed.

(** The wake-up timer of a run: the refresh setting is never changed,
    every [TimerWakeup] issued carries the sleep duration of that
    setting, and a device in deep sleep has issued one. *)
Definition timer_inv (H : Z) (d : Device) : Prop :=
  calendarRefreshHours (settings d) = H /\
  (forall us, TimerWakeup us ∈ effects d -> us = sleepDurationUs H) /\
  (mode d = DeepSleep -> TimerWakeup (sleepDurationUs H) ∈ effects d).

Lemma timer_inv_emit H d es m :
  timer_inv H d -> no_timer es -> m <> DeepSleep ->
  timer_inv H {| mode := m; settings := settings d; effects := effects d ++ es |}.
Proof.
  intros (Hh & Ht & _) Hes Hm. split_and!; [done| |cbn; intros ?; contradiction].
  intros us. cbn [effects]. rewrite elem_of_app. intros [?|?]; [by apply Ht|by exfalso; eapply Hes].
Qed.

Lemma timer_inv_set_mode H d m : timer_inv H d -> m <> DeepSleep -> timer_inv H (set_mode d m).
Proof. intros (Hh & Ht & _) Hm. split_and!; [done|done|cbn; intros ?; contradiction]. Qed.

Lemma timer_inv_handleError H d msg now : timer_inv H d -> timer_inv H (handleError d msg now).
Proof.
  intros Hd. unfold handleError, emit. cbn [mode settings effects set_mode].
  apply (timer_inv_emit H d); [done|no_timer_lit|done].
Qed.

Lemma fetchImage_effects d i :
  exists es, (fetchImage d i).1 = {| mode := mode d; settings := settings d; effects := effects d ++ es |} /\
    no_timer es.
Proof.
  unfold fetchImage. destruct (_ && _).
  - exists [HttpGet (calendarServerUrl (settings d)); WriteSleepBmp].
    split; [unfold emit; cbn; by rewrite <- app_assoc|no_timer_lit].
  - exists [HttpGet (calendarServerUrl (settings d))]. split; [reflexivity|no_timer_lit].
Qed.

Lemma device_loop_timer H d i : timer_inv H d -> timer_inv H (device_loop d i).
Proof.
  intros Hinv. pose proof Hinv as (Hh & Ht & Hds). unfold device_loop.
  destruct (mode d) as [|a| |] eqn:Hm; try exact Hinv.
  assert (Hsched : timer_inv H (scheduleWakeAndSleep d)).
  { split_and!; [done| |intros _; cbn; rewrite Hh; set_solver].
    intros us. cbn. rewrite elem_of_app. intros [?|Hin]; [by apply Ht|].
    rewrite Hh in Hin. set_solver. }
  unfold activity_loop. destruct (state a).
  - destruct (wifi_connected i); [by apply timer_inv_set_mode|].
    case_decide; [by apply timer_inv_handleError|exact Hinv].
  - destruct (fetchImage_effects d i) as (es & Hf & Hes).
    destruct (fetchImage d i) as [d' ok]. cbn in Hf. subst d'.
    assert (Hd' : timer_inv H {| mode := mode d; settings := settings d; effects := effects d ++ es |})
      by (apply timer_inv_emit; [done|done|by rewrite Hm]).
    destruct ok; [by apply timer_inv_set_mode|].
    case_decide; [by apply timer_inv_handleError|exact Hd'].
  - exact Hinv.
  - split_and!; [done| |done]. intros us. cbn. rewrite elem_of_app. intros [?|Hin]; [by apply Ht|set_solver].
  - exact Hsched.
  - case_decide; [exact Hsched|exact Hinv].
Qed.

Lemma reachable_timer st store d :
  reachable st store d -> timer_inv (calendarRefreshHours st) d.
Proof.
  induction 1 as [cause t|d i _ IH]; [|by apply device_loop_timer].
  unfold setup. destruct (_ && _); [|split_and!; [done|intros ? []%not_elem_of_nil|done]].
  unfold onEnter, connectToWifi. destruct (chosen_ssid _ store).
  all: split_and!; [done| |cbn; intros ?; discriminate].
  all: intros us Hin; exfalso; cbn in Hin;
    repeat (apply elem_of_cons in Hin as [Hin|Hin]; [discriminate|]); by apply elem_of_nil in Hin.
Qed.

(** C32: The device sleeps for the configured interval: for every
    refresh setting the settings menu accepts (its "Refresh Hours" entry,
    1 to 24), every run that ends in deep sleep has armed the wake-up
    timer, and every timer it armed is exactly that many hours in
    microseconds. *)
Theorem deep_sleep_timer st store d lo hi :
  number_range calendar_menu FieldRefreshHours = Some (lo, hi) ->
  lo <= calendarRefreshHours st <= hi ->
  reachable st store d -> mode d = DeepSleep ->
  TimerWakeup (calendarRefreshHours st * 3600000000) ∈ effects d /\
  forall us, TimerWakeup us ∈ effects d -> us = calendarRefreshHours st * 3600000000.
Proof.
  cbn. intros [= <- <-] Hh Hr Hm. destruct (reachable_timer st store d Hr) as (_ & Ht & Hds).
  destruct (sleepDurationUs_spec (calendarRefreshHours st) ltac:(lia)) as [Heq _].
  rewrite Heq in Ht, Hds. split; [by apply Hds|exact Ht].
Qed.

(** ** Witnesses *)

Definition sample_settings : Settings :=
  {| calendarModeEnabled := true; calendarRefreshHours := 4;
     calendarServerUrl := js "http://192.168.1.100:8080/calendar.bmp";
     calendarWifiSsid := []; sleepScreen := SLEEP_SCREEN_OTHER |}.

Definition sample_store : WifiStore :=
  {| getFirstSsid := Some (js "home"); findCredential := fun _ => Some (js "secret") |}.

Definition tick (t : Z) (connected : bool) (code : Z) : LoopInput :=
  {| at_ms := t; wifi_connected := connected; http_code := code; sd_open_ok := true |}.

(** Connected, downloaded, rendered. *)
Definition success_inputs : list LoopInput := [tick 1500 true 0; tick 2000 true 200; tick 2500 true 200].

(** WiFi never comes up, one call per millisecond from [t]. *)
Fixpoint offline_ticks (n : nat) (t : Z) : list LoopInput :=
  match n with
  | O => []
  | S n => tick t false 0 :: offline_ticks n (t + 1)
  end.

Definition offline_inputs : list LoopInput := offline_ticks (Z.to_nat 93004) 1.

Lemma length_offline_ticks n t : length (offline_ticks n t) = n.
Proof. revert t. induction n; intros t; cbn; [done|by rewrite IHn]. Qed.

Definition success_device : Device := run (setup WAKEUP_TIMER sample_settings sample_store 1000) success_inputs.

Lemma wifi_timeout_rollover_witness :
  (mode (setup WAKEUP_TIMER sample_settings sample_store (2 ^ 32 - 1000)) =
     Running {| state := CONNECTING_WIFI; stateStartTime := millis (2 ^ 32 - 1000) |} /\
   wifi_connected (tick (2 ^ 32 - 1000 + 31000) false 0) = false /\
   at_ms (tick (2 ^ 32 - 1000 + 31000) false 0) = 2 ^ 32 - 1000 + 31000 /\ 0 <= 31000 < 2 ^ 32) /\
  mode (device_loop (setup WAKEUP_TIMER sample_settings sample_store (2 ^ 32 - 1000))
          (tick (2 ^ 32 - 1000 + 31000) false 0)) =
    Running (if decide (31000 > WIFI_TIMEOUT_MS)
             then {| state := ERROR; stateStartTime := millis (2 ^ 32 - 1000 + 31000) |}
             else {| state := CONNECTING_WIFI; stateStartTime := millis (2 ^ 32 - 1000) |}).
Proof.
  assert (Hm : mode (setup WAKEUP_TIMER sample_settings sample_store (2 ^ 32 - 1000)) =
     Running {| state := CONNECTING_WIFI; stateStartTime := millis (2 ^ 32 - 1000) |}) by reflexivity.
  split; [split; [exact Hm|split; [reflexivity|split; [reflexivity|lia]]]|].
  apply wifi_timeout_rollover; [exact Hm|reflexivity|reflexivity|lia].
Defined.

Lemma sleepDurationUs_exact_witness :
  0 <= 24 < 256 /\ sleepDurationUs 24 = 24 * 3600000000 /\ sleepDurationUs 24 < 2 ^ 64.
Proof. split; [lia|apply sleepDurationUs_exact; lia]. Defined.

Lemma reachable_activity_ok_witness :
  (reachable sample_settings sample_store (run (setup WAKEUP_TIMER sample_settings sample_store 1000) [tick 1500 true 0]) /\
  mode (run (setup WAKEUP_TIMER sample_settings sample_store 1000) [tick 1500 true 0]) =
     Running {| state := FETCHING_IMAGE; stateStartTime := 1500 |}) /\
  FETCHING_IMAGE <> SAVING_IMAGE /\ 0 <= 1500 < 2 ^ 32.
Proof.
  assert (Hr : reachable sample_settings sample_store (run (setup WAKEUP_TIMER sample_settings sample_store 1000) [tick 1500 true 0]))
    by (apply reachable_run; constructor).
  split; [split; [exact Hr|reflexivity]|].
  apply (reachable_activity_ok _ _ _ {| state := FETCHING_IMAGE; stateStartTime := 1500 |} Hr). reflexivity.
Defined.

Lemma success_path_no_timer_witness :
  (reachable sample_settings sample_store success_device /\ mode success_device = InSleepActivity) /\
  forall us, TimerWakeup us ∉ effects success_device.
Proof.
  assert (Hr : reachable sample_settings sample_store success_device) by (apply reachable_run; constructor).
  split; [split; [exact Hr|reflexivity]|].
  apply (success_path_no_timer sample_settings sample_store); [exact Hr|reflexivity].
Defined.

Lemma calendar_mode_halts_witness :
  (clock_advances 0 (0 + 2 ^ 32) offline_inputs = true /\ 93004 <= Z.of_nat (length offline_inputs)) /\
  is_running (run (setup WAKEUP_TIMER sample_settings sample_store 0) offline_inputs) = false.
Proof.
  assert (Hc : clock_advances 0 (0 + 2 ^ 32) offline_inputs = true) by (vm_compute; reflexivity).
  assert (Hl : 93004 <= Z.of_nat (length offline_inputs))
    by (unfold offline_inputs; rewrite length_offline_ticks; lia).
  split; [split; [exact Hc|exact Hl]|].
  apply calendar_mode_halts; [exact Hc|exact Hl].
Defined.

(** WiFi never comes up: [ERROR] after the timeout, deep sleep after the
    error display. *)
Definition offline_device : Device :=
  run (setup WAKEUP_TIMER sample_settings sample_store 1000) [tick 31500 false 0; tick 35000 false 0].

Lemma deep_sleep_timer_witness :
  (number_range calendar_menu FieldRefreshHours = Some (1, 24) /\
   1 <= calendarRefreshHours sample_settings <= 24 /\
   reachable sample_settings sample_store offline_device /\ mode offline_device = DeepSleep) /\
  (TimerWakeup (calendarRefreshHours sample_settings * 3600000000) ∈ effects offline_device /\
   forall us, TimerWakeup us ∈ effects offline_device -> us = calendarRefreshHours sample_settings * 3600000000).
Proof.
  assert (Hr : reachable sample_settings sample_store offline_device) by (apply reachable_run; constructor).
  split; [split; [reflexivity|split; [cbn; lia|split; [exact Hr|reflexivity]]]|].
  apply (deep_sleep_timer sample_settings sample_store offline_device 1 24); [reflexivity|cbn; lia|exact Hr|reflexivity].
Defined.
